(** * A shallow embedding of [hello_world/app.py]

    The module is a webhook handler for a chat-platform bot.  Every
    function of the handler is embedded below as a computation in a small
    state-and-exception monad:

    - a computation runs from a balance table and yields its outcome,
      the table it leaves and the chronological list of the effects it
      performed (table calls, HTTP calls, parsing, signature
      verification, and the lines printed when something fails);
    - an exception is a class with its text, and [try_except] dispatches
      on the class as Python's [except] clauses do;
    - everything that is not written in the module (the libraries, the
      network, the configuration) is gathered in a record [World], over
      which every theorem is universally quantified.

    [register_commands], the deployment script, is not part of the
    handler: it is embedded apart, against a platform given as the
    sequence of its answers. *)

From stdpp Require Import base strings gmap list pretty.
From Stdlib Require Import ZArith Strings.Byte Ascii.

Local Open Scope Z_scope.
Local Open Scope string_scope.
Set Warnings "-register-all,-clear-no-such-hyp".

(** ** Values *)

(** Values decoded from JSON: [None], [bool], [int], [str], [list] and
    [dict].  Numbers are integers, as the identifiers, types and token
    counts of the interactions are; a dict is kept as its items in lookup
    order; a Python [str] is a string of bytes. *)
Inductive json :=
| JNull
| JBool (b : bool)
| JNum (n : Z)
| JStr (s : string)
| JArr (items : list json)
| JObj (fields : list (string * json)).

Definition bytes := list byte.

Global Instance byte_eq_decision : EqDecision byte := Byte.byte_eq_dec.

Fixpoint assoc {A} (k : string) (l : list (string * A)) : option A :=
  match l with
  | [] => None
  | (k', v) :: l' => if String.eqb k k' then Some v else assoc k l'
  end.

(** [needle in haystack] on two strings. *)
Fixpoint starts_with (p s : string) : bool :=
  match p, s with
  | EmptyString, _ => true
  | String a p', String b s' => if Ascii.eqb a b then starts_with p' s' else false
  | String _ _, EmptyString => false
  end.

Fixpoint contains (needle hay : string) : bool :=
  starts_with needle hay ||
  match hay with
  | EmptyString => false
  | String _ hay' => contains needle hay'
  end.

(** ** Exceptions *)

Inductive exn_class :=
| Exception
| KeyError
| IndexError
| TypeError
| AttributeError
| ValueError
| JSONDecodeError
| BadSignatureError
| RequestException
| HTTPError
| RequestsJSONDecodeError
| URLError
| UnboundLocalError.

Global Instance exn_class_eq_dec : EqDecision exn_class.
Proof. solve_decision. Defined.

(** [issubclass c d].  [json.JSONDecodeError] derives from [ValueError];
    [requests]' [HTTPError] and its own [JSONDecodeError] derive from
    [RequestException], the latter from [json.JSONDecodeError] as well.
    Library classes that no [except] clause of the module names are
    represented by the nearest class that one does name. *)
Definition issubclass (c d : exn_class) : bool :=
  match d with
  | Exception => true
  | ValueError =>
      bool_decide (c = ValueError) || bool_decide (c = JSONDecodeError)
      || bool_decide (c = RequestsJSONDecodeError)
  | JSONDecodeError =>
      bool_decide (c = JSONDecodeError) || bool_decide (c = RequestsJSONDecodeError)
  | RequestException =>
      bool_decide (c = RequestException) || bool_decide (c = HTTPError)
      || bool_decide (c = RequestsJSONDecodeError)
  | _ => bool_decide (c = d)
  end.

(** An exception: its class, [str(e)], and the text of [e.response] when
    the exception carries a response. *)
Record exn := Exn {
  e_class : exn_class;
  e_str : string;
  e_response : option string
}.

Definition mk_exn (c : exn_class) (msg : string) : exn := Exn c msg None.

Definition isinstance (e : exn) (c : exn_class) : bool := issubclass (e_class e) c.
Arguments isinstance : simpl never.

(** ** Effects, runs and the monad *)

Inductive effect :=
| GetItem (user_id : json)
| UpdateItem (user_id : json) (amount : Z)
| HttpPost (url : string) (hdrs : list (string * string)) (payload : json)
| HttpGet (url : json)
| UrlOpen (url : json)
| JsonLoads (body : string)
| Verify (message : string) (signature : bytes)
| Stdout (line : string).

(** The outcome of a call: [Raise e] or [Return a]. *)
Abbreviation Raise := (@inl exn _).
Abbreviation Return := (@inr exn _).

Global Instance sum_ret : MRet (sum exn) := λ A a, inr a.
Global Instance sum_bind : MBind (sum exn) :=
  λ A B k r, match r with inl e => inl e | inr a => k a end.

(** A run of a computation from a balance table: its outcome, the table
    it leaves, and the effects it performed, in order.  An item of the
    table is its optional [tokens] attribute. *)
Record run (A : Type) := Run {
  value : exn + A;
  final : gmap string (option Z);
  effects : list effect
}.
Arguments Run {A} value final effects.
Arguments value {A} r.
Arguments final {A} r.
Arguments effects {A} r.

Definition M (A : Type) : Type := gmap string (option Z) → run A.

Definition ret {A} (a : A) : M A := λ t, Run (Return a) t [].
Definition raise {A} (e : exn) : M A := λ t, Run (Raise e) t [].
Definition bind {A B} (m : M A) (k : A → M B) : M B :=
  λ t, match m t with
       | Run (inr a) t' tr =>
           match k a t' with
           | Run r t'' tr' => Run r t'' (tr ++ tr')
           end
       | Run (inl e) t' tr => Run (Raise e) t' tr
       end.

Global Instance M_ret : MRet M := @ret.
Global Instance M_bind : MBind M := λ A B k m, bind m k.

Definition emit (ev : effect) : M unit := λ t, Run (Return tt) t [ev].
Definition print (line : string) : M unit := emit (Stdout line).
Definition lift {A} (r : exn + A) : M A := λ t, Run r t [].

(** [try: body / except c1 as e: h1 e / except c2 as e: h2 e / ...]: the
    first clause whose class the exception is an instance of handles it;
    an exception raised by a handler is not caught by its siblings. *)
Definition try_except {A} (body : M A) (handlers : list (exn_class * (exn → M A))) : M A :=
  λ t, match body t with
       | Run (inr a) t' tr => Run (Return a) t' tr
       | Run (inl e) t' tr =>
           match find (λ h, isinstance e h.1) handlers with
           | Some h =>
               match h.2 e t' with
               | Run r t'' tr' => Run r t'' (tr ++ tr')
               end
           | None => Run (Raise e) t' tr
           end
       end.

(** ** Python primitives on decoded values *)

Definition type_name (v : json) : string :=
  match v with
  | JNull => "NoneType"
  | JBool _ => "bool"
  | JNum _ => "int"
  | JStr _ => "str"
  | JArr _ => "list"
  | JObj _ => "dict"
  end.

(** [bool(v)] *)
Definition truthy (v : json) : bool :=
  match v with
  | JNull => false
  | JBool b => b
  | JNum n => negb (Z.eqb n 0)
  | JStr s => negb (String.eqb s EmptyString)
  | JArr l => negb (bool_decide (l = []))
  | JObj l => match l with [] => false | _ => true end
  end.

(** [v.get(k, d)] *)
Definition py_get (v : json) (k : string) (d : json) : exn + json :=
  match v with
  | JObj kv => Return (default d (assoc k kv))
  | _ => Raise (mk_exn AttributeError
                  ("'" +:+ type_name v +:+ "' object has no attribute 'get'"))
  end.

(** [v[k]] for a string [k] *)
Definition py_getitem (v : json) (k : string) : exn + json :=
  match v with
  | JObj kv =>
      match assoc k kv with
      | Some x => Return x
      | None => Raise (mk_exn KeyError ("'" +:+ k +:+ "'"))
      end
  | JArr _ => Raise (mk_exn TypeError "list indices must be integers or slices, not str")
  | JStr _ => Raise (mk_exn TypeError "string indices must be integers, not 'str'")
  | _ => Raise (mk_exn TypeError ("'" +:+ type_name v +:+ "' object is not subscriptable"))
  end.

(** [v[0]] *)
Definition py_getitem0 (v : json) : exn + json :=
  match v with
  | JArr [] => Raise (mk_exn IndexError "list index out of range")
  | JArr (x :: _) => Return x
  | JStr EmptyString => Raise (mk_exn IndexError "string index out of range")
  | JStr (String c _) => Return (JStr (String c EmptyString))
  | JObj _ => Raise (mk_exn KeyError "0")
  | _ => Raise (mk_exn TypeError ("'" +:+ type_name v +:+ "' object is not subscriptable"))
  end.

(** [bytes.fromhex]: two hexadecimal digits per byte, ASCII whitespace
    skipped before a byte; the error names the position of the offending
    character. *)
Definition hex_digit (c : ascii) : option N :=
  let n := N_of_ascii c in
  if (48 <=? n)%N && (n <=? 57)%N then Some (n - 48)%N
  else if (97 <=? n)%N && (n <=? 102)%N then Some (n - 87)%N
  else if (65 <=? n)%N && (n <=? 70)%N then Some (n - 55)%N
  else None.

Definition is_space (c : ascii) : bool :=
  let n := N_of_ascii c in
  (n =? 32)%N || ((9 <=? n)%N && (n <=? 13)%N).

Definition byte_of_digits (hi lo : N) : byte :=
  default x00 (Byte.of_N (16 * hi + lo)).

Fixpoint first_non_ascii (s : string) (pos : N) : option N :=
  match s with
  | EmptyString => None
  | String c s' => if (128 <=? N_of_ascii c)%N then Some pos else first_non_ascii s' (pos + 1)
  end.

Fixpoint fromhex_from (s : string) (pos : N) : N + bytes :=
  match s with
  | EmptyString => inr []
  | String c rest =>
      if is_space c then fromhex_from rest (pos + 1)
      else match hex_digit c, rest with
           | None, _ => inl pos
           | Some _, EmptyString => inl (pos + 1)%N
           | Some hi, String d rest' =>
               match hex_digit d with
               | None => inl (pos + 1)%N
               | Some lo =>
                   match fromhex_from rest' (pos + 2) with
                   | inl p => inl p
                   | inr bs => inr (byte_of_digits hi lo :: bs)
                   end
               end
           end
  end.

Definition fromhex_error (pos : N) : exn :=
  mk_exn ValueError
    ("non-hexadecimal number found in fromhex() arg at position " +:+ pretty pos).

Definition str_fromhex (s : string) : exn + bytes :=
  match first_non_ascii s 0 with
  | Some p => inl (fromhex_error p)
  | None =>
      match fromhex_from s 0 with
      | inl p => inl (fromhex_error p)
      | inr bs => inr bs
      end
  end.

Definition bytes_fromhex (v : option json) : exn + bytes :=
  match v with
  | Some (JStr s) => str_fromhex s
  | Some JNull | None => Raise (mk_exn TypeError "fromhex() argument must be str, not None")
  | Some v' => Raise (mk_exn TypeError
                 ("fromhex() argument must be str, not " +:+ type_name v'))
  end.

(** ** The world outside the module *)

(** What [requests] hands back for a request that got a response. *)
Record http_response := HttpResponse {
  status_code : Z;
  reason : string;
  resp_url : string;
  text : string;
  content : bytes;
  content_type : option string;   (* [response.headers.get('Content-Type')] *)
  json_body : exn + json          (* [response.json()] *)
}.

(** The configuration read from the environment, the library functions
    and the remote services.  A call that raises is [inl e] (or [Some e]
    where there is no result).  [json.loads] raises [JSONDecodeError] on
    a text that is not JSON, and the decoder has other failures besides,
    a [RecursionError] on a deep nesting and a plain [ValueError] on a
    number of too many digits among them: [json_loads] can raise any
    exception. *)
Record World := {
  PUBLIC_KEY : option string;
  BOT_TOKEN : option string;
  api_key : option string;
  json_loads : string → exn + json;
  json_dumps : json → string;
  py_repr : json → string;                    (* [str()] of a list or dict *)
  b64decode_utf8 : string → exn + string;     (* [b64decode(s).decode('utf-8')] *)
  b64encode : bytes → string;
  VerifyKey : bytes → option exn;
  verify : bytes → string → bytes → option exn;
  get_item : json → option exn;
  update_item : json → Z → option exn;
  post : string → list (string * string) → json → exn + http_response;
  get : json → exn + http_response;
  urlopen : json → exn + bytes
}.

(** The lambda's reply. *)
Record response := Response {
  statusCode : Z;
  headers : list (string * string);
  body : string
}.

Definition nl : string := String (ascii_of_nat 10) EmptyString.

(** [str(v)], as an f-string renders a value. *)
Definition py_str (repr : json → string) (v : json) : string :=
  match v with
  | JNull => "None"
  | JBool true => "True"
  | JBool false => "False"
  | JNum n => pretty n
  | JStr s => s
  | _ => repr v
  end.

Definition opt_str (o : option string) : string := default "None" o.

(** [command == 'name'] and [v == 1] *)
Definition eq_str (v : json) (s : string) : bool :=
  match v with JStr s' => String.eqb s' s | _ => false end.

Definition eq_one (v : json) : bool :=
  match v with JNum n => Z.eqb n 1 | JBool b => b | _ => false end.

(** [needle in v] *)
Definition py_in (needle : string) (v : json) : exn + bool :=
  match v with
  | JStr s => Return (contains needle s)
  | JArr l => Return (existsb (λ x, eq_str x needle) l)
  | JObj kv => Return (bool_decide (is_Some (assoc needle kv)))
  | _ => Raise (mk_exn TypeError
                  ("argument of type '" +:+ type_name v +:+ "' is not iterable"))
  end.

Definition shop_items : list (string * Z) :=
  [("item1", 10); ("item2", 20); ("item3", 30)].

(** [item in shop_items], with the price when it is. *)
Definition shop_lookup (item : json) : exn + option Z :=
  match item with
  | JStr s => Return (assoc s shop_items)
  | JArr _ | JObj _ =>
      Raise (mk_exn TypeError ("unhashable type: '" +:+ type_name item +:+ "'"))
  | _ => Return None
  end.

Definition token_mapping : list (string * Z) :=
  [("Plastic", 1); ("Paper", 1); ("Glass", 2); ("Metal", 3); ("Organic", 1);
   ("Textile", 2); ("Electronic", 4); ("Wood", 2); ("Rubber", 3); ("Ceramic", 2);
   ("Composite", 2); ("Hazardous", 5); ("Medical", 4); ("Miscellaneous", 1)].

Definition std_headers : list (string * string) :=
  [("Content-Type", "application/json"); ("Access-Control-Allow-Origin", "*")].

Definition key_schema_error (op : string) : exn :=
  mk_exn Exception
    ("An error occurred (ValidationException) when calling the " +:+ op +:+
     " operation: The provided key element does not match the schema").

Definition tokens_of (item : option (option Z)) : Z :=
  match item with
  | Some it => default 0 it     (* [response['Item'].get('tokens', 0)] *)
  | None => 0
  end.

(** The balance the table holds for a user. *)
Definition balance (t : gmap string (option Z)) (u : string) : Z := tokens_of (t !! u).

Definition prompt : string :=
  String.concat nl
    ["Determine the waste in this image and provide the respective tokens to the user:"; EmptyString;
     "Plastic Waste (1 token):"; "Plastic bottles"; "Plastic bags"; "Food packaging"; "Straws"; EmptyString;
     "Paper Waste (1 token):"; "Newspapers"; "Magazines"; "Office paper"; "Cardboard"; EmptyString;
     "Glass Waste (2 tokens):"; "Glass bottles"; "Jars"; "Broken glass"; EmptyString;
     "Metal Waste (3 tokens):"; "Aluminum cans"; "Tin cans"; "Scrap metal"; EmptyString;
     "Organic Waste (1 token):"; "Food scraps"; "Fruit and vegetable peels"; "Coffee grounds";
     "Yard clippings"; EmptyString;
     "Textile Waste (2 tokens):"; "Old clothes"; "Fabric scraps"; "Shoes"; EmptyString;
     "Electronic Waste (E-Waste) (4 tokens):"; "Old phones"; "Computers"; "Batteries"; "Chargers"; EmptyString;
     "Wood Waste (2 tokens):"; "Furniture"; "Wooden pallets"; "Tree branches"; EmptyString;
     "Rubber Waste (3 tokens):"; "Old tires"; "Rubber bands"; "Rubber mats"; EmptyString;
     "Ceramic Waste (2 tokens):"; "Broken dishes"; "Tiles"; "Pottery"; EmptyString;
     "Composite Waste (2 tokens):"; "Tetra packs (juice boxes)"; "Mixed-material packaging"; EmptyString;
     "Hazardous Household Waste (5 tokens):"; "Paints and solvents"; "Pesticides";
     "Cleaning agents"; "Fluorescent bulbs"; EmptyString;
     "Medical Waste (4 tokens):"; "Used bandages"; "Syringes"; "Expired medications"; EmptyString;
     "Miscellaneous Waste (1 token):"; "Disposable diapers"; "Cigarette butts"; "Styrofoam product"].

Definition channels_url : string := "https://discord.com/api/v10/users/@me/channels".
Definition completions_url : string := "https://api.openai.com/v1/chat/completions".

(** ** The module *)

(** The debugging prints of the happy path (the headers, the event, the
    body, the receipt sent) have no effect on control and are left out;
    every print that reports a failure is an entry of the trace. *)
Section Handler.
Context (W : World).

Definition str (v : json) : string := py_str (py_repr W) v.

Definition error_response (status : Z) (message : string) : response :=
  {| statusCode := status;
     body := json_dumps W (JObj [("error", JStr message)]);
     headers := std_headers |}.

Definition successful_response (b : json) : response :=
  {| statusCode := 200;
     headers := std_headers;
     body := json_dumps W b |}.

(** [users_table.get_item(Key={'user_id': user_id})]: the item, if any.
    The table is keyed by a string attribute; a key of another type is
    refused by the service. *)
Definition table_get_item (user_id : json) : M (option (option Z)) :=
  emit (GetItem user_id);;
  match get_item W user_id, user_id with
  | Some e, _ => raise e
  | None, JStr u => λ t, Run (Return (t !! u)) t []
  | None, _ => raise (key_schema_error "GetItem")
  end.

(** [SET tokens = if_not_exists(tokens, :zero) + :amount], an upsert. *)
Definition table_update_item (user_id : json) (amount : Z) : M unit :=
  emit (UpdateItem user_id amount);;
  match update_item W user_id amount, user_id with
  | Some e, _ => raise e
  | None, JStr u => λ t, Run (Return tt) (<[u := Some (balance t u + amount)]> t) []
  | None, _ => raise (key_schema_error "UpdateItem")
  end.

Definition get_user_tokens (user_id : json) : M Z :=
  try_except
    (item ← table_get_item user_id;
     mret (tokens_of item))
    [(Exception, λ e,
       print ("Error getting user tokens: " +:+ e_str e);;
       mret 0)].

Definition update_user_tokens (user_id : json) (amount : Z) : M unit :=
  try_except
    (table_update_item user_id amount)
    [(Exception, λ e,
       print ("Error updating user tokens: " +:+ e_str e))].

Definition requests_post (url : string) (hdrs : list (string * string)) (payload : json)
  : M http_response :=
  emit (HttpPost url hdrs payload);;
  lift (post W url hdrs payload).

(** [response.raise_for_status()] *)
Definition raise_for_status (r : http_response) : M unit :=
  if ((400 <=? status_code r) && (status_code r <? 500))%Z then
    raise (Exn HTTPError
             (pretty (status_code r) +:+ " Client Error: " +:+ reason r +:+
              " for url: " +:+ resp_url r) (Some (text r)))
  else if ((500 <=? status_code r) && (status_code r <? 600))%Z then
    raise (Exn HTTPError
             (pretty (status_code r) +:+ " Server Error: " +:+ reason r +:+
              " for url: " +:+ resp_url r) (Some (text r)))
  else mret tt.

Definition callback_url (interaction_id interaction_token : json) : string :=
  "https://discord.com/api/v10/interactions/" +:+ str interaction_id +:+
  "/" +:+ str interaction_token +:+ "/callback".

Definition send_interaction_response (interaction_id interaction_token data : json)
  : M response :=
  let url := callback_url interaction_id interaction_token in
  let hdrs := [("Content-Type", "application/json")] in
  try_except
    (r ← requests_post url hdrs data;
     raise_for_status r;;
     mret {| statusCode := status_code r; headers := std_headers; body := text r |})
    [(RequestException, λ e,
       print ("Error sending interaction response: " +:+ e_str e);;
       mret (error_response 500 "Failed to send interaction response"))].

Definition message_reply (message : string) : json :=
  JObj [("type", JNum 4); ("data", JObj [("content", JStr message)])].

Definition messages_url (channel_id : json) : string :=
  "https://discord.com/api/v10/channels/" +:+ str channel_id +:+ "/messages".

Definition receipt_embed (item : json) (price : Z) : json :=
  JObj [("title", JStr "Transaction Receipt");
        ("description", JStr ("You have successfully bought **" +:+ str item +:+
                              "** for **" +:+ pretty price +:+ " tokens**."));
        ("color", JNum 65280);   (* 0x00ff00 *)
        ("fields",
          JArr [JObj [("name", JStr "Instructions");
                      ("value", JStr "Please screenshot this message and show it to our staff to claim your item.")]])].

Definition bot_headers : list (string * string) :=
  [("Authorization", "Bot " +:+ opt_str (BOT_TOKEN W));
   ("Content-Type", "application/json")].

Definition send_dm_with_embed (user_id item : json) (price : Z) : M unit :=
  let hdrs := bot_headers in
  let payload := JObj [("recipient_id", user_id)] in
  try_except
    (r ← requests_post channels_url hdrs payload;
     raise_for_status r;;
     j ← lift (json_body r);
     channel_id ← lift (py_getitem j "id");
     let dm_url := messages_url channel_id in
     let dm_payload := JObj [("embeds", JArr [receipt_embed item price])] in
     dm_response ← requests_post dm_url hdrs dm_payload;
     raise_for_status dm_response)
    [(RequestException, λ e,
       print ("Error sending DM with embed to user " +:+ str user_id +:+ ": " +:+ e_str e))].

Definition encode_image (image_bytes : bytes) : string := b64encode W image_bytes.

Definition download_image_with_urllib (url : json) : M bytes :=
  try_except
    (emit (UrlOpen url);;
     lift (urlopen W url))
    [(URLError, λ e,
       print ("Error downloading image with urllib: " +:+ e_str e);;
       raise e)].

(** [requests.get] is called with the fixed [User-Agent] header, which
    is part of what the world's [get] stands for.  The [except] block
    reads the local [response], which is bound only once [requests.get]
    has returned: the embedding splits on that call, so that each branch
    knows whether the local is bound. *)
Definition download_image (url : json) : M bytes :=
  emit (HttpGet url);;
  match get W url with
  | inl e =>
      if isinstance e RequestException then
        print ("Error downloading image with requests: " +:+ e_str e);;
        raise (mk_exn UnboundLocalError
                 "cannot access local variable 'response' where it is not associated with a value")
      else raise e
  | inr r =>
      try_except
        (raise_for_status r;;
         if contains "image" (default EmptyString (content_type r)) then mret (content r)
         else raise (mk_exn ValueError
                       ("Unexpected content type: " +:+ opt_str (content_type r))))
        [(RequestException, λ e,
           print ("Error downloading image with requests: " +:+ e_str e);;
           print ("Response status code: " +:+ pretty (status_code r));;
           print ("Response content: " +:+ text r);;
           download_image_with_urllib url)]
  end.

Fixpoint sum_tokens (mapping : list (string * Z)) (description : json) (token_amount : Z)
  : exn + Z :=
  match mapping with
  | [] => Return token_amount
  | (waste_type, tokens) :: rest =>
      found ← py_in waste_type description;
      sum_tokens rest description
        (if found : bool then token_amount + tokens else token_amount)
  end.

Definition extract_tokens_from_description (description : json) : exn + Z :=
  sum_tokens token_mapping description 0.

Definition classification_payload (base64_image : string) : json :=
  JObj [("model", JStr "gpt-3.5-turbo");
        ("messages",
          JArr [JObj [("role", JStr "user");
                      ("content",
                        JArr [JObj [("type", JStr "text"); ("text", JStr prompt)];
                              JObj [("type", JStr "image_url");
                                    ("image_url",
                                      JObj [("url", JStr ("data:image/jpeg;base64," +:+ base64_image))])]])]]);
        ("max_tokens", JNum 300)].

Definition user_id_of (body_json : json) : exn + json :=
  member ← py_getitem body_json "member";
  user ← py_getitem member "user";
  py_getitem user "id".

Definition option_value_of (body_json : json) : exn + json :=
  data ← py_getitem body_json "data";
  options ← py_getitem data "options";
  first ← py_getitem0 options;
  py_getitem first "value".

(** [result['choices'][0]['message']['content']] *)
Definition description_of (result : json) : exn + json :=
  choices ← py_getitem result "choices";
  choice ← py_getitem0 choices;
  message ← py_getitem choice "message";
  py_getitem message "content".

Definition earned_message (user_id description : json) (token_amount new_balance : Z) : string :=
  "<@" +:+ str user_id +:+ ">, here is what I found in the image:" +:+ nl +:+
  str description +:+ nl +:+ "You have earned " +:+ pretty token_amount +:+
  " tokens. Your new balance is " +:+ pretty new_balance +:+ " tokens.".

Definition submit_image_command (body_json interaction_id interaction_token : json)
    (key : option string) : M response :=
  try_except
    (user_id ← lift (user_id_of body_json);
     attachment_url ← lift (option_value_of body_json);
     image_bytes ← download_image attachment_url;
     let base64_image := encode_image image_bytes in
     let hdrs := [("Content-Type", "application/json");
                  ("Authorization", "Bearer " +:+ opt_str key)] in
     r ← requests_post completions_url hdrs (classification_payload base64_image);
     raise_for_status r;;
     result ← lift (json_body r);
     description ← lift (description_of result);
     token_amount ← lift (extract_tokens_from_description description);
     update_user_tokens user_id token_amount;;
     new_balance ← get_user_tokens user_id;
     send_interaction_response interaction_id interaction_token
       (message_reply (earned_message user_id description token_amount new_balance)))
    [(HTTPError, λ e,
       print ("HTTP error during API call: " +:+ e_str e);;
       match e_response e with
       | Some t => print ("Response content: " +:+ t)
       | None => raise (mk_exn AttributeError "'NoneType' object has no attribute 'text'")
       end;;
       mret (error_response 500 "Failed to analyze the image"));
     (RequestException, λ e,
       print ("Error during API call: " +:+ e_str e);;
       mret (error_response 500 "Failed to analyze the image"));
     (KeyError, λ e,
       print ("Error in API response structure: " +:+ e_str e);;
       mret (error_response 500 "Failed to process the image"));
     (Exception, λ e,
       print ("Unhandled error in submit_image_command: " +:+ e_str e);;
       mret (error_response 500 "Failed to analyze the image"))].

Definition balance_command (body_json interaction_id interaction_token : json) : M response :=
  try_except
    (user_id ← lift (user_id_of body_json);
     tokens ← get_user_tokens user_id;
     send_interaction_response interaction_id interaction_token
       (message_reply ("<@" +:+ str user_id +:+ ">, you have " +:+ pretty tokens +:+ " tokens.")))
    [(KeyError, λ e,
       print ("KeyError in balance_command: " +:+ e_str e);;
       mret (error_response 400 "Invalid user information"))].

Definition shop_command (body_json interaction_id interaction_token : json) : M response :=
  try_except
    (let shop_list :=
       String.concat nl (map (λ ip, ip.1 +:+ ": " +:+ pretty ip.2 +:+ " tokens") shop_items) in
     send_interaction_response interaction_id interaction_token
       (message_reply ("**Shop Items:**" +:+ nl +:+ shop_list)))
    [(Exception, λ e,
       print ("Error in shop_command: " +:+ e_str e);;
       mret (error_response 500 "Internal server error"))].

Definition bought_message (user_id item : json) (price : Z) : string :=
  "<@" +:+ str user_id +:+ ">, you bought " +:+ str item +:+ " for " +:+ pretty price +:+ " tokens!".
Definition not_enough_message (user_id item : json) : string :=
  "<@" +:+ str user_id +:+ ">, you don't have enough tokens to buy " +:+ str item +:+ "!".
Definition no_such_item_message (user_id item : json) : string :=
  "<@" +:+ str user_id +:+ ">, the item " +:+ str item +:+ " does not exist in the shop.".

Definition buy_command (body_json interaction_id interaction_token : json) : M response :=
  try_except
    (user_id ← lift (user_id_of body_json);
     item ← lift (option_value_of body_json);
     listed ← lift (shop_lookup item);
     message ←
       match listed with
       | Some price =>
           current_tokens ← get_user_tokens user_id;
           if (price <=? current_tokens)%Z then
             update_user_tokens user_id (- price);;
             send_dm_with_embed user_id item price;;
             mret (bought_message user_id item price)
           else mret (not_enough_message user_id item)
       | None => mret (no_such_item_message user_id item)
       end;
     send_interaction_response interaction_id interaction_token (message_reply message))
    [(KeyError, λ e,
       print ("KeyError in buy_command: " +:+ e_str e);;
       mret (error_response 400 "Invalid item"))].

Definition handle_command (body_json interaction_id interaction_token : json) : M response :=
  try_except
    (data ← lift (py_get body_json "data" (JObj []));
     command ← lift (py_get data "name" JNull);
     if eq_str command "balance" then
       balance_command body_json interaction_id interaction_token
     else if eq_str command "shop" then
       shop_command body_json interaction_id interaction_token
     else if eq_str command "buy" then
       buy_command body_json interaction_id interaction_token
     else if eq_str command "submit_image" then
       submit_image_command body_json interaction_id interaction_token (api_key W)
     else
       print ("Unknown command: " +:+ str command);;
       mret (error_response 400 "Unknown command"))
    [(KeyError, λ e,
       print ("KeyError in handle_command: " +:+ e_str e);;
       mret (error_response 400 "Invalid request payload"));
     (Exception, λ e,
       print ("Unexpected error in handle_command: " +:+ e_str e);;
       mret (error_response 500 "Internal server error"))].

(** [json.loads(body)] inside its own [try], with the [return] of the
    [except] clause as [None]. *)
Definition parse_body (body : json) : M (option (string * json)) :=
  try_except
    (match body with
     | JStr s =>
         emit (JsonLoads s);;
         body_json ← lift (json_loads W s);
         mret (Some (s, body_json))
     | _ => raise (mk_exn TypeError
                     ("the JSON object must be str, bytes or bytearray, not " +:+ type_name body))
     end)
    [(JSONDecodeError, λ _,
       print "Invalid JSON in body";;
       mret None)].

(** [verify_key.verify(f'{timestamp}{body}'.encode(), bytes.fromhex(signature))]
    inside its own [try]; [false] is the [return] of the [except] clause. *)
Definition check_signature (verify_key : bytes) (timestamp signature : json) (body : string)
  : M bool :=
  try_except
    (let message := str timestamp +:+ body in
     sig ← lift (bytes_fromhex (Some signature));
     emit (Verify message sig);;
     match verify W verify_key message sig with
     | Some e => raise e
     | None => mret true
     end)
    [(BadSignatureError, λ _,
       print "Invalid request signature";;
       mret false)].

Definition b64_body (body : json) : M json :=
  match body with
  | JStr s => decoded ← lift (b64decode_utf8 W s); mret (JStr decoded)
  | _ => raise (mk_exn TypeError
                  ("argument should be a bytes-like object or ASCII string, not '" +:+
                   type_name body +:+ "'"))
  end.

Definition lambda_handler (event context : json) : M response :=
  try_except
    (hdrs ← lift (py_get event "headers" (JObj []));
     signature ← lift (py_get hdrs "x-signature-ed25519" JNull);
     timestamp ← lift (py_get hdrs "x-signature-timestamp" JNull);
     if negb (truthy signature) || negb (truthy timestamp) then
       raise (mk_exn ValueError "Missing signature or timestamp")
     else
       body ← lift (py_get event "body" (JStr EmptyString));
       encoded ← lift (py_get event "isBase64Encoded" (JBool false));
       body ← (if truthy encoded then b64_body body else mret body);
       parsed ← parse_body body;
       match parsed with
       | None => mret (error_response 400 "Invalid JSON")
       | Some (body, body_json) =>
           key ← lift (bytes_fromhex (JStr <$> PUBLIC_KEY W));
           match VerifyKey W key with
           | Some e => raise e
           | None =>
               valid ← check_signature key timestamp signature body;
               if negb valid then mret (error_response 401 "Invalid request signature")
               else
                 type ← lift (py_get body_json "type" JNull);
                 if eq_one type then mret (successful_response (JObj [("type", JNum 1)]))
                 else
                   interaction_id ← lift (py_get body_json "id" JNull);
                   interaction_token ← lift (py_get body_json "token" JNull);
                   handle_command body_json interaction_id interaction_token
           end
       end)
    [(ValueError, λ e,
       print ("ValueError: " +:+ e_str e);;
       mret (error_response 400 (e_str e)));
     (Exception, λ e,
       print ("Unexpected error: " +:+ e_str e);;
       mret (error_response 500 "Internal server error"))].

End Handler.

(** ** Kinds of effects

    The balance read and write, the notification (the two calls that
    open a private channel and post the receipt), the reply to the
    interaction, the classification call, the image download, the
    parsing of the body, the signature check, and the log. *)

Inductive kind := BalanceRead | BalanceWrite | Notify | Reply | Classify | Download | BodyParse | SigCheck | Log.

Global Instance kind_eq_dec : EqDecision kind.
Proof. solve_decision. Defined.

Definition kind_of (ev : effect) : kind :=
  match ev with
  | GetItem _ => BalanceRead
  | UpdateItem _ _ => BalanceWrite
  | HttpPost url _ _ =>
      if starts_with "https://discord.com/api/v10/users/" url
         || starts_with "https://discord.com/api/v10/channels/" url then Notify
      else if starts_with "https://discord.com/api/v10/interactions/" url then Reply
      else Classify
  | HttpGet _ | UrlOpen _ => Download
  | JsonLoads _ => BodyParse
  | Verify _ _ => SigCheck
  | Stdout _ => Log
  end.

(** In a trace, every effect of kind [k2] has an effect of kind [k1]
    somewhere before it. *)
Definition precedes (k1 k2 : kind) (tr : list effect) : Prop :=
  ∀ pre ev post, tr = (pre ++ ev :: post)%list → kind_of ev = k2 →
    ∃ ev', ev' ∈ pre ∧ kind_of ev' = k1.

(** No effect of kind [k] in a trace. *)
Definition never (k : kind) (tr : list effect) : Prop :=
  ∀ ev, ev ∈ tr → kind_of ev ≠ k.

Definition absent (k : kind) (tr : list effect) : bool :=
  forallb (λ ev, negb (bool_decide (kind_of ev = k))) tr.

(** The same, decided: [seen] tells whether a [k1] has been met. *)
Fixpoint ordered (k1 k2 : kind) (seen : bool) (tr : list effect) : bool :=
  match tr with
  | [] => true
  | ev :: tr' =>
      (if bool_decide (kind_of ev = k2) then seen else true)
      && ordered k1 k2 (seen || bool_decide (kind_of ev = k1)) tr'
  end.

(** The effects of the kinds [K] in a trace, in order. *)
Definition observe (K : list kind) (tr : list effect) : list effect :=
  List.filter (λ ev, bool_decide (kind_of ev ∈ K)) tr.

(** The automaton that records the effects of the kinds [K]. *)
Definition record (K : list kind) (seen : list effect) (ev : effect) : option (list effect) :=
  Some (if bool_decide (kind_of ev ∈ K) then (seen ++ [ev])%list else seen).

Definition loud : list kind := [BalanceRead; BalanceWrite; Notify; Reply; Classify; Download; BodyParse; SigCheck].

(** The statuses on which [raise_for_status] raises. *)
Definition is_http_error (r : http_response) : bool :=
  ((400 <=? status_code r) && (status_code r <? 600))%Z.

(** What [lambda_handler] can answer: an error envelope with status 400,
    401 or 500, the acknowledgment of a ping, or the platform's answer to
    the reply, forwarded with the status it came with. *)
Inductive reply_shape (W : World) : response → Prop :=
| shape_error status message :
    status ∈ [400; 401; 500] → reply_shape W (error_response W status message)
| shape_ack :
    reply_shape W (successful_response W (JObj [("type", JNum 1)]))
| shape_forward status txt :
    ¬ (400 ≤ status < 600) →
    reply_shape W {| statusCode := status; headers := std_headers; body := txt |}.

(** What a command can answer: no 401, and no acknowledgment. *)
Inductive command_shape (W : World) : response → Prop :=
| command_error status message :
    status ∈ [400; 500] → command_shape W (error_response W status message)
| command_forward status txt :
    ¬ (400 ≤ status < 600) →
    command_shape W {| statusCode := status; headers := std_headers; body := txt |}.

(** How far the authentication of a request went, as the parse and check
    effects of the run tell, against the answer [r]: nothing parsed; the
    body parsed or the decoder failed, and no check made; or the body
    parsed and the signature then checked.  When the decoder fails, the
    answer is decided by the class of its exception.  A 401 occurs in the
    last case only, when the check raised [BadSignatureError]. *)
Inductive auth_trace (W : World) (r : response) : list effect → Prop :=
| auth_none :
    statusCode r ≠ 401 → auth_trace W r []
| auth_unchecked s :
    (∀ e, json_loads W s = Raise e →
       r = if isinstance e JSONDecodeError then error_response W 400 "Invalid JSON"
           else if isinstance e ValueError then error_response W 400 (e_str e)
           else error_response W 500 "Internal server error") →
    statusCode r ≠ 401 →
    auth_trace W r [JsonLoads s]
| auth_checked s m sig :
    (∃ body_json, json_loads W s = Return body_json) →
    (statusCode r = 401 →
       r = error_response W 401 "Invalid request signature" ∧
       ∃ key e, verify W key m sig = Some e ∧ isinstance e BadSignatureError = true) →
    auth_trace W r [JsonLoads s; Verify m sig].

(** The award the specification describes: the values of the categories
    whose keyword occurs in the text, each counted once, summed. *)
Definition category_award (categories : list (string * Z)) (text : string) : Z :=
  foldr Z.add 0 (map snd (List.filter (λ c, contains c.1 text) categories)).

(** The parse and check effects that the body of [lambda_handler] has
    performed when it returns or raises. *)
Definition authenticated (W : World) (o : exn + response) (g : list effect) : Prop :=
  match o with
  | inr r => reply_shape W r ∧ auth_trace W r g
  | inl e =>
      g = []
      ∨ (∃ s, g = [JsonLoads s] ∧
              ((∃ body_json, json_loads W s = Return body_json)
               ∨ (json_loads W s = Raise e ∧ isinstance e JSONDecodeError = false)))
      ∨ (∃ s m sig, g = [JsonLoads s; Verify m sig] ∧
                    ∃ body_json, json_loads W s = Return body_json)
  end.

(** The kinds of effects whose order the balance is about. *)
Definition money : list kind := [BalanceRead; BalanceWrite; Notify].

(** No balance of the table is negative. *)
Definition nonneg (t : gmap string (option Z)) : Prop := ∀ u : string, (0 ≤ balance t u)%Z.

(** ** Authentication, as [lambda_handler] performs it *)

(** [base64.b64decode(body).decode('utf-8')], as a value. *)
Definition b64_text (W : World) (body : json) : exn + json :=
  match body with
  | JStr s => decoded ← b64decode_utf8 W s; Return (JStr decoded)
  | _ => Raise (mk_exn TypeError
                  ("argument should be a bytes-like object or ASCII string, not '" +:+
                   type_name body +:+ "'"))
  end.

(** The body of the event, decoded when the event says it is encoded. *)
Definition body_text (W : World) (event : json) : exn + json :=
  body ← py_get event "body" (JStr EmptyString);
  encoded ← py_get event "isBase64Encoded" (JBool false);
  if truthy encoded then b64_text W body else Return body.

(** The two signature headers of the event. *)
Definition signature_headers (event : json) : exn + json * json :=
  hdrs ← py_get event "headers" (JObj []);
  signature ← py_get hdrs "x-signature-ed25519" JNull;
  timestamp ← py_get hdrs "x-signature-timestamp" JNull;
  Return (signature, timestamp).

(** [message] is the timestamp header of the event followed by its body
    text [s]. *)
Definition signed (W : World) (event : json) (s message : string) : Prop :=
  ∃ signature timestamp,
    signature_headers event = Return (signature, timestamp) ∧
    body_text W event = Return (JStr s) ∧
    message = str W timestamp +:+ s.

(** The event carries both headers, its body text [s] parses to
    [body_json], and the verifier built from the configured key accepts
    the signature [sig] for [message], the timestamp followed by [s]. *)
Definition authentic (W : World) (event : json) (s : string) (body_json : json)
    (message : string) (sig : bytes) : Prop :=
  ∃ signature timestamp key,
    signature_headers event = Return (signature, timestamp) ∧
    truthy signature = true ∧ truthy timestamp = true ∧
    body_text W event = Return (JStr s) ∧
    json_loads W s = Return body_json ∧
    bytes_fromhex (JStr <$> PUBLIC_KEY W) = Return key ∧
    VerifyKey W key = None ∧
    bytes_fromhex (Some signature) = Return sig ∧
    message = str W timestamp +:+ s ∧
    verify W key message sig = None.

(** How far a run of [lambda_handler] from the table [t] went, as its
    calls tell: nothing; the body parsed or rejected; the signature
    checked; or the signature accepted and a command run.  Only in the
    last case can the table differ from [t] and can calls follow. *)
Inductive gate (W : World) (event : json) (t : gmap string (option Z))
  : gmap string (option Z) → list effect → Prop :=
| gate_unparsed : gate W event t t []
| gate_parsed s : gate W event t t [JsonLoads s]
| gate_checked s m sig : signed W event s m → gate W event t t [JsonLoads s; Verify m sig]
| gate_open t' s m sig key rest :
    signed W event s m →
    bytes_fromhex (JStr <$> PUBLIC_KEY W) = Return key →
    verify W key m sig = None →
    observe [BodyParse; SigCheck] rest = [] →
    gate W event t t' (JsonLoads s :: Verify m sig :: rest).

Definition outward : list kind :=
  [BalanceRead; BalanceWrite; Notify; Reply; Classify; Download].

(** ** Registration of the commands

    [register_commands] runs at deployment, outside the handler.  It
    posts each command again and again until the platform answers with
    another status than 429.  The platform is therefore a sequence of
    answers here, one for each post in the order of the posts.  A post is
    made before its answer is looked at: when the answers given are used
    up, the last post is in the trace, unanswered, and the outcome is
    [None], the function not having returned. *)

Record Deployment := {
  APPLICATION_ID : option string;
  py_int : string → exn + Z        (* [int(s)] *)
}.

(** An answer of the platform and its [Retry-After] header, if any. *)
Record answer := Answer {
  answered : http_response;
  retry_after : option string
}.

Definition commands : list json :=
  [JObj [("name", JStr "balance"); ("type", JNum 1);
         ("description", JStr "Check your token balance")];
   JObj [("name", JStr "earn"); ("type", JNum 1);
         ("description", JStr "Earn tokens");
         ("options", JArr [JObj [("name", JStr "amount");
                                 ("description", JStr "Amount of tokens to earn");
                                 ("type", JNum 4);
                                 ("required", JBool true)]])];
   JObj [("name", JStr "spend"); ("type", JNum 1);
         ("description", JStr "Spend tokens");
         ("options", JArr [JObj [("name", JStr "amount");
                                 ("description", JStr "Amount of tokens to spend");
                                 ("type", JNum 4);
                                 ("required", JBool true)]])];
   JObj [("name", JStr "shop"); ("type", JNum 1);
         ("description", JStr "View shop items")];
   JObj [("name", JStr "buy"); ("type", JNum 1);
         ("description", JStr "Buy an item from the shop");
         ("options", JArr [JObj [("name", JStr "Item 1 (10 tokens)"); ("value", JStr "item1")];
                           JObj [("name", JStr "Item 2 (20 tokens)"); ("value", JStr "item2")];
                           JObj [("name", JStr "Item 3 (30 tokens)"); ("value", JStr "item3")]])];
   JObj [("name", JStr "submit_image"); ("type", JNum 1);
         ("description", JStr "Submit an image for analysis");
         ("options", JArr [JObj [("name", JStr "url");
                                 ("description", JStr "URL of the image to analyze");
                                 ("type", JNum 3);
                                 ("required", JBool true)]])]].

(** [not BOT_TOKEN] and [not APPLICATION_ID], negated *)
Definition is_set (o : option string) : bool :=
  match o with
  | Some s => negb (String.eqb s EmptyString)
  | None => false
  end.

Definition registration_url (D : Deployment) : string :=
  "https://discord.com/api/v10/applications/" +:+ opt_str (APPLICATION_ID D) +:+ "/commands".

(** [int(response.headers.get("Retry-After", 1))] *)
Definition retry_seconds (D : Deployment) (a : answer) : exn + Z :=
  match retry_after a with
  | Some s => py_int D s
  | None => Return 1
  end.

(** The two loops: [for command in commands: while True: ...].  The first
    of [pending] is the command of the running [while]; the [break]
    passes to the rest. *)
Fixpoint register_each (W : World) (D : Deployment) (pending : list json)
    (answers : list (exn + answer)) {struct answers} : M (option unit) :=
  match pending with
  | [] => mret (Some tt)
  | command :: rest =>
      emit (HttpPost (registration_url D) (bot_headers W) command);;
      match answers with
      | [] => mret None
      | a :: answers' =>
          response ← lift a;
          if Z.eqb (status_code (answered response)) 429 then
            seconds ← lift (retry_seconds D response);
            print ("Rate limited. Retrying after " +:+ pretty seconds +:+ " seconds.");;
            register_each W D (command :: rest) answers'
          else
            raise_for_status (answered response);;
            name ← lift (py_getitem command "name");
            print ("Command '" +:+ str W name +:+ "' registered successfully");;
            register_each W D rest answers'
      end
  end.

Definition register_commands (W : World) (D : Deployment) (answers : list (exn + answer))
  : M (option unit) :=
  try_except
    (if negb (is_set (BOT_TOKEN W)) || negb (is_set (APPLICATION_ID D)) then
       raise (mk_exn ValueError "Bot token or application ID is not set")
     else register_each W D commands answers)
    [(ValueError, λ e,
       print ("Configuration error: " +:+ e_str e);;
       mret (Some tt));
     (RequestException, λ e,
       print ("Error registering commands: " +:+ e_str e);;
       mret (Some tt))].

(** The posts of a trace, in order. *)
Definition posted (tr : list effect) : list (string * list (string * string) * json) :=
  omap (λ ev, match ev with
              | HttpPost url hdrs payload => Some (url, hdrs, payload)
              | _ => None
              end) tr.

(** The automaton that records the posts. *)
Definition record_posts (seen : list (string * list (string * string) * json)) (ev : effect)
  : option (list (string * list (string * string) * json)) :=
  Some (seen ++ posted [ev])%list.

(** The post of a command. *)
Definition registration_post (W : World) (D : Deployment) (command : json)
  : string * list (string * string) * json :=
  (registration_url D, bot_headers W, command).

(** The posts of a registration in which the [i]-th command was posted
    [S k_i] times, for the counts [ks]. *)
Definition registration_posts (W : World) (D : Deployment) (pending : list json) (ks : list nat)
  : list (string * list (string * string) * json) :=
  registration_post W D <$>
  concat (zip_with (λ command k, replicate (S k) command) pending ks).

(** A command with a name. *)
Definition named (command : json) : Prop := ∃ name, py_getitem command "name" = Return name.

(** The options of the command registered under a name. *)
Definition options_of (name : string) : list json :=
  match find (λ command, match py_getitem command "name" with
                         | inr n => eq_str n name
                         | inl _ => false
                         end) commands with
  | Some command =>
      match py_getitem command "options" with
      | inr (JArr options) => options
      | _ => []
      end
  | None => []
  end.

(** The platform is busy: status 429, with a [Retry-After] header that
    [int] reads, or none. *)
Definition busy (D : Deployment) (a : answer) : bool :=
  Z.eqb (status_code (answered a)) 429 &&
  match retry_seconds D a with inr _ => true | inl _ => false end.

(** The platform takes the command: a status that is neither 429 nor an
    HTTP error. *)
Definition accepting (a : answer) : bool :=
  negb (Z.eqb (status_code (answered a)) 429) && negb (is_http_error (answered a)).


(** The answers of a platform that, for each command in turn, is busy a
    number of times and then takes the command. *)
Definition rounds_answers (rounds : list (list answer * answer)) : list (exn + answer) :=
  concat ((λ round, (Return <$> round.1) ++ [Return round.2])%list <$> rounds).

Definition well_formed_round (D : Deployment) (round : list answer * answer) : bool :=
  forallb (busy D) round.1 && accepting round.2.

(** ** Concrete worlds

    The worlds used to run the module on concrete requests.  Their
    library functions agree with the real ones on the inputs of the runs
    below: [dumps_ascii] is [json.dumps] on values whose strings are
    printable ASCII, [b64encode_bytes] is [base64.b64encode], [loads_known]
    parses the listed documents (written as [json.dumps] writes them) and
    rejects what is not one of them, a key is 32 bytes long, and the
    signature check accepts one signature only.  Bodies are not base64
    encoded in these runs. *)

Definition dquote : string := String (ascii_of_nat 34) EmptyString.

Fixpoint escape_ascii (s : string) : string :=
  match s with
  | EmptyString => EmptyString
  | String c s' =>
      (if Ascii.eqb c (ascii_of_nat 34) then String (ascii_of_nat 92) dquote
       else if Ascii.eqb c (ascii_of_nat 92) then String (ascii_of_nat 92) (String (ascii_of_nat 92) EmptyString)
       else String c EmptyString) +:+ escape_ascii s'
  end.

Fixpoint dumps_ascii (v : json) : string :=
  match v with
  | JNull => "null"
  | JBool true => "true"
  | JBool false => "false"
  | JNum n => pretty n
  | JStr s => dquote +:+ escape_ascii s +:+ dquote
  | JArr l => "[" +:+ String.concat ", " (map dumps_ascii l) +:+ "]"
  | JObj kv =>
      "{" +:+
      String.concat ", "
        (map (λ '(k, x), dquote +:+ escape_ascii k +:+ dquote +:+ ": " +:+ dumps_ascii x) kv)
      +:+ "}"
  end.

Definition b64_char (n : N) : ascii :=
  default "="%char
    (String.get (N.to_nat n)
       "ABCDEFGHIJKLMNOPQRSTUVWXYZabcdefghijklmnopqrstuvwxyz0123456789+/").

Fixpoint b64encode_bytes (bs : bytes) : string :=
  match bs with
  | [] => EmptyString
  | [a] =>
      let x := Byte.to_N a in
      String (b64_char (x / 4)) (String (b64_char (x mod 4 * 16)) "==")
  | [a; b] =>
      let x := Byte.to_N a in
      let y := Byte.to_N b in
      String (b64_char (x / 4)) (String (b64_char (x mod 4 * 16 + y / 16))
        (String (b64_char (y mod 16 * 4)) "="))
  | a :: b :: c :: rest =>
      let x := Byte.to_N a in
      let y := Byte.to_N b in
      let z := Byte.to_N c in
      String (b64_char (x / 4)) (String (b64_char (x mod 4 * 16 + y / 16))
        (String (b64_char (y mod 16 * 4 + z / 64)) (String (b64_char (z mod 64))
          (b64encode_bytes rest))))
  end%N.

(** A decoder that knows some documents and takes any other text for
    one that is not JSON. *)
Definition loads_known (documents : list json) (s : string) : exn + json :=
  match find (λ j, String.eqb (dumps_ascii j) s) documents with
  | Some j => Return j
  | None => Raise (mk_exn JSONDecodeError "Expecting value: line 1 column 1 (char 0)")
  end.

Fixpoint repeat_string (s : string) (n : nat) : string :=
  match n with
  | O => EmptyString
  | S n' => s +:+ repeat_string s n'
  end.

Definition good_signature_hex : string := repeat_string "ab" 64.
Definition good_signature : bytes := repeat xab 64.
Definition bad_signature_hex : string := repeat_string "00" 64.

Definition no_content : http_response :=
  {| status_code := 204; reason := "No Content"; resp_url := EmptyString; text := EmptyString;
     content := []; content_type := None;
     json_body := Raise (mk_exn RequestsJSONDecodeError "Expecting value: line 1 column 1 (char 0)") |}.

Definition ok_json (j : json) : http_response :=
  {| status_code := 200; reason := "OK"; resp_url := EmptyString; text := dumps_ascii j;
     content := []; content_type := Some "application/json";
     json_body := Return j |}.

Definition ok_download (ctype : string) (data : bytes) : http_response :=
  {| status_code := 200; reason := "OK"; resp_url := EmptyString; text := EmptyString;
     content := data; content_type := Some ctype;
     json_body := Raise (mk_exn RequestsJSONDecodeError "Expecting value: line 1 column 1 (char 0)") |}.

(** A world given by its parsed documents and its remote services; the
    table never fails. *)
Definition world (documents : list json)
    (post_ : string → json → exn + http_response)
    (get_ : json → exn + http_response)
    (urlopen_ : json → exn + bytes) : World :=
  {| PUBLIC_KEY := Some (repeat_string "11" 32);
     BOT_TOKEN := Some "bot-token";
     api_key := Some "api-key";
     json_loads := loads_known documents;
     json_dumps := dumps_ascii;
     py_repr := dumps_ascii;
     b64decode_utf8 := λ _, Raise (mk_exn ValueError "Incorrect padding");
     b64encode := b64encode_bytes;
     VerifyKey := λ k,
       if bool_decide (length k = 32%nat) then None
       else Some (mk_exn ValueError "The key must be exactly 32 bytes long");
     verify := λ _ _ sig,
       if bool_decide (sig = good_signature) then None
       else Some (mk_exn BadSignatureError "Signature was forged or corrupt");
     get_item := λ _, None;
     update_item := λ _ _, None;
     post := λ url _ payload, post_ url payload;
     get := get_;
     urlopen := urlopen_ |}.

Definition request (signature : json) (body : string) : json :=
  JObj [("headers", JObj [("x-signature-ed25519", signature);
                          ("x-signature-timestamp", JStr "1700000000")]);
        ("body", JStr body);
        ("isBase64Encoded", JBool false)].

Definition command_body (name : string) (user : string) (option : json) : json :=
  JObj [("type", JNum 2); ("id", JStr "77"); ("token", JStr "tok");
        ("member", JObj [("user", JObj [("id", JStr user)])]);
        ("data", JObj [("name", JStr name); ("options", JArr [JObj [("value", option)]])])].

Definition classification (text : string) : json :=
  JObj [("choices", JArr [JObj [("message", JObj [("content", JStr text)])]])].

Definition post_of (dm : exn + http_response) (url : string) (payload : json)
  : exn + http_response :=
  if String.eqb url channels_url then dm
  else if String.eqb url completions_url then
    Return (ok_json (classification "Glass bottles and Metal scraps"))
  else Return no_content.

Definition buy_item1 : json := command_body "buy" "u1" (JStr "item1").
Definition photo_url : json := JStr "https://cdn.example/photo.png".
Definition submit_photo : json := command_body "submit_image" "u1" photo_url.

Definition dm_refused : exn + http_response :=
  Raise (mk_exn RequestException "Connection refused").
Definition dm_without_id : exn + http_response := Return (ok_json (JObj [])).
Definition dm_opened : exn + http_response :=
  Return (ok_json (JObj [("id", JStr "c1")])).

Definition serves (ctype : string) (url : json) : exn + http_response :=
  Return (ok_download ctype [x89; x50]).

Definition demo_world (dm : exn + http_response) (ctype : string) : World :=
  world [JObj []; buy_item1; submit_photo] (post_of dm) (serves ctype) (λ _, Return [x01]).


(** Two texts on which the decoder of CPython 3.11 fails otherwise than
    by [JSONDecodeError]: a number of 5000 digits, over the limit of the
    conversion of integers, is a plain [ValueError], and five thousand
    opening brackets exhaust the recursion limit. *)
Definition long_number : string := repeat_string "1" 5000.
Definition deep_nesting : string := repeat_string "[" 5000.

Definition loads_cpython (documents : list json) (s : string) : exn + json :=
  if String.eqb s long_number then
    Raise (mk_exn ValueError
             ("Exceeds the limit (4300 digits) for integer string conversion: " +:+
              "value has 5000 digits; use sys.set_int_max_str_digits() to increase the limit"))
  else if String.eqb s deep_nesting then
    Raise (mk_exn Exception
             "maximum recursion depth exceeded while decoding a JSON array from a unicode string")
  else loads_known documents s.

Definition limits_world : World :=
  let W := demo_world dm_opened "image/png" in
  {| PUBLIC_KEY := PUBLIC_KEY W;
     BOT_TOKEN := BOT_TOKEN W;
     api_key := api_key W;
     json_loads := loads_cpython [JObj []; buy_item1; submit_photo];
     json_dumps := json_dumps W;
     py_repr := py_repr W;
     b64decode_utf8 := b64decode_utf8 W;
     b64encode := b64encode W;
     VerifyKey := VerifyKey W;
     verify := verify W;
     get_item := get_item W;
     update_item := update_item W;
     post := post W;
     get := get W;
     urlopen := urlopen W |}.

(** The platform at registration, and a ping *)

Definition too_many_requests (retry : option string) : answer :=
  {| answered := {| status_code := 429; reason := "Too Many Requests"; resp_url := EmptyString;
                    text := EmptyString; content := []; content_type := None;
                    json_body := Raise (mk_exn RequestsJSONDecodeError
                                          "Expecting value: line 1 column 1 (char 0)") |};
     retry_after := retry |}.

Definition created : answer := {| answered := ok_json (JObj []); retry_after := None |}.


Definition deployment : Deployment :=
  {| APPLICATION_ID := Some "app-1";
     py_int := λ s, if String.eqb s "2" then Return 2
                    else Raise (mk_exn ValueError
                                  ("invalid literal for int() with base 10: '" +:+ s +:+ "'")) |}.

Definition ping : json := JObj [("type", JNum 1)].

Definition ping_world : World :=
  world [ping] (post_of dm_opened) (serves "image/png") (λ _, Return [x01]).


(** * Properties *)

(** ** Runs of the primitives *)

Example fromhex_zz :
  str_fromhex "zz" =
  inl (mk_exn ValueError "non-hexadecimal number found in fromhex() arg at position 0").
Proof. vm_compute. reflexivity. Qed.

Example fromhex_odd :
  str_fromhex "0" =
  inl (mk_exn ValueError "non-hexadecimal number found in fromhex() arg at position 1").
Proof. vm_compute. reflexivity. Qed.

Example fromhex_space : str_fromhex " 0a" = inr [x0a].
Proof. vm_compute. reflexivity. Qed.

Example fromhex_inner_space :
  str_fromhex "0 a" =
  inl (mk_exn ValueError "non-hexadecimal number found in fromhex() arg at position 1").
Proof. vm_compute. reflexivity. Qed.

Section Runs.
Context {A B : Type}.
Implicit Types (m : M A) (k : A → M B) (t : gmap string (option Z)).

Lemma run_bind m k t :
  (m ≫= k) t =
  match value (m t) with
  | inr a => let r := k a (final (m t)) in
             Run (value r) (final r) (effects (m t) ++ effects r)
  | inl e => Run (Raise e) (final (m t)) (effects (m t))
  end.
Proof.
  unfold mbind, M_bind, bind.
  destruct (m t) as [[e|a] t' tr]; simpl; [done|]. by destruct (k a t').
Qed.

Lemma run_try m (handlers : list (exn_class * (exn → M A))) t :
  try_except m handlers t =
  match value (m t) with
  | inr a => Run (Return a) (final (m t)) (effects (m t))
  | inl e =>
      match find (λ h, isinstance e h.1) handlers with
      | Some h => let r := h.2 e (final (m t)) in
                  Run (value r) (final r) (effects (m t) ++ effects r)
      | None => Run (Raise e) (final (m t)) (effects (m t))
      end
  end.
Proof.
  unfold try_except.
  destruct (m t) as [[e|a] t' tr]; simpl; [|done].
  destruct (find _ _) as [h|]; [|done]. by destruct (h.2 e t').
Qed.

End Runs.

(** ** A program logic over runs

    The effects of a run are read by an automaton [step] over a ghost
    state; [wp m Φ g t] says that the automaton, started in [g], accepts
    the effects of [m] run from the table [t], and that [Φ] holds of the
    outcome, the final table and the final ghost state.  Orders between
    effects, effects that never happen, table invariants and outcomes
    are all instances. *)

Section Logic.
Context {G : Type} (step : G → effect → option G).
Implicit Types (g : G) (t : gmap string (option Z)).

Fixpoint accepts (g : G) (tr : list effect) : option G :=
  match tr with
  | [] => Some g
  | ev :: tr' =>
      match step g ev with
      | Some g' => accepts g' tr'
      | None => None
      end
  end.

Lemma accepts_app g tr1 tr2 :
  accepts g (tr1 ++ tr2) =
  match accepts g tr1 with Some g' => accepts g' tr2 | None => None end.
Proof.
  revert g. induction tr1 as [|ev tr1 IH]; intros g; simpl; [done|].
  destruct (step g ev); [apply IH|done].
Qed.

Definition wp {A} (m : M A) (Φ : exn + A → gmap string (option Z) → G → Prop)
    (g : G) (t : gmap string (option Z)) : Prop :=
  ∃ g', accepts g (effects (m t)) = Some g' ∧ Φ (value (m t)) (final (m t)) g'.

Section Rules.
Context {A B : Type}.
Implicit Types (m : M A) (k : A → M B).

Lemma wp_ret (a : A) Φ g t : Φ (Return a) t g → wp (mret a) Φ g t.
Proof. intros H. by exists g. Qed.

Lemma wp_raise e (Φ : exn + A → _) g t : Φ (Raise e) t g → wp (raise e) Φ g t.
Proof. intros H. by exists g. Qed.

Lemma wp_lift (r : exn + A) Φ g t : Φ r t g → wp (lift r) Φ g t.
Proof. intros H. by exists g. Qed.

Lemma wp_emit ev Φ g g' t :
  step g ev = Some g' → Φ (Return tt) t g' → wp (emit ev) Φ g t.
Proof. intros Hs H. exists g'. simpl. by rewrite Hs. Qed.

Lemma wp_bind m k Φ g t :
  wp m (λ o t' g', match o with
                   | inr a => wp (k a) Φ g' t'
                   | inl e => Φ (Raise e) t' g'
                   end) g t →
  wp (m ≫= k) Φ g t.
Proof.
  intros (g1 & Hacc & H). unfold wp. rewrite run_bind.
  destruct (value (m t)) as [e|a]; simpl; [by exists g1|].
  destruct H as (g2 & Hacc2 & H). exists g2.
  rewrite accepts_app, Hacc. done.
Qed.

Lemma wp_try m (handlers : list (exn_class * (exn → M A))) Φ g t :
  wp m (λ o t' g', match o with
                   | inr a => Φ (Return a) t' g'
                   | inl e =>
                       match find (λ h, isinstance e h.1) handlers with
                       | Some h => wp (h.2 e) Φ g' t'
                       | None => Φ (Raise e) t' g'
                       end
                   end) g t →
  wp (try_except m handlers) Φ g t.
Proof.
  intros (g1 & Hacc & H). unfold wp. rewrite run_try.
  destruct (value (m t)) as [e|a]; simpl; [|by exists g1].
  destruct (find _ _) as [h|]; simpl; [|by exists g1].
  destruct H as (g2 & Hacc2 & H). exists g2.
  rewrite accepts_app, Hacc. done.
Qed.

Lemma wp_mono m (Φ Ψ : exn + A → gmap string (option Z) → G → Prop) g t :
  wp m Φ g t → (∀ o t' g', Φ o t' g' → Ψ o t' g') → wp m Ψ g t.
Proof. intros (g1 & Hacc & H) HΦ. exists g1. auto. Qed.

End Rules.
End Logic.
Lemma wp_print {G} (step : G → effect → option G) l (Φ : exn + unit → _) g t :
  (∀ g l, step g (Stdout l) = Some g) →
  Φ (Return tt) t g → wp step (print l) Φ g t.
Proof. intros Hlog H. eapply wp_emit; [apply Hlog|done]. Qed.

Ltac wp_print := apply wp_print; [first [assumption | by intros]|].
Ltac wp_log := simpl; apply wp_bind; wp_print; simpl.
Ltac wp_pure :=
  apply wp_bind, wp_lift;
  match goal with |- match ?x with _ => _ end => destruct x as [?e|?a] end;
  [try done|].
Ltac wp_error :=
  wp_log; apply wp_ret; split; [done|constructor; set_solver].

(** ** Specifications of the functions of the module

    Each adapter is specified once, for any automaton that ignores the
    log; the commands are then specified for a ghost state that no effect
    of theirs changes. *)

Section Specs.
Context (W : World) {G : Type} (step : G → effect → option G).
Context (Hlog : ∀ g l, step g (Stdout l) = Some g).
Implicit Types (g : G) (t : gmap string (option Z)).

Lemma wp_get_user_tokens u Φ g g1 t :
  step g (GetItem u) = Some g1 →
  (∀ v, v = 0 ∨ (∃ s, u = JStr s ∧ v = balance t s) → Φ (Return v) t g1) →
  wp step (get_user_tokens W u) Φ g t.
Proof.
  intros Hs HΦ. unfold get_user_tokens, table_get_item.
  apply wp_try, wp_bind, wp_bind. eapply wp_emit; [done|].
  destruct (get_item W u) as [e|].
  - apply wp_raise. wp_log. apply wp_ret. auto.
  - destruct u; try (apply wp_raise; wp_log; apply wp_ret; auto).
    exists g1. split; [done|]. simpl. apply wp_ret. apply HΦ. right. eauto.
Qed.

Lemma wp_update_user_tokens u amount Φ g g1 t :
  step g (UpdateItem u amount) = Some g1 →
  Φ (Return tt) t g1 →
  (∀ s, u = JStr s → Φ (Return tt) (<[s := Some (balance t s + amount)]> t) g1) →
  wp step (update_user_tokens W u amount) Φ g t.
Proof.
  intros Hs HΦ HΦ'. unfold update_user_tokens, table_update_item.
  apply wp_try, wp_bind. eapply wp_emit; [done|].
  destruct (update_item W u amount) as [e|].
  - apply wp_raise. simpl. by wp_print.
  - destruct u; try (apply wp_raise; simpl; by wp_print).
    exists g1. split; [done|]. simpl. by apply HΦ'.
Qed.

Lemma wp_requests_post url hdrs payload Φ g g1 t :
  step g (HttpPost url hdrs payload) = Some g1 →
  Φ (post W url hdrs payload) t g1 →
  wp step (requests_post W url hdrs payload) Φ g t.
Proof.
  intros Hs HΦ. unfold requests_post. apply wp_bind. eapply wp_emit; [done|].
  by apply wp_lift.
Qed.

Lemma wp_raise_for_status r (Φ : exn + unit → _) g t :
  (¬ (400 ≤ status_code r < 600) → Φ (Return tt) t g) →
  (∀ e, e_class e = HTTPError → e_response e = Some (text r) → Φ (Raise e) t g) →
  wp step (raise_for_status r) Φ g t.
Proof.
  intros Hok Herr. unfold raise_for_status.
  destruct ((400 <=? status_code r)%Z && (status_code r <? 500)%Z) eqn:H1;
    [by apply wp_raise, Herr|].
  destruct ((500 <=? status_code r)%Z && (status_code r <? 600)%Z) eqn:H2;
    [by apply wp_raise, Herr|].
  apply wp_ret, Hok. lia.
Qed.

Definition not_request_error (o : exn + response) : Prop :=
  match o with
  | inr r => command_shape W r
  | inl e => isinstance e RequestException = false
  end.

Lemma wp_send_interaction_response id tok data Φ g g1 t :
  step g (HttpPost (callback_url W id tok) [("Content-Type", "application/json")] data) = Some g1 →
  (∀ o, not_request_error o → Φ o t g1) →
  wp step (send_interaction_response W id tok data) Φ g t.
Proof.
  intros Hs HΦ. unfold send_interaction_response.
  apply wp_try, wp_bind. eapply wp_requests_post; [done|].
  destruct (post W _ _ _) as [e|r].
  - simpl. destruct (isinstance e RequestException) eqn:He.
    + wp_log. apply wp_ret, HΦ. constructor. set_solver.
    + by apply HΦ.
  - apply wp_bind, wp_raise_for_status.
    + intros Hok. apply wp_ret. apply HΦ. by constructor.
    + intros e Hc _. simpl. unfold isinstance. rewrite Hc. simpl.
      wp_log. apply wp_ret, HΦ. constructor. set_solver.
Qed.


Definition swallowed (o : exn + unit) : Prop :=
  match o with
  | inr _ => True
  | inl e => isinstance e RequestException = false
  end.

Lemma wp_send_dm_with_embed u item price Φ g g1 t :
  step g (HttpPost channels_url (bot_headers W) (JObj [("recipient_id", u)])) = Some g1 →
  (∀ o, swallowed o → Φ o t g1) →
  (∀ c, ∃ g2,
     step g1 (HttpPost (messages_url W c) (bot_headers W)
                (JObj [("embeds", JArr [receipt_embed W item price])])) = Some g2
     ∧ ∀ o, swallowed o → Φ o t g2) →
  wp step (send_dm_with_embed W u item price) Φ g t.
Proof.
  intros Hs HΦ1 HΦ2. unfold send_dm_with_embed.
  assert (Hh : ∀ e g',
    (∀ o, swallowed o → Φ o t g') →
    match find (λ h : exn_class * (exn → M ()), isinstance e h.1)
            [(RequestException, λ e0 : exn,
               print ("Error sending DM with embed to user " +:+ str W u +:+ ": " +:+ e_str e0))]
    with
    | Some h => wp step (h.2 e) Φ g' t
    | None => Φ (Raise e) t g'
    end).
  { intros e g' H. simpl. destruct (isinstance e RequestException) eqn:He.
    - simpl. wp_print. by apply H.
    - by apply H. }
  assert (Hhttp : ∀ e, e_class e = HTTPError → isinstance e RequestException = true).
  { intros e He. unfold isinstance. by rewrite He. }
  apply wp_try, wp_bind. eapply wp_requests_post; [done|].
  destruct (post W _ _ _) as [e|r]; [by apply Hh|].
  apply wp_bind, wp_raise_for_status; [intros _|intros e He _; by apply Hh].
  apply wp_bind, wp_lift. destruct (json_body r) as [e|j]; [by apply Hh|].
  apply wp_bind, wp_lift. destruct (py_getitem j "id") as [e|c]; [by apply Hh|].
  destruct (HΦ2 c) as (g2 & Hs2 & HΦ2').
  apply wp_bind. eapply wp_requests_post; [done|].
  destruct (post W _ _ _) as [e|r2]; [by apply Hh|].
  apply wp_raise_for_status; [intros _; by apply HΦ2'|intros e He _; by apply Hh].
Qed.

Definition quiet (g : G) : Prop :=
  ∀ ev, kind_of ev ≠ BodyParse → kind_of ev ≠ SigCheck → step g ev = Some g.

Definition shaped (o : exn + response) : Prop :=
  match o with
  | inr r => command_shape W r
  | inl _ => True
  end.

Lemma shaped_not_request_error o : not_request_error o → shaped o.
Proof. by destruct o. Qed.

Lemma kind_callback id tok h p : kind_of (HttpPost (callback_url W id tok) h p) = Reply.
Proof. reflexivity. Qed.
Lemma kind_messages c h p : kind_of (HttpPost (messages_url W c) h p) = Notify.
Proof. reflexivity. Qed.


Lemma wp_try_post {A} (m : M A) handlers (Ψ : exn + A → gmap string (option Z) → G → Prop) g t :
  wp step m Ψ g t →
  (∀ e t' g', Ψ (Raise e) t' g' →
     match find (λ h, isinstance e h.1) handlers with
     | Some h => wp step (h.2 e) Ψ g' t'
     | None => True
     end) →
  wp step (try_except m handlers) Ψ g t.
Proof.
  intros Hm Hh. apply wp_try. eapply wp_mono; [exact Hm|].
  intros [e|a] t' g' HΨ; [|done].
  specialize (Hh e t' g' HΨ). by destruct (find _ _).
Qed.

Lemma download_image_run url g g1 g2 t :
  step g (HttpGet url) = Some g1 →
  step g1 (UrlOpen url) = Some g2 →
  wp step (download_image W url) (λ _ t' g', t' = t ∧ (g' = g1 ∨ g' = g2)) g t.
Proof.
  intros Hs1 Hs2. unfold download_image.
  apply wp_bind. eapply wp_emit; [done|].
  destruct (get W url) as [e|r].
  - destruct (isinstance e RequestException); [|apply wp_raise; auto].
    wp_log. apply wp_raise; auto.
  - apply wp_try, wp_bind, wp_raise_for_status.
    + intros _. destruct (contains _ _); [apply wp_ret; auto|]. apply wp_raise. simpl. auto.
    + intros e He _. simpl. unfold isinstance at 1. rewrite He. simpl.
      do 3 wp_log.
      unfold download_image_with_urllib.
      apply wp_try, wp_bind. eapply wp_emit; [done|]. apply wp_lift.
      destruct (urlopen W url) as [e'|bs]; [|auto].
      simpl. destruct (isinstance e' URLError); [|auto].
      wp_log. apply wp_raise; auto.
Qed.

Lemma wp_download_image url Φ g g1 g2 t :
  step g (HttpGet url) = Some g1 →
  step g1 (UrlOpen url) = Some g2 →
  Φ (value (download_image W url t)) t g1 →
  Φ (value (download_image W url t)) t g2 →
  wp step (download_image W url) Φ g t.
Proof.
  intros Hs1 Hs2 HΦ1 HΦ2.
  destruct (download_image_run url g g1 g2 t Hs1 Hs2) as (g' & Hacc & Ht & Hg).
  exists g'. split; [done|]. rewrite Ht. by destruct Hg as [-> | ->].
Qed.

Section Quiet.
Context (g : G) (Hq : quiet g).
Let Ψ : exn + response → gmap string (option Z) → G → Prop := λ o _ g', g' = g ∧ shaped o.

Lemma wp_reply_quiet i k data t :
  wp step (send_interaction_response W i k data) Ψ g t.
Proof.
  eapply wp_send_interaction_response; [by apply Hq|].
  intros o Ho. split; [done|]. by apply shaped_not_request_error.
Qed.

Lemma wp_buy_command_quiet b i k t : wp step (buy_command W b i k) Ψ g t.
Proof.
  unfold buy_command. apply wp_try_post.
  - wp_pure. wp_pure. wp_pure. apply wp_bind.
    destruct a1 as [price|]; [|apply wp_ret, wp_reply_quiet].
    apply wp_bind. eapply wp_get_user_tokens; [by apply Hq|]. intros v _.
    destruct (price <=? v)%Z; [|apply wp_ret, wp_reply_quiet].
    apply wp_bind. eapply wp_update_user_tokens; [by apply Hq| |intros s _].
    all: apply wp_bind; eapply wp_send_dm_with_embed; [by apply Hq| |].
    all: try (intros [e|[]] Ho; [done|apply wp_ret, wp_reply_quiet]).
    all: intros c; exists g; split; [by apply Hq|].
    all: intros [e|[]] Ho; [done|apply wp_ret, wp_reply_quiet].
  - intros e t' g' [-> _]. simpl. destruct (isinstance e KeyError); [|done]. wp_error.
Qed.

Lemma wp_balance_command_quiet b i k t : wp step (balance_command W b i k) Ψ g t.
Proof.
  unfold balance_command. apply wp_try_post.
  - wp_pure. apply wp_bind. eapply wp_get_user_tokens; [by apply Hq|]. intros v _.
    apply wp_reply_quiet.
  - intros e t' g' [-> _]. simpl. destruct (isinstance e KeyError); [|done]. wp_error.
Qed.

Lemma wp_shop_command_quiet b i k t : wp step (shop_command W b i k) Ψ g t.
Proof.
  unfold shop_command. apply wp_try_post.
  - apply wp_reply_quiet.
  - intros e t' g' [-> _]. simpl. wp_error.
Qed.

Lemma wp_submit_image_command_quiet b i k key t :
  wp step (submit_image_command W b i k key) Ψ g t.
Proof.
  unfold submit_image_command. apply wp_try_post.
  - wp_pure. wp_pure. apply wp_bind.
    eapply wp_download_image; [by apply Hq|by apply Hq| |];
      destruct (value (download_image W a0 t)) as [e|img]; try done.
    all: apply wp_bind; eapply wp_requests_post; [by apply Hq|].
    all: destruct (post W _ _ _) as [e|r]; [done|].
    all: apply wp_bind, wp_raise_for_status; [intros _|done].
    all: wp_pure; wp_pure; wp_pure.
    all: apply wp_bind; eapply wp_update_user_tokens; [by apply Hq| |intros s _].
    all: apply wp_bind; eapply wp_get_user_tokens; [by apply Hq|]; intros v _.
    all: apply wp_reply_quiet.
  - intros e t' g' [-> _]. simpl.
    destruct (isinstance e HTTPError).
    { wp_log. apply wp_bind.
      destruct (e_response e); [wp_print; apply wp_ret|by apply wp_raise].
      split; [done|constructor; set_solver]. }
    destruct (isinstance e RequestException); [wp_error|].
    destruct (isinstance e KeyError); wp_error.
Qed.

Lemma wp_handle_command_quiet b i k t :
  wp step (handle_command W b i k)
    (λ o _ g', g' = g ∧ ∃ r, o = Return r ∧ command_shape W r) g t.
Proof.
  unfold handle_command. apply wp_try.
  eapply wp_mono.
  - instantiate (1 := Ψ). wp_pure. wp_pure.
    destruct (eq_str a0 "balance"); [apply wp_balance_command_quiet|].
    destruct (eq_str a0 "shop"); [apply wp_shop_command_quiet|].
    destruct (eq_str a0 "buy"); [apply wp_buy_command_quiet|].
    destruct (eq_str a0 "submit_image"); [apply wp_submit_image_command_quiet|].
    wp_error.
  - intros [e|r] t' g' [-> Ho]; [|by eauto]. simpl.
    destruct (isinstance e KeyError).
    + wp_log; apply wp_ret. split; [done|]. eexists; split; [done|]. constructor; set_solver.
    + wp_log; apply wp_ret. split; [done|]. eexists; split; [done|]. constructor; set_solver.
Qed.

End Quiet.
End Specs.

(** ** The recording automaton *)

Lemma accepts_record K g tr :
  accepts (record K) g tr = Some (g ++ observe K tr)%list.
Proof.
  revert g. induction tr as [|ev tr IH]; intros g; simpl.
  - by rewrite app_nil_r.
  - rewrite IH. destruct (bool_decide _); simpl; [|done]. by rewrite <- app_assoc.
Qed.

Lemma record_log K : Log ∉ K → ∀ g l, record K g (Stdout l) = Some g.
Proof. intros H g l. unfold record. simpl. by rewrite bool_decide_eq_false_2. Qed.

Lemma wp_record K {A} (m : M A) Φ t :
  wp (record K) m Φ [] t →
  Φ (value (m t)) (final (m t)) (observe K (effects (m t))).
Proof. intros (g & Hacc & H). rewrite accepts_record in Hacc. by simplify_eq. Qed.

Lemma record_quiet K g :
  (∀ k, k ∈ K → k = BodyParse ∨ k = SigCheck) → quiet (record K) g.
Proof.
  intros HK ev H1 H2. unfold record. rewrite bool_decide_eq_false_2; [done|].
  intros Hin. by destruct (HK _ Hin).
Qed.

Lemma precedes_observe K k1 k2 tr :
  k2 ∈ K → precedes k1 k2 (observe K tr) → precedes k1 k2 tr.
Proof.
  intros H2 Hp pre ev post -> Hk. unfold observe in Hp.
  rewrite List.filter_app in Hp. simpl in Hp.
  rewrite bool_decide_eq_true_2 in Hp by (by rewrite Hk).
  destruct (Hp _ _ _ eq_refl Hk) as (ev' & Hin & Hk').
  exists ev'. split; [|done].
  apply list_elem_of_In, filter_In in Hin as [Hin _]. by apply list_elem_of_In.
Qed.

Lemma ordered_spec k1 k2 seen tr :
  ordered k1 k2 seen tr = true ↔
  ∀ pre ev post, tr = (pre ++ ev :: post)%list → kind_of ev = k2 →
    seen = true ∨ ∃ ev', ev' ∈ pre ∧ kind_of ev' = k1.
Proof.
  revert seen. induction tr as [|ev0 tr IH]; intros seen; simpl.
  - split; [|done]. intros _ [|??] ??; done.
  - rewrite andb_true_iff, IH. split.
    + intros [H0 Htl] pre ev post Heq Hk. destruct pre as [|p pre]; simplify_eq/=.
      * rewrite bool_decide_eq_true_2 in H0 by done. by left.
      * destruct (Htl _ _ _ eq_refl eq_refl) as [Hs|(ev' & Hin & Hk')].
        -- apply orb_true_iff in Hs as [->|Hp]; [by left|].
           apply bool_decide_eq_true in Hp. right. exists p. split; [set_solver|done].
        -- right. exists ev'. split; [set_solver|done].
    + intros H. split.
      * case_bool_decide as Hk; [|done].
        destruct (H [] ev0 tr eq_refl Hk) as [->|(ev' & Hin & _)]; [done|set_solver].
      * intros pre ev post -> Hk.
        destruct (H (ev0 :: pre) ev post eq_refl Hk) as [->|(ev' & Hin & Hk')]; [by left|].
        apply elem_of_cons in Hin as [->|Hin].
        -- left. rewrite bool_decide_eq_true_2 by done. by rewrite orb_true_r.
        -- right. eauto.
Qed.

Lemma ordered_precedes k1 k2 tr : ordered k1 k2 false tr = true ↔ precedes k1 k2 tr.
Proof.
  rewrite ordered_spec. unfold precedes. split; intros H pre ev post Heq Hk.
  - by destruct (H pre ev post Heq Hk).
  - right. eauto.
Qed.


Lemma command_shape_reply W r : command_shape W r → reply_shape W r ∧ statusCode r ≠ 401.
Proof.
  intros [status message H|status txt H].
  - split; [constructor; set_solver|]. simpl. set_solver.
  - split; [by constructor|]. simpl. lia.
Qed.

Lemma str_fromhex_error s e : str_fromhex s = Raise e → e_class e = ValueError.
Proof.
  unfold str_fromhex. destruct (first_non_ascii s 0); [by intros [= <-]|].
  destruct (fromhex_from s 0); [by intros [= <-]|done].
Qed.

Lemma bytes_fromhex_error v e :
  bytes_fromhex v = Raise e → e_class e = ValueError ∨ e_class e = TypeError.
Proof.
  destruct v as [[]|]; simpl; try (intros [= <-]; by right).
  intros H. left. by eapply str_fromhex_error.
Qed.


Lemma lambda_handler_run W event context t :
  wp (record [BodyParse; SigCheck]) (lambda_handler W event context)
    (λ o _ g, ∃ r, o = Return r ∧ reply_shape W r ∧ auth_trace W r g) [] t.
Proof.
  set (K := [BodyParse; SigCheck]).
  assert (Hlog : ∀ g l, record K g (Stdout l) = Some g) by done.
  assert (Hq : ∀ g, quiet (record K) g) by (intros g; apply record_quiet; set_solver).
  unfold lambda_handler. apply wp_try.
  eapply (wp_mono _ _ (λ o _ g, authenticated W o g)).
  - wp_pure; [by left|]. wp_pure; [by left|]. wp_pure; [by left|].
    destruct (_ || _); [apply wp_raise; by left|].
    wp_pure; [by left|]. wp_pure; [by left|].
    apply wp_bind.
    eapply (wp_mono _ _ (λ _ _ g, g = [])).
    { destruct (truthy a3); [|by apply wp_ret].
      unfold b64_body. destruct a2; try by apply wp_raise.
      wp_pure. by apply wp_ret. }
    intros [e|body] t' g' ->; [by left|].
    apply wp_bind. unfold parse_body. apply wp_try.
    destruct body as [| | |s| |]; try (apply wp_raise; by left).
    apply wp_bind. eapply wp_emit; [reflexivity|]. simpl.
    apply wp_bind, wp_lift.
    destruct (json_loads W s) as [e|j] eqn:Hj.
    2: apply wp_ret; simpl.
    2: { apply wp_bind, wp_lift.
      destruct (bytes_fromhex _) as [e|key]; [right; left; eauto 10|].
      destruct (VerifyKey W key) as [e|]; [apply wp_raise; right; left; eauto 10|].
      apply wp_bind. unfold check_signature. apply wp_try.
      apply wp_bind, wp_lift.
      destruct (bytes_fromhex (Some a0)) as [e|sig] eqn:Hsig.
      { unfold isinstance. simpl.
        apply bytes_fromhex_error in Hsig as [-> | ->]; simpl; right; left; eauto. }
      apply wp_bind. eapply wp_emit; [reflexivity|]. simpl.
      destruct (verify W key _ sig) as [e|] eqn:Hv.
      * apply wp_raise. simpl.
        destruct (isinstance e BadSignatureError) eqn:He; [|right; right; eauto 10].
        wp_log. apply wp_ret. simpl. apply wp_ret. split.
        -- constructor. set_solver.
        -- apply auth_checked; [eauto|]. intros _. split; [done|]. eauto.
      * apply wp_ret. simpl.
        wp_pure; [right; right; eauto 10|].
        destruct (eq_one _).
        { apply wp_ret. split; [apply shape_ack|]. by apply auth_checked; [eauto|]. }
        wp_pure; [right; right; eauto 10|]. wp_pure; [right; right; eauto 10|].
        eapply wp_mono; [by apply wp_handle_command_quiet|].
        intros o t'' g'' (-> & r & -> & Hr). apply command_shape_reply in Hr as [Hr H401].
        split; [done|]. by apply auth_checked; [eauto|]. }
    simpl. destruct (isinstance e JSONDecodeError) eqn:Hdec.
    + wp_log. apply wp_ret. apply wp_ret.
      split; [constructor; set_solver|]. apply auth_unchecked; [|done].
      intros e' He'. rewrite Hj in He'. injection He' as <-. by rewrite Hdec.
    + right. left. eauto 10.
  - intros [e|r] t' g' Ho; [|by exists r].
    simpl. destruct (isinstance e ValueError) eqn:Hval.
    + wp_log. apply wp_ret. eexists; split; [done|]. split; [constructor; set_solver|].
      destruct Ho as [-> | [(s & -> & Hs) | (s & m & sig & -> & Hs)]].
      * by apply auth_none.
      * apply auth_unchecked; [|done]. intros e' He'.
        destruct Hs as [[j Hj]|[Hj Hdec]]; rewrite Hj in He'; [done|].
        injection He' as <-. by rewrite Hdec, Hval.
      * by apply auth_checked.
    + wp_log. apply wp_ret. eexists; split; [done|]. split; [constructor; set_solver|].
      destruct Ho as [-> | [(s & -> & Hs) | (s & m & sig & -> & Hs)]].
      * by apply auth_none.
      * apply auth_unchecked; [|done]. intros e' He'.
        destruct Hs as [[j Hj]|[Hj Hdec]]; rewrite Hj in He'; [done|].
        injection He' as <-. by rewrite Hdec, Hval.
      * by apply auth_checked.
Qed.

Lemma elem_of_observe K ev tr : ev ∈ tr → kind_of ev ∈ K → ev ∈ observe K tr.
Proof.
  intros Hin Hk. apply list_elem_of_In, filter_In. split; [by apply list_elem_of_In|].
  by apply bool_decide_eq_true_2.
Qed.

Lemma never_observe K k tr :
  k ∈ K → (∀ ev, ev ∈ observe K tr → kind_of ev ≠ k) → never k tr.
Proof.
  intros HK H ev Hin Hk. apply (H ev); [|done]. apply elem_of_observe; [done|]. by rewrite Hk.
Qed.

(** C10 (amended): [lambda_handler] is total.  From every event and
    every table it returns a response (a status code, the two standard
    headers and a body), whatever the libraries and the services do, and
    no exception reaches its caller.  The response is an error envelope
    with status 400, 401 or 500, the acknowledgment of a ping with status
    200, or the platform's answer to the reply, forwarded with the status
    it came with, which is outside 400..599. *)
Theorem lambda_handler_always_answers W event context t :
  ∃ r, value (lambda_handler W event context t) = Return r ∧ reply_shape W r.
Proof.
  destruct (wp_record _ _ _ _ (lambda_handler_run W event context t)) as (r & Hr & Hs & _).
  eauto.
Qed.


Lemma absent_never K k tr : k ∈ K → absent k (observe K tr) = true → never k tr.
Proof.
  intros HK H. apply (never_observe K); [done|]. intros ev Hin Hk.
  unfold absent in H. rewrite forallb_forall in H.
  apply list_elem_of_In, H in Hin. rewrite bool_decide_eq_true_2 in Hin; done.
Qed.


Lemma buy_command_order W b i k t :
  wp (record money) (buy_command W b i k)
    (λ _ _ g, ordered BalanceRead BalanceWrite false g && ordered BalanceWrite Notify false g = true) [] t.
Proof.
  assert (Hlog : ∀ g l, record money g (Stdout l) = Some g) by done.
  unfold buy_command. apply wp_try_post.
  - wp_pure. wp_pure. wp_pure. apply wp_bind.
    destruct a1 as [price|].
    2: { apply wp_ret. eapply (wp_send_interaction_response W _ Hlog); [reflexivity|done]. }
    apply wp_bind. eapply (wp_get_user_tokens W _ Hlog); [reflexivity|]. intros v _.
    destruct (price <=? v)%Z.
    2: { apply wp_ret. eapply (wp_send_interaction_response W _ Hlog); [reflexivity|done]. }
    apply wp_bind. eapply (wp_update_user_tokens W _ Hlog); [reflexivity| |intros s _].
    all: apply wp_bind; eapply (wp_send_dm_with_embed W _ Hlog); [reflexivity| |].
    all: try (intros [e|[]] _; [done|];
              apply wp_ret; eapply (wp_send_interaction_response W _ Hlog); [reflexivity|done]).
    all: intros c; eexists; split; [reflexivity|].
    all: intros [e|[]] _; [done|].
    all: apply wp_ret; eapply (wp_send_interaction_response W _ Hlog); [reflexivity|done].
  - intros e t' g' Hg. simpl. destruct (isinstance e KeyError); [|done].
    wp_log. by apply wp_ret.
Qed.

Lemma submit_image_command_order W b i k key t :
  wp (record money) (submit_image_command W b i k key)
    (λ _ _ g, ordered BalanceWrite BalanceRead false g && absent Notify g = true) [] t.
Proof.
  assert (Hlog : ∀ g l, record money g (Stdout l) = Some g) by done.
  unfold submit_image_command. apply wp_try_post.
  - wp_pure. wp_pure. apply wp_bind.
    eapply (wp_download_image W _ Hlog); [reflexivity|reflexivity| |];
      destruct (value (download_image W a0 t)) as [e|img]; try done.
    all: apply wp_bind; eapply wp_requests_post; [reflexivity|].
    all: destruct (post W _ _ _) as [e|r]; [done|].
    all: apply wp_bind, wp_raise_for_status; [intros _|done].
    all: wp_pure; wp_pure; wp_pure.
    all: apply wp_bind; eapply (wp_update_user_tokens W _ Hlog); [reflexivity| |intros s _].
    all: apply wp_bind; eapply (wp_get_user_tokens W _ Hlog); [reflexivity|]; intros v _.
    all: eapply (wp_send_interaction_response W _ Hlog); [reflexivity|done].
  - intros e t' g' Hg. simpl.
    destruct (isinstance e HTTPError).
    { wp_log. apply wp_bind.
      destruct (e_response e); [wp_print; by apply wp_ret|by apply wp_raise]. }
    destruct (isinstance e RequestException); [wp_log; by apply wp_ret|].
    destruct (isinstance e KeyError); wp_log; by apply wp_ret.
Qed.

(** C8 (amended): in [buy_command] every balance write comes after a
    balance read and every notification call after a balance write; in
    [submit_image_command] the balance is written first and read after
    (every read comes after a write), and no notification is attempted. *)
Theorem balance_effects_order W b i k key t :
  (precedes BalanceRead BalanceWrite (effects (buy_command W b i k t)) ∧
   precedes BalanceWrite Notify (effects (buy_command W b i k t))) ∧
  (precedes BalanceWrite BalanceRead (effects (submit_image_command W b i k key t)) ∧
   never Notify (effects (submit_image_command W b i k key t))).
Proof.
  split.
  - pose proof (wp_record _ _ _ _ (buy_command_order W b i k t)) as H.
    apply andb_true_iff in H as [H1 H2]. split.
    + apply (precedes_observe money); [set_solver|]. by apply ordered_precedes.
    + apply (precedes_observe money); [set_solver|]. by apply ordered_precedes.
  - pose proof (wp_record _ _ _ _ (submit_image_command_order W b i k key t)) as H.
    apply andb_true_iff in H as [H1 H2]. split.
    + apply (precedes_observe money); [set_solver|]. by apply ordered_precedes.
    + apply (absent_never money); [set_solver|done].
Qed.


Lemma shop_prices_positive item price : assoc item shop_items = Some price → (10 ≤ price)%Z.
Proof.
  unfold shop_items. simpl. intros H.
  repeat (destruct (String.eqb _ _); [injection H as <-; lia|]). done.
Qed.

Lemma shop_lookup_listed item price :
  shop_lookup item = Return (Some price) →
  ∃ s, item = JStr s ∧ assoc s shop_items = Some price.
Proof. destruct item; simpl; intros [= H]; eauto. Qed.

Lemma balance_insert t s x u :
  balance (<[s := Some x]> t) u = if decide (s = u) then x else balance t u.
Proof.
  unfold balance. rewrite lookup_insert. by destruct (decide (s = u)).
Qed.

Lemma nonneg_insert t s x : nonneg t → (0 ≤ x)%Z → nonneg (<[s := Some x]> t).
Proof.
  intros Ht Hx u. rewrite balance_insert. destruct (decide (s = u)); [done|apply Ht].
Qed.

Lemma buy_command_nonneg W b i k t :
  nonneg t → nonneg (final (buy_command W b i k t)).
Proof.
  intros Ht.
  assert (Hlog : ∀ g l, record [] g (Stdout l) = Some g) by done.
  apply (wp_record [] (buy_command W b i k) (λ _ t' _, nonneg t')).
  unfold buy_command. apply wp_try_post.
  - wp_pure. wp_pure. apply wp_bind, wp_lift.
    destruct (shop_lookup a0) as [e|[price|]] eqn:Hshop; [done| |].
    2: { apply wp_bind, wp_ret. eapply (wp_send_interaction_response W _ Hlog); [reflexivity|done]. }
    apply shop_lookup_listed in Hshop as (item & -> & Hprice%shop_prices_positive).
    apply wp_bind, wp_bind.
    eapply (wp_get_user_tokens W _ Hlog); [reflexivity|]. intros v Hv.
    destruct (price <=? v)%Z eqn:Hle.
    2: { apply wp_ret. eapply (wp_send_interaction_response W _ Hlog); [reflexivity|done]. }
    apply Z.leb_le in Hle.
    destruct Hv as [->|(u & -> & ->)]; [lia|].
    assert (Hins : nonneg (<[u := Some (balance t u + - price)]> t))
      by (apply nonneg_insert; [done|lia]).
    apply wp_bind. eapply (wp_update_user_tokens W _ Hlog); [reflexivity| |intros s [= <-]].
    all: apply wp_bind; eapply (wp_send_dm_with_embed W _ Hlog);
      [ reflexivity
      | intros [e|[]] _; [done|];
        apply wp_ret; eapply (wp_send_interaction_response W _ Hlog); [reflexivity|done]
      | intros c; eexists; split; [reflexivity|];
        intros [e|[]] _; [done|];
        apply wp_ret; eapply (wp_send_interaction_response W _ Hlog); [reflexivity|done] ].
  - intros e t' g' Hg. simpl. destruct (isinstance e KeyError); [|done].
    wp_log. by apply wp_ret.
Qed.

(** C3: when the balance of the invoking user is below the price of the
    listed item, [buy_command] leaves the table as it was, performs no
    balance write, and its only calls are the balance read and the reply
    to the interaction, a message of type 4 whose content is
    [<@user>, you don't have enough tokens to buy item!]; and, from a
    table without negative balances, no run of [buy_command] leaves a
    negative balance. *)
Theorem buy_rejects_insufficient_funds W b i k t u item price :
  user_id_of b = Return (JStr u) →
  option_value_of b = Return (JStr item) →
  assoc item shop_items = Some price →
  (balance t u < price)%Z →
  let run := buy_command W b i k t in
  final run = t ∧
  observe loud (effects run) =
    [GetItem (JStr u);
     HttpPost ("https://discord.com/api/v10/interactions/" +:+ str W i +:+ "/" +:+
               str W k +:+ "/callback")
       [("Content-Type", "application/json")]
       (JObj [("type", JNum 4);
              ("data",
                JObj [("content",
                        JStr ("<@" +:+ u +:+ ">, you don't have enough tokens to buy " +:+
                              item +:+ "!"))])])] ∧
  never BalanceWrite (effects run) ∧
  (∀ W' b' i' k' t', nonneg t' → nonneg (final (buy_command W' b' i' k' t'))).
Proof.
  intros Hu Hitem Hprice Hlt. cbv zeta.
  change ("https://discord.com/api/v10/interactions/" +:+ str W i +:+ "/" +:+
          str W k +:+ "/callback") with (callback_url W i k).
  change (JObj [("type", JNum 4);
                ("data",
                  JObj [("content",
                          JStr ("<@" +:+ u +:+ ">, you don't have enough tokens to buy " +:+
                                item +:+ "!"))])])
    with (message_reply (not_enough_message W (JStr u) (JStr item))).
  assert (Hlog : ∀ g l, record loud g (Stdout l) = Some g) by done.
  pose proof (shop_prices_positive _ _ Hprice) as Hpos.
  assert (H : final (buy_command W b i k t) = t ∧
              observe loud (effects (buy_command W b i k t)) =
              [GetItem (JStr u);
               HttpPost (callback_url W i k) [("Content-Type", "application/json")]
                 (message_reply (not_enough_message W (JStr u) (JStr item)))]).
  { apply (wp_record loud (buy_command W b i k) (λ _ t' g, t' = t ∧ g = _)).
    unfold buy_command. apply wp_try_post.
    - rewrite Hu, Hitem. do 2 (apply wp_bind, wp_lift; cbv beta iota).
      change (shop_lookup (JStr item)) with (Return (assoc item shop_items)).
      rewrite Hprice. apply wp_bind, wp_lift; cbv beta iota. apply wp_bind, wp_bind.
      eapply (wp_get_user_tokens W _ Hlog); [reflexivity|]. intros v Hv.
      assert ((price <=? v)%Z = false) as ->.
      { apply Z.leb_gt. destruct Hv as [->|(s & [= <-] & ->)]; lia. }
      apply wp_ret. eapply (wp_send_interaction_response W _ Hlog); [reflexivity|done].
    - intros e t' g' Hg. simpl. destruct (isinstance e KeyError); [|done].
      wp_log. by apply wp_ret. }
  destruct H as [Hfinal Hobs]. repeat split; [done|done| |intros; by apply buy_command_nonneg].
  apply (never_observe loud); [set_solver|]. rewrite Hobs.
  intros ev Hin. repeat (apply elem_of_cons in Hin as [->|Hin]; [done|]). set_solver.
Qed.

Lemma raise_for_status_ok r : is_http_error r = false → raise_for_status r = mret tt.
Proof.
  unfold is_http_error, raise_for_status. intros H.
  destruct ((400 <=? status_code r)%Z && (status_code r <? 500)%Z) eqn:H1; [lia|].
  destruct ((500 <=? status_code r)%Z && (status_code r <? 600)%Z) eqn:H2; [lia|done].
Qed.

Lemma sum_tokens_text mapping text acc :
  sum_tokens mapping (JStr text) acc = Return (acc + category_award mapping text).
Proof.
  revert acc. induction mapping as [|[waste_type tokens] rest IH]; intros acc.
  - unfold category_award. simpl. f_equal. lia.
  - simpl. rewrite IH. unfold category_award. simpl.
    destruct (contains waste_type text); simpl; f_equal; lia.
Qed.

(** C4: on a text, [extract_tokens_from_description] returns the sum,
    over the category table, of the values of the categories whose
    keyword occurs in the text (a case-sensitive substring test, each
    category counted once); and in a [submit_image] whose classification
    answers that text, the one balance write of the run credits that
    amount: the balance of the user grows by it when the table accepts
    the write. *)
Theorem award_is_sum_of_matched_categories W b i k key t u url img resp result text :
  let award :=
    category_award
      [("Plastic", 1); ("Paper", 1); ("Glass", 2); ("Metal", 3); ("Organic", 1);
       ("Textile", 2); ("Electronic", 4); ("Wood", 2); ("Rubber", 3); ("Ceramic", 2);
       ("Composite", 2); ("Hazardous", 5); ("Medical", 4); ("Miscellaneous", 1)] text in
  user_id_of b = Return (JStr u) →
  option_value_of b = Return url →
  value (download_image W url t) = Return img →
  post W completions_url
    [("Content-Type", "application/json"); ("Authorization", "Bearer " +:+ opt_str key)]
    (classification_payload (encode_image W img)) = Return resp →
  is_http_error resp = false →
  json_body resp = Return result →
  description_of result = Return (JStr text) →
  let run := submit_image_command W b i k key t in
  extract_tokens_from_description (JStr text) = Return award ∧
  observe [BalanceWrite] (effects run) = [UpdateItem (JStr u) award] ∧
  (update_item W (JStr u) award = None →
   balance (final run) u = (balance t u + award)%Z).
Proof.
  intros award Hu Hurl Himg Hpost Hstatus Hjson Hdesc. cbv zeta.
  assert (Hex : extract_tokens_from_description (JStr text) = Return award).
  { unfold extract_tokens_from_description. by rewrite sum_tokens_text. }
  split; [done|].
  assert (Hlog : ∀ g l, record [BalanceWrite] g (Stdout l) = Some g) by done.
  assert (H : observe [BalanceWrite] (effects (submit_image_command W b i k key t)) =
              [UpdateItem (JStr u) award] ∧
              (update_item W (JStr u) award = None →
               final (submit_image_command W b i k key t) =
               <[u := Some (balance t u + award)]> t)).
  { apply (wp_record [BalanceWrite] (submit_image_command W b i k key)
             (λ _ t' g, g = _ ∧ (_ → t' = _))).
    unfold submit_image_command. apply wp_try_post.
    - rewrite Hu, Hurl. do 2 (apply wp_bind, wp_lift; cbv beta iota).
      apply wp_bind. eapply (wp_download_image W _ Hlog); [reflexivity|reflexivity| |].
      all: rewrite Himg.
      all: apply wp_bind; eapply wp_requests_post; [reflexivity|]; rewrite Hpost.
      all: rewrite (raise_for_status_ok _ Hstatus); apply wp_bind, wp_ret.
      all: rewrite Hjson; apply wp_bind, wp_lift; cbv beta iota.
      all: rewrite Hdesc; apply wp_bind, wp_lift; cbv beta iota.
      all: rewrite Hex; apply wp_bind, wp_lift; cbv beta iota.
      all: apply wp_bind; unfold update_user_tokens, table_update_item.
      all: apply wp_try, wp_bind; eapply wp_emit; [reflexivity|].
      all: destruct (update_item W (JStr u) award) as [e|];
        [apply wp_raise; simpl; wp_print|eexists; split; [reflexivity|]; simpl].
      all: apply wp_bind; eapply (wp_get_user_tokens W _ Hlog); [reflexivity|]; intros v _.
      all: eapply (wp_send_interaction_response W _ Hlog); [reflexivity|done].
    - intros e t' g' Hg. simpl.
      destruct (isinstance e HTTPError).
      { wp_log. apply wp_bind.
        destruct (e_response e); [wp_print; by apply wp_ret|by apply wp_raise]. }
      destruct (isinstance e RequestException); [wp_log; by apply wp_ret|].
      destruct (isinstance e KeyError); wp_log; by apply wp_ret. }
  destruct H as [-> H]. split; [done|]. intros Hupd. rewrite (H Hupd).
  rewrite balance_insert. by destruct (decide (u = u)).
Qed.

Lemma raise_for_status_error r :
  is_http_error r = true →
  ∃ e, raise_for_status r = raise e ∧ e_class e = HTTPError.
Proof.
  unfold is_http_error, raise_for_status. intros H.
  destruct ((400 <=? status_code r)%Z && (status_code r <? 500)%Z) eqn:H1; [by eexists|].
  destruct ((500 <=? status_code r)%Z && (status_code r <? 600)%Z) eqn:H2; [by eexists|lia].
Qed.

Lemma download_image_cases W url t :
  let run := download_image W url t in
  (∃ rest, effects run = HttpGet url :: rest) ∧
  final run = t ∧
  match get W url with
  | inr resp =>
      if is_http_error resp then
        observe loud (effects run) = [HttpGet url; UrlOpen url] ∧
        value run = urlopen W url
      else
        observe loud (effects run) = [HttpGet url] ∧
        value run =
          if contains "image" (default EmptyString (content_type resp)) then Return (content resp)
          else Raise (mk_exn ValueError
                        ("Unexpected content type: " +:+ opt_str (content_type resp)))
  | inl _ => True
  end.
Proof.
  cbv zeta. split.
  { unfold download_image. rewrite run_bind. simpl. eauto. }
  assert (Hlog : ∀ g l, record loud g (Stdout l) = Some g) by done.
  apply (wp_record loud (download_image W url)
           (λ o t' g, t' = t ∧
              match get W url with
              | inr resp =>
                  if is_http_error resp then g = [HttpGet url; UrlOpen url] ∧ o = urlopen W url
                  else g = [HttpGet url] ∧
                       o = if contains "image" (default EmptyString (content_type resp))
                           then Return (content resp)
                           else Raise (mk_exn ValueError
                                  ("Unexpected content type: " +:+ opt_str (content_type resp)))
              | inl _ => True
              end)).
  unfold download_image. apply wp_bind. eapply wp_emit; [reflexivity|].
  destruct (get W url) as [e|resp].
  - destruct (isinstance e RequestException); [wp_log|]; by apply wp_raise.
  - apply wp_try, wp_bind. destruct (is_http_error resp) eqn:Hst.
    + destruct (raise_for_status_error _ Hst) as (e & -> & He).
      apply wp_raise. simpl.
      assert (isinstance e RequestException = true) as ->
        by (unfold isinstance; by rewrite He).
      do 3 wp_log. unfold download_image_with_urllib.
      apply wp_try, wp_bind. eapply wp_emit; [reflexivity|]. apply wp_lift.
      destruct (urlopen W url) as [e'|data]; [|done].
      simpl. destruct (isinstance e' URLError); [wp_log; by apply wp_raise|done].
    + rewrite (raise_for_status_ok _ Hst). apply wp_ret.
      destruct (contains "image" _); [by apply wp_ret|by apply wp_raise].
Qed.


Lemma wp_record_intro K {A} (m : M A) Φ g t :
  Φ (value (m t)) (final (m t)) (g ++ observe K (effects (m t)))%list →
  wp (record K) m Φ g t.
Proof. intros H. eexists. split; [apply accepts_record|done]. Qed.

(** C6 (amended): when the resource is served with a status that is not
    an HTTP error and a content type that does not name an image,
    [submit_image_command] answers the error envelope with status 500 and
    message [Failed to analyze the image]; its only call is the download,
    so no reply is sent to the interaction, and the table is unchanged. *)
Theorem non_image_is_an_error_envelope W b i k key t uid url resp :
  user_id_of b = Return uid →
  option_value_of b = Return url →
  get W url = Return resp →
  is_http_error resp = false →
  contains "image" (default EmptyString (content_type resp)) = false →
  let run := submit_image_command W b i k key t in
  value run = Return (error_response W 500 "Failed to analyze the image") ∧
  statusCode (error_response W 500 "Failed to analyze the image") = 500 ∧
  observe loud (effects run) = [HttpGet url] ∧
  final run = t.
Proof.
  intros Hu Hurl Hget Hst Hct. cbv zeta.
  assert (Hlog : ∀ g l, record loud g (Stdout l) = Some g) by done.
  pose proof (download_image_cases W url t) as (_ & Hfin & Hd).
  rewrite Hget, Hst, Hct in Hd. destruct Hd as [Hobs Hval].
  cut (value (submit_image_command W b i k key t) =
         Return (error_response W 500 "Failed to analyze the image") ∧
       final (submit_image_command W b i k key t) = t ∧
       observe loud (effects (submit_image_command W b i k key t)) = [HttpGet url]).
  { intros (? & ? & ?). done. }
  apply (wp_record loud (submit_image_command W b i k key) (λ o t' g, o = _ ∧ t' = t ∧ g = _)).
  unfold submit_image_command. apply wp_try.
  rewrite Hu, Hurl. do 2 (apply wp_bind, wp_lift; cbv beta iota).
  apply wp_bind, wp_record_intro. rewrite Hval, Hfin, Hobs. simpl.
  unfold isinstance. simpl. wp_log. by apply wp_ret.
Qed.

(** ** Runs in concrete worlds *)

Example b64encode_png_magic : b64encode_bytes [x89; x50] = "iVA=".
Proof. reflexivity. Qed.


(** C1, two more runs: the decoder fails otherwise than by
    [JSONDecodeError].  The number of 5000 digits is answered 400 with
    the text of the interpreter, the deep nesting 500; the signature,
    which the verifier would reject, is checked in neither. *)
Example decoder_limits_are_not_invalid_json :
  let W := limits_world in
  let run1 := lambda_handler W (request (JStr bad_signature_hex) long_number) JNull ∅ in
  let run2 := lambda_handler W (request (JStr bad_signature_hex) deep_nesting) JNull ∅ in
  value run1 =
    Return (error_response W 400
              ("Exceeds the limit (4300 digits) for integer string conversion: " +:+
               "value has 5000 digits; use sys.set_int_max_str_digits() to increase the limit")) ∧
  value run2 = Return (error_response W 500 "Internal server error") ∧
  never SigCheck (effects run1) ∧ never SigCheck (effects run2).
Proof.
  cbv zeta. split; [vm_compute; reflexivity|]. split; [vm_compute; reflexivity|].
  split; (apply (absent_never loud); [set_solver|]; vm_compute; reflexivity).
Qed.

(** C2: a signature header that is not hexadecimal is answered 400, with
    the text of the [ValueError] of [bytes.fromhex], not 401. *)
Theorem malformed_hex_signature_gets_400 :
  let W := demo_world dm_opened "image/png" in
  let run := lambda_handler W (request (JStr "zz") "{}") JNull ∅ in
  value run =
    Return (error_response W 400
              "non-hexadecimal number found in fromhex() arg at position 0") ∧
  (∀ r, value run = Return r → statusCode r = 400) ∧
  never SigCheck (effects run).
Proof.
  cbv zeta. split; [vm_compute; reflexivity|split].
  - intros r Hr. vm_compute in Hr. by injection Hr as <-.
  - apply (absent_never loud); [set_solver|]. vm_compute. reflexivity.
Qed.

(** C9: two requests that fail in the same [except ValueError] clause
    get different messages, each the text of the exception raised inside
    [bytes.fromhex]. *)
Theorem value_error_text_reaches_caller :
  let W := demo_world dm_opened "image/png" in
  let run1 := lambda_handler W (request (JStr "zz") "{}") JNull ∅ in
  let run2 := lambda_handler W (request (JStr "0") "{}") JNull ∅ in
  value run1 =
    Return (error_response W 400
              "non-hexadecimal number found in fromhex() arg at position 0") ∧
  value run2 =
    Return (error_response W 400
              "non-hexadecimal number found in fromhex() arg at position 1") ∧
  observe [Log] (effects run1) =
    [Stdout "ValueError: non-hexadecimal number found in fromhex() arg at position 0"] ∧
  observe [Log] (effects run2) =
    [Stdout "ValueError: non-hexadecimal number found in fromhex() arg at position 1"] ∧
  value run1 ≠ value run2.
Proof.
  cbv zeta. repeat split; try (vm_compute; reflexivity).
  intros H. vm_compute in H. discriminate.
Qed.

(** Whatever happens to the notification, [send_dm_with_embed] leaves
    the table as it found it: a decrement already applied stays. *)
Lemma send_dm_with_embed_keeps_table W user_id item price t :
  final (send_dm_with_embed W user_id item price t) = t.
Proof.
  assert (Hlog : ∀ g l, record [] g (Stdout l) = Some g) by done.
  apply (wp_record [] (send_dm_with_embed W user_id item price) (λ _ t' _, t' = t)).
  eapply (wp_send_dm_with_embed W _ Hlog); [reflexivity|done|].
  intros c. eexists. split; [reflexivity|done].
Qed.

(** C5: the channel is opened with a 200 whose body has no [id]; the
    balance has been decremented, and the command answers 400
    [Invalid item] without replying to the interaction. *)
Theorem receipt_without_id_fails_the_purchase :
  let W := demo_world dm_without_id "image/png" in
  let run := buy_command W buy_item1 (JStr "77") (JStr "tok") {[ "u1" := Some 15 ]} in
  value run = Return (error_response W 400 "Invalid item") ∧
  balance (final run) "u1" = 5 ∧
  observe loud (effects run) =
    [GetItem (JStr "u1"); UpdateItem (JStr "u1") (-10);
     HttpPost channels_url (bot_headers W) (JObj [("recipient_id", JStr "u1")])] ∧
  observe [Log] (effects run) = [Stdout "KeyError in buy_command: 'id'"].
Proof. cbv zeta. repeat split; vm_compute; reflexivity. Qed.

(** C6, counterexample: the resource is served as [text/html]; the
    command answers the error envelope with status 500 and sends no
    reply. *)
Lemma non_image_answers_500 :
  let W := demo_world dm_opened "text/html" in
  let run := submit_image_command W submit_photo (JStr "77") (JStr "tok") (api_key W)
               {[ "u1" := Some 15 ]} in
  get W photo_url = Return (ok_download "text/html" [x89; x50]) ∧
  value run = Return (error_response W 500 "Failed to analyze the image") ∧
  ¬ (∃ r, value run = Return r ∧ statusCode r = 200) ∧
  never Reply (effects run).
Proof.
  cbv zeta. repeat split; try (vm_compute; reflexivity).
  - intros (r & Hr & H200). vm_compute in Hr. injection Hr as <-. discriminate.
  - apply (absent_never loud); [set_solver|]. vm_compute. reflexivity.
Qed.


(** C8, counterexample: in a successful [submit_image] the balance is
    written before it is read, and no read comes before the write. *)
Lemma submit_image_writes_before_reading :
  let W := demo_world dm_opened "image/png" in
  let run := submit_image_command W submit_photo (JStr "77") (JStr "tok") (api_key W)
               {[ "u1" := Some 15 ]} in
  map kind_of (effects run) = [Download; Classify; BalanceWrite; BalanceRead; Reply] ∧
  ¬ precedes BalanceRead BalanceWrite (effects run).
Proof.
  cbv zeta. split; [vm_compute; reflexivity|].
  intros H%ordered_precedes. vm_compute in H. discriminate.
Qed.

(** C10, counterexample: the notification raises, the exception is
    swallowed, and the answer carries the status of the platform's reply,
    204, which is none of 200, 400, 401, 500. *)
Lemma swallowed_failure_answers_204 :
  let W := demo_world dm_refused "image/png" in
  let run := lambda_handler W (request (JStr good_signature_hex) (dumps_ascii buy_item1))
               JNull {[ "u1" := Some 15 ]} in
  observe [Log] (effects run) =
    [Stdout "Error sending DM with embed to user u1: Connection refused"] ∧
  (∃ r, value run = Return r ∧ statusCode r = 204) ∧
  ¬ (∃ r, value run = Return r ∧ statusCode r ∈ [200; 400; 401; 500]).
Proof.
  cbv zeta. split; [vm_compute; reflexivity|split].
  - eexists. split; [vm_compute; reflexivity|reflexivity].
  - intros (r & Hr & Hs). vm_compute in Hr. injection Hr as <-. simpl in Hs.
    set_solver.
Qed.

(** C3, witness: a balance of 5 against a price of 10. *)
Lemma buy_rejects_insufficient_funds_witness :
  let W := demo_world dm_opened "image/png" in
  let t : gmap string (option Z) := {[ "u1" := Some 5 ]} in
  let run := buy_command W buy_item1 (JStr "77") (JStr "tok") t in
  (balance t "u1" < 10)%Z ∧
  final run = t ∧
  observe loud (effects run) =
    [GetItem (JStr "u1");
     HttpPost "https://discord.com/api/v10/interactions/77/tok/callback"
       [("Content-Type", "application/json")]
       (JObj [("type", JNum 4);
              ("data",
                JObj [("content",
                        JStr "<@u1>, you don't have enough tokens to buy item1!")])])] ∧
  never BalanceWrite (effects run).
Proof.
  cbv zeta. split; [reflexivity|].
  pose proof (buy_rejects_insufficient_funds (demo_world dm_opened "image/png") buy_item1
                (JStr "77") (JStr "tok") {[ "u1" := Some 5 ]} "u1" "item1" 10
                eq_refl eq_refl eq_refl eq_refl) as (H1 & H2 & H3 & _).
  done.
Defined.

(** C4, witness: the text names glass and metal, 2 + 3 = 5 tokens, and a
    balance of 15 becomes 20. *)
Lemma award_is_sum_of_matched_categories_witness :
  let W := demo_world dm_opened "image/png" in
  let t : gmap string (option Z) := {[ "u1" := Some 15 ]} in
  let run := submit_image_command W submit_photo (JStr "77") (JStr "tok") (api_key W) t in
  extract_tokens_from_description (JStr "Glass bottles and Metal scraps") = Return 5 ∧
  observe [BalanceWrite] (effects run) = [UpdateItem (JStr "u1") 5] ∧
  balance (final run) "u1" = 20.
Proof.
  cbv zeta.
  destruct (award_is_sum_of_matched_categories (demo_world dm_opened "image/png") submit_photo
           (JStr "77") (JStr "tok") (Some "api-key") {[ "u1" := Some 15 ]} "u1" photo_url
           [x89; x50] (ok_json (classification "Glass bottles and Metal scraps"))
           (classification "Glass bottles and Metal scraps")
           "Glass bottles and Metal scraps") as (H1 & H2 & H3);
    [vm_compute; reflexivity..|].
  split; [exact H1|split; [exact H2|exact (H3 eq_refl)]].
Defined.

(** C6, witness: a resource served as [text/html]. *)
Lemma non_image_is_an_error_envelope_witness :
  let W := demo_world dm_opened "text/html" in
  let run := submit_image_command W submit_photo (JStr "77") (JStr "tok") (api_key W)
               {[ "u1" := Some 15 ]} in
  value run = Return (error_response W 500 "Failed to analyze the image") ∧
  statusCode (error_response W 500 "Failed to analyze the image") = 500 ∧
  observe loud (effects run) = [HttpGet photo_url] ∧
  final run = {[ "u1" := Some 15 ]}.
Proof.
  cbv zeta.
  apply (non_image_is_an_error_envelope (demo_world dm_opened "text/html") submit_photo
           (JStr "77") (JStr "tok") (Some "api-key") {[ "u1" := Some 15 ]}
           (JStr "u1") photo_url (ok_download "text/html" [x89; x50]));
    reflexivity.
Defined.

(** [requests.get] raises before a response exists: the [except] block
    fails on the unbound local, and [urlopen] is not called. *)
Example download_image_unbound_response :
  let W := world [] (λ _ _, Return no_content)
             (λ _, Raise (mk_exn RequestException "Connection refused"))
             (λ _, Return [x01]) in
  let run := download_image W photo_url ∅ in
  value run =
    Raise (mk_exn UnboundLocalError
             "cannot access local variable 'response' where it is not associated with a value") ∧
  observe loud (effects run) = [HttpGet photo_url].
Proof. cbv zeta. split; vm_compute; reflexivity. Qed.

(** * Further properties of the module *)

(** ** The balance adapters *)

Lemma get_user_tokens_run W user_id t :
  value (get_user_tokens W user_id t) =
    Return (match get_item W user_id, user_id with
            | None, JStr u => tokens_of (t !! u)
            | _, _ => 0
            end) ∧
  final (get_user_tokens W user_id t) = t ∧
  observe loud (effects (get_user_tokens W user_id t)) = [GetItem user_id].
Proof.
  assert (Hlog : ∀ g l, record loud g (Stdout l) = Some g) by done.
  apply (wp_record loud (get_user_tokens W user_id)
           (λ o t' g, o = Return (match get_item W user_id, user_id with
                                  | None, JStr u => tokens_of (t !! u)
                                  | _, _ => 0
                                  end) ∧ t' = t ∧ g = [GetItem user_id])).
  unfold get_user_tokens, table_get_item.
  apply wp_try, wp_bind, wp_bind. eapply wp_emit; [reflexivity|].
  destruct (get_item W user_id) as [e|].
  - apply wp_raise. wp_log. by apply wp_ret.
  - destruct user_id; try (apply wp_raise; wp_log; by apply wp_ret).
    eexists. split; [reflexivity|]. simpl. by apply wp_ret.
Qed.

Lemma update_user_tokens_run W user_id amount t :
  value (update_user_tokens W user_id amount t) = Return tt ∧
  final (update_user_tokens W user_id amount t) =
    match update_item W user_id amount, user_id with
    | None, JStr u => <[u := Some (balance t u + amount)]> t
    | _, _ => t
    end ∧
  observe loud (effects (update_user_tokens W user_id amount t)) =
    [UpdateItem user_id amount].
Proof.
  assert (Hlog : ∀ g l, record loud g (Stdout l) = Some g) by done.
  apply (wp_record loud (update_user_tokens W user_id amount)
           (λ o t' g, o = Return tt ∧
                      t' = match update_item W user_id amount, user_id with
                           | None, JStr u => <[u := Some (balance t u + amount)]> t
                           | _, _ => t
                           end ∧ g = [UpdateItem user_id amount])).
  unfold update_user_tokens, table_update_item.
  apply wp_try, wp_bind. eapply wp_emit; [reflexivity|].
  destruct (update_item W user_id amount) as [e|].
  - apply wp_raise. simpl. by wp_print.
  - destruct user_id; try (apply wp_raise; simpl; by wp_print).
    eexists. split; [reflexivity|]. done.
Qed.

(** X1: [get_user_tokens] never raises and never changes the table.  Its
    one call is the read; it returns the [tokens] of the user's item when
    the read succeeds, and 0 when there is no item, when the item has no
    [tokens], and when the read fails. *)
Theorem get_user_tokens_reads_or_zero W user_id t :
  let run := get_user_tokens W user_id t in
  final run = t ∧
  observe loud (effects run) = [GetItem user_id] ∧
  value run =
    Return (match get_item W user_id, user_id with
            | None, JStr u => tokens_of (t !! u)
            | _, _ => 0
            end).
Proof.
  cbv zeta. destruct (get_user_tokens_run W user_id t) as (H1 & H2 & H3). done.
Qed.

(** X2: [update_user_tokens] never raises.  Its one call is the write;
    when the table accepts it, the user's balance becomes the old one
    (0 if there was no item or no [tokens]) plus the amount, and no other
    item changes; when the write fails, the table is unchanged. *)
Theorem update_user_tokens_upserts W user_id amount t :
  let run := update_user_tokens W user_id amount t in
  value run = Return tt ∧
  observe loud (effects run) = [UpdateItem user_id amount] ∧
  final run =
    match update_item W user_id amount, user_id with
    | None, JStr u => <[u := Some (balance t u + amount)]> t
    | _, _ => t
    end.
Proof.
  cbv zeta. destruct (update_user_tokens_run W user_id amount t) as (H1 & H2 & H3). done.
Qed.

(** X3: a credit followed by the opposite debit restores the balance of
    the user, and neither touches another user's item. *)
Theorem adjust_round_trip W u amount t :
  update_item W (JStr u) amount = None →
  update_item W (JStr u) (- amount) = None →
  let t1 := final (update_user_tokens W (JStr u) amount t) in
  let t2 := final (update_user_tokens W (JStr u) (- amount) t1) in
  balance t1 u = (balance t u + amount)%Z ∧
  balance t2 u = balance t u ∧
  ∀ u', u' ≠ u → t2 !! u' = t !! u'.
Proof.
  intros H1 H2. cbv zeta.
  destruct (update_user_tokens_run W (JStr u) amount t) as (_ & -> & _).
  rewrite H1.
  destruct (update_user_tokens_run W (JStr u) (- amount)
              (<[u := Some (balance t u + amount)]> t)) as (_ & -> & _).
  rewrite H2. rewrite !balance_insert. destruct (decide (u = u)); [|done].
  split; [done|]. split; [lia|].
  intros u' Hne. by rewrite !lookup_insert_ne.
Qed.

(** X4: a read that follows a write sees it: after an accepted
    adjustment, [get_user_tokens] returns the old balance plus the
    amount. *)
Theorem read_after_write W u amount t :
  update_item W (JStr u) amount = None →
  get_item W (JStr u) = None →
  value (get_user_tokens W (JStr u) (final (update_user_tokens W (JStr u) amount t))) =
  Return (balance t u + amount)%Z.
Proof.
  intros H1 H2.
  destruct (update_user_tokens_run W (JStr u) amount t) as (_ & -> & _).
  rewrite H1.
  destruct (get_user_tokens_run W (JStr u)
              (<[u := Some (balance t u + amount)]> t)) as (-> & _ & _).
  rewrite H2. by rewrite lookup_insert_eq.
Qed.

(** ** The reply and the notification *)

Lemma send_interaction_response_run W i k data t :
  value (send_interaction_response W i k data t) =
    match post W (callback_url W i k) [("Content-Type", "application/json")] data with
    | inr r =>
        Return (if is_http_error r
                then error_response W 500 "Failed to send interaction response"
                else {| statusCode := status_code r; headers := std_headers;
                        body := text r |})
    | inl e =>
        if isinstance e RequestException
        then Return (error_response W 500 "Failed to send interaction response")
        else Raise e
    end ∧
  final (send_interaction_response W i k data t) = t ∧
  observe loud (effects (send_interaction_response W i k data t)) =
    [HttpPost (callback_url W i k) [("Content-Type", "application/json")] data].
Proof.
  assert (Hlog : ∀ g l, record loud g (Stdout l) = Some g) by done.
  apply (wp_record loud (send_interaction_response W i k data)
           (λ o t' g,
              o = match post W (callback_url W i k) [("Content-Type", "application/json")] data with
                  | inr r =>
                      Return (if is_http_error r
                              then error_response W 500 "Failed to send interaction response"
                              else {| statusCode := status_code r; headers := std_headers;
                                      body := text r |})
                  | inl e =>
                      if isinstance e RequestException
                      then Return (error_response W 500 "Failed to send interaction response")
                      else Raise e
                  end ∧ t' = t ∧
              g = [HttpPost (callback_url W i k) [("Content-Type", "application/json")] data])).
  unfold send_interaction_response.
  apply wp_try, wp_bind. eapply wp_requests_post; [reflexivity|].
  destruct (post W _ _ _) as [e|r].
  - simpl. destruct (isinstance e RequestException); [|done].
    wp_log. by apply wp_ret.
  - destruct (is_http_error r) eqn:Hst.
    + destruct (raise_for_status_error _ Hst) as (e & -> & He).
      apply wp_bind, wp_raise. simpl.
      assert (isinstance e RequestException = true) as ->
        by (unfold isinstance; by rewrite He).
      wp_log. by apply wp_ret.
    + rewrite (raise_for_status_ok _ Hst). apply wp_bind, wp_ret. by apply wp_ret.
Qed.

(** X5: [send_interaction_response] makes one call, the POST to the
    callback URL of the interaction, and leaves the table alone.  It
    forwards the status and the text of the platform's answer when the
    status is not an HTTP error; an HTTP error status and a
    [RequestException] both become the 500 envelope
    [Failed to send interaction response]; any other exception of the
    call is raised to the caller. *)
Theorem send_interaction_response_cases W i k data t :
  let run := send_interaction_response W i k data t in
  final run = t ∧
  observe loud (effects run) =
    [HttpPost (callback_url W i k) [("Content-Type", "application/json")] data] ∧
  value run =
    match post W (callback_url W i k) [("Content-Type", "application/json")] data with
    | inr r =>
        Return (if is_http_error r
                then error_response W 500 "Failed to send interaction response"
                else {| statusCode := status_code r; headers := std_headers;
                        body := text r |})
    | inl e =>
        if isinstance e RequestException
        then Return (error_response W 500 "Failed to send interaction response")
        else Raise e
    end.
Proof.
  cbv zeta. destruct (send_interaction_response_run W i k data t) as (H1 & H2 & H3). done.
Qed.


(** ** The award *)

Lemma sum_tokens_bounds mapping description acc v :
  Forall (λ c : string * Z, (0 ≤ c.2)%Z) mapping →
  sum_tokens mapping description acc = Return v →
  (acc ≤ v ≤ acc + foldr Z.add 0 (map snd mapping))%Z.
Proof.
  intros Hpos. revert acc. induction Hpos as [|[waste_type tokens] rest Hc Hrest IH];
    intros acc; simpl.
  - intros [= <-]. lia.
  - simpl in Hc. destruct (py_in waste_type description) as [e|found]; simpl; [done|].
    intros Hv%IH. destruct found; lia.
Qed.

Lemma sum_tokens_iterable mapping description acc :
  (∃ v, sum_tokens mapping description acc = Return v) ↔
  mapping = [] ∨ match description with JStr _ | JArr _ | JObj _ => True | _ => False end.
Proof.
  revert acc. induction mapping as [|[waste_type tokens] rest IH]; intros acc; simpl.
  - split; [by left|eauto].
  - split.
    + intros [v Hv]. right. by destruct description.
    + intros [?|Hd]; [done|].
      destruct description; try done; simpl; apply IH; by right.
Qed.

(** X7: the award is bounded.  Whatever the description,
    [extract_tokens_from_description] returns an amount between 0 and 33,
    the sum of the fourteen category values, when it returns; it returns
    on a string, a list and a dict, and raises on [None], a boolean and a
    number; and the empty text earns nothing. *)
Theorem award_is_bounded description :
  (∀ v, extract_tokens_from_description description = Return v → (0 ≤ v ≤ 33)%Z) ∧
  ((∃ v, extract_tokens_from_description description = Return v) ↔
   match description with JStr _ | JArr _ | JObj _ => True | _ => False end) ∧
  extract_tokens_from_description (JStr EmptyString) = Return 0.
Proof.
  split; [|split; [|reflexivity]].
  - intros v Hv. apply sum_tokens_bounds in Hv; [simpl in Hv; lia|].
    unfold token_mapping. repeat constructor; simpl; lia.
  - unfold extract_tokens_from_description. rewrite sum_tokens_iterable.
    split; [by intros [?|?]|by right].
Qed.

Lemma starts_with_app p s x : starts_with p s = true → starts_with p (s +:+ x) = true.
Proof.
  revert s. induction p as [|a p IH]; intros s; [done|].
  destruct s as [|b s]; simpl; [done|]. destruct (Ascii.eqb a b); [apply IH|done].
Qed.

Lemma contains_app_l k a b : contains k a = true → contains k (a +:+ b) = true.
Proof.
  induction a as [|c a IH]; simpl.
  - rewrite orb_false_r. destruct k; [by destruct b|done].
  - intros [H|H]%orb_true_iff; apply orb_true_iff.
    + left. by apply (starts_with_app k (String c a) b).
    + right. by apply IH.
Qed.

Lemma contains_app_r k a b : contains k b = true → contains k (a +:+ b) = true.
Proof.
  intros H. induction a as [|c a IH]; simpl; [done|].
  apply orb_true_iff. by right.
Qed.

Lemma category_award_mono categories a b :
  Forall (λ c : string * Z, (0 ≤ c.2)%Z) categories →
  (∀ k, contains k a = true → contains k b = true) →
  (category_award categories a ≤ category_award categories b)%Z.
Proof.
  intros Hpos Hsub. unfold category_award.
  induction Hpos as [|[k v] rest Hc Hrest IH]; simpl; [done|].
  simpl in Hc. destruct (contains k a) eqn:Ha.
  - rewrite (Hsub k Ha). simpl. lia.
  - destruct (contains k b); simpl; lia.
Qed.

Lemma category_award_nonneg categories a :
  Forall (λ c : string * Z, (0 ≤ c.2)%Z) categories →
  (0 ≤ category_award categories a)%Z.
Proof.
  intros Hpos. unfold category_award.
  induction Hpos as [|[k v] rest Hc Hrest IH]; simpl; [done|].
  simpl in Hc. destruct (contains k a); simpl; lia.
Qed.

(** X8: more text never earns less.  The award of a text made of two
    parts is at least the award of each part (a keyword that occurs in a
    part occurs in the whole), and never more than 33. *)
Theorem award_grows_with_text a b :
  ∃ x y z,
    extract_tokens_from_description (JStr a) = Return x ∧
    extract_tokens_from_description (JStr b) = Return y ∧
    extract_tokens_from_description (JStr (a +:+ b)) = Return z ∧
    (x ≤ z)%Z ∧ (y ≤ z)%Z ∧ (z ≤ 33)%Z.
Proof.
  assert (Hpos : Forall (λ c : string * Z, (0 ≤ c.2)%Z) token_mapping).
  { unfold token_mapping. repeat constructor; simpl; lia. }
  unfold extract_tokens_from_description. rewrite !sum_tokens_text.
  do 3 eexists. repeat split.
  - rewrite !Z.add_0_l. apply category_award_mono; [done|]. intros k. apply contains_app_l.
  - rewrite !Z.add_0_l. apply category_award_mono; [done|]. intros k. apply contains_app_r.
  - pose proof (sum_tokens_bounds token_mapping (JStr (a +:+ b)) 0 _ Hpos
                  (sum_tokens_text _ _ _)) as H. simpl in H. lia.
Qed.

(** ** The commands *)

Lemma observe_app K tr1 tr2 : observe K (tr1 ++ tr2) = (observe K tr1 ++ observe K tr2)%list.
Proof. apply List.filter_app. Qed.

(** X9: [balance_command] is read-only: whatever the request and the
    world, it leaves the table as it found it, writes no balance and
    attempts no notification. *)
Theorem balance_command_is_read_only W b i k t :
  let run := balance_command W b i k t in
  final run = t ∧ never BalanceWrite (effects run) ∧ never Notify (effects run).
Proof.
  cbv zeta.
  assert (Hlog : ∀ g l, record loud g (Stdout l) = Some g) by done.
  cut (final (balance_command W b i k t) = t ∧
       absent BalanceWrite (observe loud (effects (balance_command W b i k t))) &&
       absent Notify (observe loud (effects (balance_command W b i k t))) = true).
  { intros [H1 [H2 H3]%andb_true_iff]. split; [done|].
    split; apply (absent_never loud); done || set_solver. }
  apply (wp_record loud (balance_command W b i k)
           (λ _ t' g, t' = t ∧ absent BalanceWrite g && absent Notify g = true)).
  unfold balance_command. apply wp_try_post.
  - wp_pure. apply wp_bind. eapply (wp_get_user_tokens W _ Hlog); [reflexivity|]. intros v _.
    eapply (wp_send_interaction_response W _ Hlog); [reflexivity|done].
  - intros e t' g' Hg. simpl. destruct (isinstance e KeyError); [|done].
    wp_log. by apply wp_ret.
Qed.

(** X10: for a user whose item can be read, [balance_command] makes two
    calls, the read and the reply, and the reply says how many tokens the
    table holds for the user (0 when it holds no item).  When the platform
    answers the reply, the command forwards that answer, or returns the
    500 envelope if the answer is an HTTP error. *)
Theorem balance_command_reports_balance W b i k t u r :
  let reply :=
    message_reply ("<@" +:+ u +:+ ">, you have " +:+ pretty (balance t u) +:+ " tokens.") in
  user_id_of b = Return (JStr u) →
  get_item W (JStr u) = None →
  post W (callback_url W i k) [("Content-Type", "application/json")] reply = Return r →
  let run := balance_command W b i k t in
  observe loud (effects run) =
    [GetItem (JStr u);
     HttpPost (callback_url W i k) [("Content-Type", "application/json")] reply] ∧
  final run = t ∧
  value run =
    Return (if is_http_error r
            then error_response W 500 "Failed to send interaction response"
            else {| statusCode := status_code r; headers := std_headers; body := text r |}).
Proof.
  intros reply Hu Hget Hpost. cbv zeta.
  cut (value (balance_command W b i k t) =
         Return (if is_http_error r
                 then error_response W 500 "Failed to send interaction response"
                 else {| statusCode := status_code r; headers := std_headers;
                         body := text r |}) ∧
       final (balance_command W b i k t) = t ∧
       observe loud (effects (balance_command W b i k t)) =
         [GetItem (JStr u);
          HttpPost (callback_url W i k) [("Content-Type", "application/json")] reply]).
  { intros (H1 & H2 & H3). done. }
  apply (wp_record loud (balance_command W b i k) (λ o t' g, o = _ ∧ t' = t ∧ g = _)).
  unfold balance_command. apply wp_try. rewrite Hu.
  apply wp_bind, wp_lift; cbv beta iota.
  apply wp_bind, wp_record_intro.
  destruct (get_user_tokens_run W (JStr u) t) as (-> & -> & ->). rewrite Hget.
  apply wp_record_intro.
  destruct (send_interaction_response_run W i k
              (message_reply ("<@" +:+ str W (JStr u) +:+ ">, you have " +:+
                              pretty (tokens_of (t !! u)) +:+ " tokens.")) t)
    as (-> & -> & ->).
  fold (balance t u). change (str W (JStr u)) with u. fold reply. rewrite Hpost. done.
Qed.

(** X11: a request without [member.user.id] is answered 400
    [Invalid user information] by [balance_command] and 400
    [Invalid item] by [buy_command], with no call at all and the table
    unchanged; a lookup that fails otherwise (a [member] that is not a
    dict) is not caught by either. *)
Theorem commands_reject_missing_user W b i k t e :
  user_id_of b = Raise e →
  let answer (outcome : run response) (message : string) :=
    observe loud (effects outcome) = [] ∧ final outcome = t ∧
    value outcome = if isinstance e KeyError then Return (error_response W 400 message)
                    else Raise e in
  answer (balance_command W b i k t) "Invalid user information" ∧
  answer (buy_command W b i k t) "Invalid item".
Proof.
  intros Hu. cbv zeta.
  assert (Hlog : ∀ g l, record loud g (Stdout l) = Some g) by done.
  split.
  - cut (value (balance_command W b i k t) =
           (if isinstance e KeyError
            then Return (error_response W 400 "Invalid user information") else Raise e) ∧
         final (balance_command W b i k t) = t ∧
         observe loud (effects (balance_command W b i k t)) = []).
    { intros (H1 & H2 & H3). done. }
    apply (wp_record loud (balance_command W b i k) (λ o t' g, o = _ ∧ t' = t ∧ g = [])).
    unfold balance_command. apply wp_try. rewrite Hu. apply wp_bind, wp_lift. simpl.
    destruct (isinstance e KeyError); [|done]. wp_log. by apply wp_ret.
  - cut (value (buy_command W b i k t) =
           (if isinstance e KeyError
            then Return (error_response W 400 "Invalid item") else Raise e) ∧
         final (buy_command W b i k t) = t ∧
         observe loud (effects (buy_command W b i k t)) = []).
    { intros (H1 & H2 & H3). done. }
    apply (wp_record loud (buy_command W b i k) (λ o t' g, o = _ ∧ t' = t ∧ g = [])).
    unfold buy_command. apply wp_try. rewrite Hu. apply wp_bind, wp_lift. simpl.
    destruct (isinstance e KeyError); [|done]. wp_log. by apply wp_ret.
Qed.

Lemma shop_listing :
  String.concat nl (map (λ ip : string * Z, ip.1 +:+ ": " +:+ pretty ip.2 +:+ " tokens")
                      shop_items) =
  "item1: 10 tokens" +:+ nl +:+ "item2: 20 tokens" +:+ nl +:+ "item3: 30 tokens".
Proof. vm_compute. reflexivity. Qed.

(** X12: [shop_command] reads nothing of the request and nothing of the
    table: for every request its one call is the reply, whose content is
    the heading followed by one line per catalogue item with its price,
    and the table is unchanged.  It never raises: a failure of the reply
    is answered with a 500 envelope. *)
Theorem shop_command_lists_catalogue W b i k t :
  let run := shop_command W b i k t in
  observe loud (effects run) =
    [HttpPost (callback_url W i k) [("Content-Type", "application/json")]
       (message_reply ("**Shop Items:**" +:+ nl +:+ "item1: 10 tokens" +:+ nl +:+
                       "item2: 20 tokens" +:+ nl +:+ "item3: 30 tokens"))] ∧
  final run = t ∧
  ∃ r, value run = Return r ∧
       (statusCode r = 500 ∨ ¬ (400 ≤ statusCode r < 600)%Z).
Proof.
  cbv zeta.
  assert (Hlog : ∀ g l, record loud g (Stdout l) = Some g) by done.
  cut ((∃ r, value (shop_command W b i k t) = Return r ∧
             (statusCode r = 500 ∨ ¬ (400 ≤ statusCode r < 600)%Z)) ∧
       final (shop_command W b i k t) = t ∧
       observe loud (effects (shop_command W b i k t)) =
         [HttpPost (callback_url W i k) [("Content-Type", "application/json")]
            (message_reply ("**Shop Items:**" +:+ nl +:+ "item1: 10 tokens" +:+ nl +:+
                            "item2: 20 tokens" +:+ nl +:+ "item3: 30 tokens"))]).
  { intros (H1 & H2 & H3). done. }
  apply (wp_record loud (shop_command W b i k)
           (λ o t' g, (∃ r, o = Return r ∧ _) ∧ t' = t ∧ g = _)).
  unfold shop_command. rewrite shop_listing. apply wp_try, wp_record_intro.
  destruct (send_interaction_response_run W i k
              (message_reply ("**Shop Items:**" +:+ nl +:+ "item1: 10 tokens" +:+ nl +:+
                              "item2: 20 tokens" +:+ nl +:+ "item3: 30 tokens")) t)
    as (-> & -> & ->).
  destruct (post W _ _ _) as [e|r].
  - destruct (isinstance e RequestException).
    + split; [|done]. eexists. split; [done|]. by left.
    + simpl. wp_log. apply wp_ret. split; [|done]. eexists. split; [done|]. by left.
  - split; [|done]. eexists. split; [done|].
    destruct (is_http_error r) eqn:Hst; [by left|right].
    unfold is_http_error in Hst. simpl. lia.
Qed.

Lemma shop_lookup_str item : shop_lookup (JStr item) = Return (assoc item shop_items).
Proof. reflexivity. Qed.

Lemma observe_loud K tr :
  (∀ k, k ∈ K → k ∈ loud) → observe K (observe loud tr) = observe K tr.
Proof.
  intros HK. unfold observe. induction tr as [|ev tr IH]; [done|]. simpl.
  destruct (bool_decide (kind_of ev ∈ loud)) eqn:Hl; simpl; rewrite IH; [done|].
  rewrite bool_decide_eq_false_2; [done|].
  intros Hin%HK. by apply bool_decide_eq_false in Hl.
Qed.

(** X13: a purchase that the balance covers is charged once, whatever
    becomes of the receipt and of the reply.  When the item is listed, the
    read succeeds with a balance of at least the price and the table
    accepts the write, [buy_command] reads the balance, writes the
    opposite of the price, and only then asks for the receipt channel;
    the user's balance ends as the old one minus the price and no other
    item changes. *)
Theorem buy_charges_the_price_once W b i k t u item price :
  user_id_of b = Return (JStr u) →
  option_value_of b = Return (JStr item) →
  assoc item shop_items = Some price →
  get_item W (JStr u) = None →
  update_item W (JStr u) (- price) = None →
  (price ≤ balance t u)%Z →
  let run := buy_command W b i k t in
  final run = <[u := Some (balance t u - price)]> t ∧
  balance (final run) u = (balance t u - price)%Z ∧
  observe [BalanceRead; BalanceWrite] (effects run) =
    [GetItem (JStr u); UpdateItem (JStr u) (- price)] ∧
  ∃ rest,
    observe loud (effects run) =
      ([GetItem (JStr u); UpdateItem (JStr u) (- price);
        HttpPost channels_url (bot_headers W) (JObj [("recipient_id", JStr u)])] ++ rest)%list.
Proof.
  intros Hu Hitem Hprice Hget Hupd Hle. cbv zeta.
  assert (Hlog : ∀ g l, record loud g (Stdout l) = Some g) by done.
  set (first3 := [GetItem (JStr u); UpdateItem (JStr u) (- price);
                  HttpPost channels_url (bot_headers W) (JObj [("recipient_id", JStr u)])]).
  assert (H : final (buy_command W b i k t) = <[u := Some (balance t u - price)]> t ∧
              ∃ rest, observe loud (effects (buy_command W b i k t)) = (first3 ++ rest)%list ∧
                      Forall (λ ev, kind_of ev ∉ [BalanceRead; BalanceWrite]) rest).
  { apply (wp_record loud (buy_command W b i k)
             (λ _ t' g, t' = <[u := Some (balance t u - price)]> t ∧
                        ∃ rest, g = (first3 ++ rest)%list ∧
                                Forall (λ ev, kind_of ev ∉ [BalanceRead; BalanceWrite]) rest)).
    unfold buy_command. apply wp_try_post.
    - rewrite Hu, Hitem. do 2 (apply wp_bind, wp_lift; cbv beta iota).
      rewrite shop_lookup_str, Hprice. apply wp_bind, wp_lift; cbv beta iota.
      apply wp_bind, wp_bind, wp_record_intro.
      destruct (get_user_tokens_run W (JStr u) t) as (-> & -> & ->). rewrite Hget.
      fold (balance t u). apply Z.leb_le in Hle. rewrite Hle.
      apply wp_bind, wp_record_intro.
      destruct (update_user_tokens_run W (JStr u) (- price) t) as (-> & -> & ->).
      rewrite Hupd. replace (balance t u + - price)%Z with (balance t u - price)%Z by lia.
      apply wp_bind. eapply (wp_send_dm_with_embed W _ Hlog); [reflexivity| |].
      + intros [e|[]] _.
        * split; [done|]. exists []. split; [done|constructor].
        * apply wp_ret. eapply (wp_send_interaction_response W _ Hlog); [reflexivity|].
          intros o _. split; [done|]. eexists [_]. split; [reflexivity|].
          repeat constructor. rewrite kind_callback. set_solver.
      + intros c. eexists. split; [reflexivity|]. intros [e|[]] _.
        * split; [done|]. eexists [_]. split; [reflexivity|].
          repeat constructor. rewrite kind_messages. set_solver.
        * apply wp_ret. eapply (wp_send_interaction_response W _ Hlog); [reflexivity|].
          intros o _. split; [done|]. eexists [_; _]. split; [reflexivity|].
          repeat constructor; [rewrite kind_messages|rewrite kind_callback]; set_solver.
    - intros e t' g' Hg. simpl. destruct (isinstance e KeyError); [|done].
      wp_log. by apply wp_ret. }
  destruct H as (Hfin & rest & Hobs & Hrest).
  split; [done|]. split; [|split; [|by exists rest]].
  - rewrite Hfin, balance_insert. by destruct (decide (u = u)).
  - rewrite <- (observe_loud [BalanceRead; BalanceWrite]) by set_solver.
    rewrite Hobs, observe_app. simpl.
    assert (observe [BalanceRead; BalanceWrite] rest = []) as ->; [|done].
    clear Hobs. induction Hrest as [|ev tr Hev Htr IH]; [done|].
    unfold observe in *. simpl. rewrite bool_decide_eq_false_2 by exact Hev. exact IH.
Qed.

(** X14: an item that is not in the catalogue costs nothing: the one
    call of [buy_command] is the reply with the does-not-exist message;
    the balance is neither read nor written and no receipt is sent. *)
Theorem buy_unknown_item_is_free W b i k t user_id item :
  user_id_of b = Return user_id →
  option_value_of b = Return item →
  shop_lookup item = Return None →
  let run := buy_command W b i k t in
  final run = t ∧
  observe loud (effects run) =
    [HttpPost (callback_url W i k) [("Content-Type", "application/json")]
       (message_reply (no_such_item_message W user_id item))].
Proof.
  intros Hu Hitem Hshop. cbv zeta.
  assert (Hlog : ∀ g l, record loud g (Stdout l) = Some g) by done.
  apply (wp_record loud (buy_command W b i k) (λ _ t' g, t' = t ∧ g = _)).
  unfold buy_command. apply wp_try_post.
  - rewrite Hu, Hitem. do 2 (apply wp_bind, wp_lift; cbv beta iota).
    rewrite Hshop. apply wp_bind, wp_lift; cbv beta iota.
    apply wp_bind, wp_ret.
    eapply (wp_send_interaction_response W _ Hlog); [reflexivity|done].
  - intros e t' g' Hg. simpl. destruct (isinstance e KeyError); [|done].
    wp_log. by apply wp_ret.
Qed.

Lemma handle_command_unknown W b i k t data command :
  py_get b "data" (JObj []) = Return data →
  py_get data "name" JNull = Return command →
  (∀ name, name ∈ ["balance"; "shop"; "buy"; "submit_image"] → command ≠ JStr name) →
  let run := handle_command W b i k t in
  value run = Return (error_response W 400 "Unknown command") ∧
  final run = t ∧
  observe loud (effects run) = [].
Proof.
  intros Hdata Hname Hother. cbv zeta.
  assert (Hlog : ∀ g l, record loud g (Stdout l) = Some g) by done.
  assert (Hne : ∀ name, name ∈ ["balance"; "shop"; "buy"; "submit_image"] →
                        eq_str command name = false).
  { intros name Hin. destruct command; try done. simpl.
    apply String.eqb_neq. intros ->. by apply (Hother name). }
  apply (wp_record loud (handle_command W b i k) (λ o t' g, o = _ ∧ t' = t ∧ g = [])).
  unfold handle_command. apply wp_try. rewrite Hdata. apply wp_bind, wp_lift; cbv beta iota.
  rewrite Hname. apply wp_bind, wp_lift; cbv beta iota.
  rewrite !Hne by set_solver. wp_log. by apply wp_ret.
Qed.

(** X15: a command name other than the four handled ones, a missing name
    included, is answered 400 [Unknown command] by [handle_command], with
    no call and the table unchanged. *)
Theorem unknown_command_is_rejected W b i k t data command :
  py_get b "data" (JObj []) = Return data →
  py_get data "name" JNull = Return command →
  (∀ name, name ∈ ["balance"; "shop"; "buy"; "submit_image"] → command ≠ JStr name) →
  let run := handle_command W b i k t in
  value run = Return (error_response W 400 "Unknown command") ∧
  final run = t ∧
  observe loud (effects run) = [].
Proof. apply handle_command_unknown. Qed.

Lemma submit_image_command_stages W b i k key t :
  wp (record loud) (submit_image_command W b i k key)
    (λ _ _ g, ordered Download Classify false g && ordered Classify BalanceWrite false g
              && ordered BalanceRead Reply false g = true) [] t.
Proof.
  assert (Hlog : ∀ g l, record loud g (Stdout l) = Some g) by done.
  unfold submit_image_command. apply wp_try_post.
  - wp_pure. wp_pure. apply wp_bind.
    eapply (wp_download_image W _ Hlog); [reflexivity|reflexivity| |];
      destruct (value (download_image W a0 t)) as [e|img]; try done.
    all: apply wp_bind; eapply wp_requests_post; [reflexivity|].
    all: destruct (post W _ _ _) as [e|r]; [done|].
    all: apply wp_bind, wp_raise_for_status; [intros _|done].
    all: wp_pure; wp_pure; wp_pure.
    all: apply wp_bind; eapply (wp_update_user_tokens W _ Hlog); [reflexivity| |intros s _].
    all: apply wp_bind; eapply (wp_get_user_tokens W _ Hlog); [reflexivity|]; intros v _.
    all: eapply (wp_send_interaction_response W _ Hlog); [reflexivity|done].
  - intros e t' g' Hg. simpl.
    destruct (isinstance e HTTPError).
    { wp_log. apply wp_bind.
      destruct (e_response e); [wp_print; by apply wp_ret|by apply wp_raise]. }
    destruct (isinstance e RequestException); [wp_log; by apply wp_ret|].
    destruct (isinstance e KeyError); wp_log; by apply wp_ret.
Qed.

(** X16: [submit_image_command] goes through its stages in order: the
    classification is called only after the download, the balance is
    credited only after the classification was called, and the reply is
    sent only after the new balance was read back. *)
Theorem submit_image_stages_in_order W b i k key t :
  let tr := effects (submit_image_command W b i k key t) in
  precedes Download Classify tr ∧
  precedes Classify BalanceWrite tr ∧
  precedes BalanceRead Reply tr.
Proof.
  cbv zeta.
  pose proof (wp_record _ _ _ _ (submit_image_command_stages W b i k key t)) as H.
  apply andb_true_iff in H as [[H1 H2]%andb_true_iff H3].
  repeat split; apply (precedes_observe loud); try set_solver; by apply ordered_precedes.
Qed.

Lemma try_except_raise {A} (m : M A) handlers t e :
  value (try_except m handlers t) = Raise e →
  ∃ e0, value (m t) = Raise e0 ∧
        match find (λ h, isinstance e0 h.1) handlers with
        | Some h => value (h.2 e0 (final (m t))) = Raise e
        | None => e0 = e
        end.
Proof.
  rewrite run_try. destruct (value (m t)) as [e0|a]; [|done].
  intros H. exists e0. split; [done|].
  destruct (find _ _) as [h|]; simpl in H; [done|]. by injection H.
Qed.

Lemma commands_raise_no_key_error W b i k key t e :
  value (balance_command W b i k t) = Raise e ∨ value (shop_command W b i k t) = Raise e ∨
  value (buy_command W b i k t) = Raise e ∨
  value (submit_image_command W b i k key t) = Raise e →
  isinstance e KeyError = false.
Proof.
  intros [H|[H|[H|H]]]; apply try_except_raise in H as (e0 & _ & H); simpl in H.
  - destruct (isinstance e0 KeyError) eqn:He; simpl in H; [done|by subst].
  - done.
  - destruct (isinstance e0 KeyError) eqn:He; simpl in H; [done|by subst].
  - destruct (isinstance e0 HTTPError).
    { simpl in H. destruct (e_response e0); simpl in H; [done|]. by injection H as <-. }
    destruct (isinstance e0 RequestException); simpl in H; [done|].
    destruct (isinstance e0 KeyError); simpl in H; done.
Qed.

(** X17: [handle_command] never raises, and what it answers is the answer
    of the command it dispatched to, or 400 [Unknown command], or 500
    [Internal server error].  No command lets a [KeyError] out, so the
    clause that would answer 400 [Invalid request payload] is never
    taken. *)
Theorem handle_command_answers W b i k t :
  ∃ r, value (handle_command W b i k t) = Return r ∧
       (r = error_response W 400 "Unknown command" ∨
        r = error_response W 500 "Internal server error" ∨
        value (balance_command W b i k t) = Return r ∨
        value (shop_command W b i k t) = Return r ∨
        value (buy_command W b i k t) = Return r ∨
        value (submit_image_command W b i k (api_key W) t) = Return r).
Proof.
  assert (Hlog : ∀ g l, record [] g (Stdout l) = Some g) by done.
  set (Φ := λ (o : exn + response) (_ : gmap string (option Z)) (_ : list effect),
         ∃ r, o = Return r ∧
              (r = error_response W 400 "Unknown command" ∨
               r = error_response W 500 "Internal server error" ∨
               value (balance_command W b i k t) = Return r ∨
               value (shop_command W b i k t) = Return r ∨
               value (buy_command W b i k t) = Return r ∨
               value (submit_image_command W b i k (api_key W) t) = Return r)).
  apply (wp_record [] (handle_command W b i k) Φ).
  assert (Hcmd : ∀ (cmd : M response),
    (∀ e, value (cmd t) = Raise e → isinstance e KeyError = false) →
    (∀ r, value (cmd t) = Return r → Φ (Return r) t []) →
    wp (record []) cmd
      (λ o t' g',
         match o with
         | inl e =>
             match find (λ h : exn_class * (exn → M response), isinstance e h.1)
                     [(KeyError, λ e0 : exn,
                        print ("KeyError in handle_command: " +:+ e_str e0);;
                        mret (error_response W 400 "Invalid request payload"));
                      (Exception, λ e0 : exn,
                        print ("Unexpected error in handle_command: " +:+ e_str e0);;
                        mret (error_response W 500 "Internal server error"))]
             with
             | Some h => wp (record []) (h.2 e) Φ g' t'
             | None => Φ (Raise e) t' g'
             end
         | inr a => Φ (Return a) t' g'
         end) [] t).
  { intros cmd Hraise Hret. apply wp_record_intro.
    destruct (value (cmd t)) as [e|r] eqn:Hv.
    - simpl. rewrite (Hraise e eq_refl). wp_log. apply wp_ret.
      eexists. split; [done|]. by right; left.
    - by apply Hret. }
  assert (Hfail : ∀ e g t',
    isinstance e KeyError = false →
    match find (λ h : exn_class * (exn → M response), isinstance e h.1)
            [(KeyError, λ e0 : exn,
               print ("KeyError in handle_command: " +:+ e_str e0);;
               mret (error_response W 400 "Invalid request payload"));
             (Exception, λ e0 : exn,
               print ("Unexpected error in handle_command: " +:+ e_str e0);;
               mret (error_response W 500 "Internal server error"))]
    with
    | Some h => wp (record []) (h.2 e) Φ g t'
    | None => Φ (Raise e) t' g
    end).
  { intros e g t' He. simpl. rewrite He. wp_log. apply wp_ret.
    eexists. split; [done|]. by right; left. }
  unfold handle_command. apply wp_try.
  apply wp_bind, wp_lift. destruct (py_get b "data" (JObj [])) as [e|data] eqn:Hd.
  { apply Hfail. destruct b; simpl in Hd; by simplify_eq. }
  apply wp_bind, wp_lift. destruct (py_get data "name" JNull) as [e|command] eqn:Hn.
  { apply Hfail. destruct data; simpl in Hn; by simplify_eq. }
  destruct (eq_str command "balance").
  { apply Hcmd; [intros e He; eapply (commands_raise_no_key_error W b i k None); eauto|].
    intros r Hr. exists r. split; [done|]. by right; right; left. }
  destruct (eq_str command "shop").
  { apply Hcmd; [intros e He; eapply (commands_raise_no_key_error W b i k None); eauto|].
    intros r Hr. exists r. split; [done|]. by right; right; right; left. }
  destruct (eq_str command "buy").
  { apply Hcmd; [intros e He; eapply (commands_raise_no_key_error W b i k None); eauto|].
    intros r Hr. exists r. split; [done|]. by right; right; right; right; left. }
  destruct (eq_str command "submit_image").
  { apply Hcmd; [intros e He; eapply (commands_raise_no_key_error W b i k (api_key W)); eauto 6|].
    intros r Hr. exists r. split; [done|]. by right; right; right; right; right. }
  wp_log. apply wp_ret. eexists. split; [done|]. by left.
Qed.

(** ** The gate of [lambda_handler] *)

Lemma b64_body_run W body t :
  b64_body W body t = Run (b64_text W body) t [].
Proof.
  unfold b64_body, b64_text. destruct body; try done.
  rewrite run_bind. simpl. by destruct (b64decode_utf8 W s).
Qed.

Lemma handle_command_run W b i k t :
  (∃ r, value (handle_command W b i k t) = Return r) ∧
  observe [BodyParse; SigCheck] (effects (handle_command W b i k t)) = [].
Proof.
  assert (Hlog : ∀ g l, record [BodyParse; SigCheck] g (Stdout l) = Some g) by done.
  assert (Hq : quiet (record [BodyParse; SigCheck]) []) by (apply record_quiet; set_solver).
  destruct (wp_record _ _ _ _
              (wp_handle_command_quiet W _ Hlog [] Hq b i k t)) as (Hg & r & Hr & _).
  split; [by exists r|done].
Qed.

Lemma lambda_handler_gate W event context t :
  (∃ r, value (lambda_handler W event context t) = Return r) ∧
  gate W event t (final (lambda_handler W event context t))
    (observe loud (effects (lambda_handler W event context t))).
Proof.
  assert (Hlog : ∀ g l, record loud g (Stdout l) = Some g) by done.
  apply (wp_record loud (lambda_handler W event context)
           (λ o t' g, (∃ r, o = Return r) ∧ gate W event t t' g)).
  unfold lambda_handler. apply wp_try.
  eapply (wp_mono _ _ (λ _ t' g, gate W event t t' g)).
  - apply wp_bind, wp_lift.
    destruct (py_get event "headers" (JObj [])) as [e|hdrs] eqn:Hh; [constructor|].
    apply wp_bind, wp_lift.
    destruct (py_get hdrs "x-signature-ed25519" JNull) as [e|signature] eqn:Hs; [constructor|].
    apply wp_bind, wp_lift.
    destruct (py_get hdrs "x-signature-timestamp" JNull) as [e|timestamp] eqn:Ht; [constructor|].
    destruct (_ || _); [apply wp_raise; constructor|].
    apply wp_bind, wp_lift.
    destruct (py_get event "body" (JStr EmptyString)) as [e|body0] eqn:Hb; [constructor|].
    apply wp_bind, wp_lift.
    destruct (py_get event "isBase64Encoded" (JBool false)) as [e|encoded] eqn:He; [constructor|].
    apply wp_bind.
    eapply (wp_mono _ _ (λ o t' g, o = (if truthy encoded then b64_text W body0
                                        else Return body0) ∧ t' = t ∧ g = [])).
    { destruct (truthy encoded); [|by apply wp_ret].
      apply wp_record_intro. by rewrite b64_body_run. }
    intros o t' g' (-> & -> & ->).
    destruct (if truthy encoded then b64_text W body0 else Return body0)
      as [e|body] eqn:Hbody; [constructor|].
    apply wp_bind. unfold parse_body. apply wp_try.
    destruct body as [| | |s| |]; try (apply wp_raise; constructor).
    apply wp_bind. eapply wp_emit; [reflexivity|]. simpl.
    apply wp_bind, wp_lift.
    destruct (json_loads W s) as [e|j] eqn:Hj.
    { simpl. destruct (isinstance e JSONDecodeError); [|constructor].
      wp_log. apply wp_ret. apply wp_ret. constructor. }
    apply wp_ret. simpl. apply wp_bind, wp_lift.
    destruct (bytes_fromhex (JStr <$> PUBLIC_KEY W)) as [e|key] eqn:Hkey; [constructor|].
    destruct (VerifyKey W key) as [e|]; [apply wp_raise; constructor|].
    apply wp_bind. unfold check_signature. apply wp_try.
    apply wp_bind, wp_lift.
    destruct (bytes_fromhex (Some signature)) as [e|sig] eqn:Hsig.
    { unfold isinstance. simpl.
      apply bytes_fromhex_error in Hsig as [-> | ->]; simpl; constructor. }
    apply wp_bind. eapply wp_emit; [reflexivity|]. simpl.
    assert (Hsigned : signed W event s (str W timestamp +:+ s)).
    { exists signature, timestamp. unfold signature_headers, body_text.
      rewrite Hh. simpl. rewrite Hs. simpl. rewrite Ht, Hb. simpl. by rewrite He. }
    destruct (verify W key _ sig) as [e|] eqn:Hv.
    + apply wp_raise. simpl.
      destruct (isinstance e BadSignatureError); [|by apply gate_checked].
      wp_log. apply wp_ret. simpl. apply wp_ret. by apply gate_checked.
    + apply wp_ret. simpl.
      apply wp_bind, wp_lift.
      destruct (py_get j "type" JNull) as [e|type]; [by apply gate_checked|].
      destruct (eq_one type); [apply wp_ret; by apply gate_checked|].
      apply wp_bind, wp_lift.
      destruct (py_get j "id" JNull) as [e|interaction_id]; [by apply gate_checked|].
      apply wp_bind, wp_lift.
      destruct (py_get j "token" JNull) as [e|interaction_token]; [by apply gate_checked|].
      apply wp_record_intro.
      destruct (handle_command_run W j interaction_id interaction_token t) as [_ Hquiet].
      simpl. eapply gate_open; [done..|]. by rewrite observe_loud by set_solver.
  - intros [e|r] t' g' Hg; [|by eauto].
    simpl. destruct (isinstance e ValueError); wp_log; apply wp_ret; eauto.
Qed.

(** X18: a request is served only once its signature is verified.  In
    every run of [lambda_handler], either the verifier built from the
    configured key accepted the signature, or the run left the table as
    it was and made no call to the table, to the platform, to the
    classifier or for a download. *)
Theorem unverified_requests_touch_nothing W event context t :
  let run := lambda_handler W event context t in
  (final run = t ∧ observe outward (effects run) = []) ∨
  ∃ s message sig key,
    observe [BodyParse; SigCheck] (effects run) = [JsonLoads s; Verify message sig] ∧
    bytes_fromhex (JStr <$> PUBLIC_KEY W) = Return key ∧
    verify W key message sig = None.
Proof.
  cbv zeta. destruct (lambda_handler_gate W event context t) as [_ Hg].
  rewrite <- (observe_loud outward) by (unfold outward, loud; set_solver).
  rewrite <- (observe_loud [BodyParse; SigCheck]) by (unfold loud; set_solver).
  remember (final (lambda_handler W event context t)) as t' eqn:Ht'.
  remember (observe loud (effects (lambda_handler W event context t))) as tr eqn:Htr.
  destruct Hg as [|s|s m sig Hs|t' s m sig key rest Hs Hk Hv Hr]; [by left..|].
  right. exists s, m, sig, key. repeat split; [|done..].
  change (JsonLoads s :: Verify m sig :: rest)
    with ([JsonLoads s; Verify m sig] ++ rest)%list.
  by rewrite observe_app, Hr.
Qed.

(** X19: what is verified is what is parsed.  Whenever [lambda_handler]
    checks a signature, the message it hands to the verifier is the value
    of the timestamp header followed by the body text of the event
    (decoded first when the event says it is base64), and that same text
    is the one it parsed. *)
Theorem verified_message_is_timestamp_and_body W event context t message sig :
  Verify message sig ∈ effects (lambda_handler W event context t) →
  ∃ s, JsonLoads s ∈ effects (lambda_handler W event context t) ∧
       signed W event s message.
Proof.
  intros Hin. destruct (lambda_handler_gate W event context t) as [_ Hg].
  apply (elem_of_observe loud) in Hin; [|unfold loud; set_solver].
  assert (Hsub : ∀ ev, ev ∈ observe loud (effects (lambda_handler W event context t)) →
                       ev ∈ effects (lambda_handler W event context t)).
  { intros ev H. apply list_elem_of_In, filter_In in H as [H _]. by apply list_elem_of_In. }
  remember (final (lambda_handler W event context t)) as t' eqn:Ht'.
  remember (observe loud (effects (lambda_handler W event context t))) as tr eqn:Htr.
  destruct Hg as [|s|s m sig' Hs|t' s m sig' key rest Hs Hk Hv Hr].
  - set_solver.
  - set_solver.
  - exists s. split; [apply Hsub; set_solver|].
    apply elem_of_cons in Hin as [?|Hin]; [done|].
    apply list_elem_of_singleton in Hin as [= -> ->]. done.
  - exists s. split; [apply Hsub; set_solver|].
    apply elem_of_cons in Hin as [?|Hin]; [done|].
    apply elem_of_cons in Hin as [[= -> ->]|Hin]; [done|].
    apply (elem_of_observe [BodyParse; SigCheck]) in Hin; [|set_solver].
    rewrite Hr in Hin. set_solver.
Qed.

Lemma signature_headers_inv event signature timestamp :
  signature_headers event = Return (signature, timestamp) →
  ∃ hdrs, py_get event "headers" (JObj []) = Return hdrs ∧
          py_get hdrs "x-signature-ed25519" JNull = Return signature ∧
          py_get hdrs "x-signature-timestamp" JNull = Return timestamp.
Proof.
  unfold signature_headers. intros H.
  destruct (py_get event "headers" (JObj [])) as [e|hdrs]; [done|]. simpl in H.
  destruct (py_get hdrs "x-signature-ed25519" JNull) as [e|sg] eqn:Hs; [done|]. simpl in H.
  destruct (py_get hdrs "x-signature-timestamp" JNull) as [e|ts] eqn:Ht; [done|]. simpl in H.
  exists hdrs. by simplify_eq.
Qed.

Lemma body_text_inv W event body :
  body_text W event = Return body →
  ∃ body0 encoded,
    py_get event "body" (JStr EmptyString) = Return body0 ∧
    py_get event "isBase64Encoded" (JBool false) = Return encoded ∧
    (if truthy encoded then b64_text W body0 else Return body0) = Return body.
Proof.
  unfold body_text. intros H.
  destruct (py_get event "body" (JStr EmptyString)) as [e|body0]; [done|]. simpl in H.
  destruct (py_get event "isBase64Encoded" (JBool false)) as [e|encoded]; [done|].
  simpl in H. by exists body0, encoded.
Qed.

(** The run of [lambda_handler] on an authentic request: the body is
    parsed, the signature checked, and what follows is decided by the
    type of the interaction. *)
Lemma lambda_handler_authentic W event context t s j m sig type :
  authentic W event s j m sig →
  py_get j "type" JNull = Return type →
  wp (record loud) (lambda_handler W event context)
    (λ o t' g,
       if eq_one type then
         o = Return (successful_response W (JObj [("type", JNum 1)])) ∧ t' = t ∧
         g = [JsonLoads s; Verify m sig]
       else
         ∀ id token,
           py_get j "id" JNull = Return id → py_get j "token" JNull = Return token →
           o = value (handle_command W j id token t) ∧
           t' = final (handle_command W j id token t) ∧
           g = JsonLoads s :: Verify m sig ::
                 observe loud (effects (handle_command W j id token t))) [] t.
Proof.
  intros (signature & timestamp & key & Hh & Hsg & Hts & Hb & Hj & Hkey & Hvk & Hsig & -> & Hv)
         Hty.
  apply signature_headers_inv in Hh as (hdrs & Hh & Hs & Ht).
  apply body_text_inv in Hb as (body0 & encoded & Hb & He & Hbody).
  assert (Hlog : ∀ g l, record loud g (Stdout l) = Some g) by done.
  unfold lambda_handler. apply wp_try.
  rewrite Hh. apply wp_bind, wp_lift. rewrite Hs. apply wp_bind, wp_lift.
  rewrite Ht. apply wp_bind, wp_lift. rewrite Hsg, Hts. simpl.
  rewrite Hb. apply wp_bind, wp_lift. rewrite He. apply wp_bind, wp_lift.
  apply wp_bind.
  eapply (wp_mono _ _ (λ o t' g, o = Return (JStr s) ∧ t' = t ∧ g = [])).
  { destruct (truthy encoded); [|apply wp_ret; by rewrite <- Hbody].
    apply wp_record_intro. by rewrite b64_body_run, Hbody. }
  intros o t' g' (-> & -> & ->).
  apply wp_bind. unfold parse_body. apply wp_try.
  apply wp_bind. eapply wp_emit; [reflexivity|]. simpl. rewrite Hj. apply wp_ret.
  rewrite Hkey. apply wp_bind, wp_lift. rewrite Hvk.
  apply wp_bind. unfold check_signature. apply wp_try.
  rewrite Hsig. apply wp_bind, wp_lift.
  apply wp_bind. eapply wp_emit; [reflexivity|]. simpl. rewrite Hv. apply wp_ret. simpl.
  rewrite Hty. apply wp_bind, wp_lift.
  destruct (eq_one type); [by apply wp_ret|].
  destruct j as [| | | | |fields]; try done.
  apply wp_bind, wp_lift. apply wp_bind, wp_lift. apply wp_record_intro.
  destruct (handle_command_run W (JObj fields)
              (default JNull (assoc "id" fields))
              (default JNull (assoc "token" fields)) t) as [[r Hr] _].
  rewrite Hr. intros id token [= <-] [= <-]. by rewrite Hr.
Qed.

(** X20: an authentic ping is answered at once.  When the request is
    authentic and its [type] is 1, [lambda_handler] returns status 200
    with the body [{"type": 1}]; it leaves the table alone and makes no
    call beyond parsing the body and checking the signature. *)
Theorem ping_is_acknowledged W event context t s j m sig type :
  authentic W event s j m sig →
  py_get j "type" JNull = Return type →
  eq_one type = true →
  let run := lambda_handler W event context t in
  value run = Return (successful_response W (JObj [("type", JNum 1)])) ∧
  final run = t ∧
  observe loud (effects run) = [JsonLoads s; Verify m sig].
Proof.
  intros Ha Hty Hone. cbv zeta.
  pose proof (wp_record _ _ _ _ (lambda_handler_authentic W event context t s j m sig type
                                   Ha Hty)) as H.
  by rewrite Hone in H.
Qed.

(** X21: an authentic request that is not a ping is handed to
    [handle_command] with the [id] and [token] of its body, and the
    answer, the resulting table and the calls of [lambda_handler] are
    those of [handle_command], after the parsing of the body and the
    check of the signature. *)
Theorem authentic_command_is_dispatched W event context t s j m sig type id token :
  authentic W event s j m sig →
  py_get j "type" JNull = Return type →
  eq_one type = false →
  py_get j "id" JNull = Return id →
  py_get j "token" JNull = Return token →
  let run := lambda_handler W event context t in
  let inner := handle_command W j id token t in
  value run = value inner ∧
  final run = final inner ∧
  observe loud (effects run) = JsonLoads s :: Verify m sig :: observe loud (effects inner).
Proof.
  intros Ha Hty Hone Hid Htok. cbv zeta.
  pose proof (wp_record _ _ _ _ (lambda_handler_authentic W event context t s j m sig type
                                   Ha Hty)) as H.
  rewrite Hone in H. by apply H.
Qed.

(** X22: a request without a signature or without a timestamp is turned
    away first.  When either header is missing or empty, [lambda_handler]
    answers status 400 with the message [Missing signature or timestamp],
    and does not read the body: nothing is parsed, nothing is checked and
    no call is made. *)
Theorem missing_header_is_rejected_first W event context t signature timestamp :
  signature_headers event = Return (signature, timestamp) →
  truthy signature = false ∨ truthy timestamp = false →
  let run := lambda_handler W event context t in
  value run = Return (error_response W 400 "Missing signature or timestamp") ∧
  final run = t ∧
  observe loud (effects run) = [].
Proof.
  intros (hdrs & Hh & Hs & Ht)%signature_headers_inv Hmiss. cbv zeta.
  assert (Hlog : ∀ g l, record loud g (Stdout l) = Some g) by done.
  apply (wp_record loud (lambda_handler W event context)
           (λ o t' g, o = Return (error_response W 400 "Missing signature or timestamp") ∧
                      t' = t ∧ g = [])).
  unfold lambda_handler. apply wp_try.
  rewrite Hh. apply wp_bind, wp_lift. rewrite Hs. apply wp_bind, wp_lift.
  rewrite Ht. apply wp_bind, wp_lift.
  assert (negb (truthy signature) || negb (truthy timestamp) = true) as ->.
  { destruct Hmiss as [-> | ->]; [done|]. by destruct (truthy signature). }
  apply wp_raise. simpl. wp_log. by apply wp_ret.
Qed.

(** ** Registration of the commands *)

Lemma posted_app tr1 tr2 : posted (tr1 ++ tr2) = (posted tr1 ++ posted tr2)%list.
Proof. apply omap_app. Qed.

Lemma accepts_record_posts g tr :
  accepts record_posts g tr = Some (g ++ posted tr)%list.
Proof.
  revert g. induction tr as [|ev tr IH]; intros g.
  - simpl. by rewrite app_nil_r.
  - change (accepts record_posts g (ev :: tr))
      with (accepts record_posts (g ++ posted [ev])%list tr).
    rewrite IH. change (ev :: tr) with ([ev] ++ tr)%list.
    by rewrite posted_app, app_assoc.
Qed.

Lemma record_posts_log g l : record_posts g (Stdout l) = Some g.
Proof. unfold record_posts. simpl. by rewrite app_nil_r. Qed.

Lemma wp_record_posts {A} (m : M A) Φ t :
  wp record_posts m Φ [] t →
  Φ (value (m t)) (final (m t)) (posted (effects (m t))).
Proof. intros (g & Hacc & H). rewrite accepts_record_posts in Hacc. by simplify_eq. Qed.

Lemma registration_posts_nil W D pending : registration_posts W D pending [] = [].
Proof. unfold registration_posts. by destruct pending. Qed.

Lemma registration_posts_zero W D command rest ks :
  registration_posts W D (command :: rest) (O :: ks) =
  registration_post W D command :: registration_posts W D rest ks.
Proof. done. Qed.

Lemma registration_posts_succ W D command rest k ks :
  registration_posts W D (command :: rest) (S k :: ks) =
  registration_post W D command ::
  registration_posts W D (command :: rest) (k :: ks).
Proof. done. Qed.

Lemma registration_posts_length W D pending ks :
  (length ks ≤ length pending)%nat →
  length (registration_posts W D pending ks) = (sum_list ks + length ks)%nat.
Proof.
  unfold registration_posts. rewrite length_fmap.
  revert pending. induction ks as [|k ks IH]; intros [|c pending] Hlen; simpl in *;
    try done; try lia.
  rewrite length_app, length_replicate, IH by lia. lia.
Qed.

(** Whatever the platform answers, the posts of the two loops are those
    of a registration that went through the pending commands in order,
    and every post has its answer, but the last one when the loops have
    not returned. *)
Lemma register_each_posts W D answers pending g t :
  wp record_posts (register_each W D pending answers)
    (λ o t' g', t' = t ∧
       ∃ ks, (length ks ≤ length pending)%nat ∧
             g' = (g ++ registration_posts W D pending ks)%list ∧
             (sum_list ks + length ks ≤ S (length answers))%nat ∧
             (o ≠ Return None → (sum_list ks + length ks ≤ length answers)%nat)) g t.
Proof.
  assert (Hlog := record_posts_log).
  assert (Hstop : ∀ (o : exn + option ()) command rest (more : list (exn + answer)) g,
            o ≠ Return None →
            t = t ∧ ∃ ks, (length ks ≤ length (command :: rest))%nat ∧
              (g ++ [registration_post W D command])%list =
              (g ++ registration_posts W D (command :: rest) ks)%list ∧
              (sum_list ks + length ks ≤ S (S (length more)))%nat ∧
              (o ≠ Return None → (sum_list ks + length ks ≤ S (length more))%nat)).
  { intros. split; [done|]. exists [O]. split; [simpl; lia|].
    split; [by rewrite registration_posts_zero, registration_posts_nil|].
    simpl. split; [lia|]. intros _. lia. }
  assert (Hnone : ∀ (o : exn + option ()) (pending : list json)
                    (more : list (exn + answer)) g,
            t = t ∧ ∃ ks, (length ks ≤ length pending)%nat ∧
              g = (g ++ registration_posts W D pending ks)%list ∧
              (sum_list ks + length ks ≤ S (length more))%nat ∧
              (o ≠ Return None → (sum_list ks + length ks ≤ length more)%nat)).
  { intros. split; [done|]. exists []. split; [simpl; lia|].
    split; [by rewrite registration_posts_nil, app_nil_r|].
    simpl. split; [lia|]. intros _. lia. }
  revert pending g. induction answers as [|a answers IH]; intros pending g.
  - destruct pending as [|command rest]; [apply wp_ret, Hnone|].
    cbn [register_each]. apply wp_bind. eapply wp_emit; [reflexivity|]. apply wp_ret.
    split; [done|]. exists [O]. split; [simpl; lia|].
    split; [by rewrite registration_posts_zero, registration_posts_nil|].
    simpl. split; [lia|]. by intros [].
  - destruct pending as [|command rest]; [apply wp_ret, Hnone|].
    cbn [register_each]. apply wp_bind. eapply wp_emit; [reflexivity|].
    apply wp_bind, wp_lift. destruct a as [e|response]; [by apply Hstop|].
    destruct (Z.eqb _ 429).
    + apply wp_bind, wp_lift.
      destruct (retry_seconds D response) as [e|seconds]; [by apply Hstop|].
      apply wp_bind. wp_print.
      eapply wp_mono; [apply IH|]. intros o t' g' (-> & ks & Hlen & -> & Hsum & Hdone).
      split; [done|]. destruct ks as [|k ks].
      * exists [O]. split; [simpl; lia|].
        split; [by rewrite registration_posts_nil, app_nil_r,
                     registration_posts_zero, registration_posts_nil|].
        simpl in *. split; [lia|]. intros Ho. specialize (Hdone Ho). lia.
      * exists (S k :: ks). split; [simpl in *; lia|].
        split; [by rewrite registration_posts_succ, <- app_assoc|].
        simpl in *. split; [lia|]. intros Ho. specialize (Hdone Ho). lia.
    + apply wp_bind.
      unfold raise_for_status.
      destruct (_ && _); [by apply wp_raise, Hstop|].
      destruct (_ && _); [by apply wp_raise, Hstop|].
      apply wp_ret. apply wp_bind, wp_lift.
      destruct (py_getitem command "name") as [e|name]; [by apply Hstop|].
      apply wp_bind. wp_print.
      eapply wp_mono; [apply IH|]. intros o t' g' (-> & ks & Hlen & -> & Hsum & Hdone).
      split; [done|]. exists (O :: ks). split; [simpl in *; lia|].
      split; [by rewrite registration_posts_zero, <- app_assoc|].
      simpl in *. split; [lia|]. intros Ho. specialize (Hdone Ho). lia.
Qed.

(** X23: the registration keeps the order of the commands and skips
    none.  Whatever the platform answers, the posts of
    [register_commands] all go to the commands URL of the application
    with the bot's headers, the first command a number of times, then the
    second, and so on; every post has been answered, but the last one
    when the function has not returned; and the table of balances is not
    touched. *)
Theorem registration_keeps_the_order W D answers t :
  let run := register_commands W D answers t in
  final run = t ∧
  ∃ ks, (length ks ≤ length commands)%nat ∧
        posted (effects run) = registration_posts W D commands ks ∧
        (length (posted (effects run)) ≤ S (length answers))%nat ∧
        (value run ≠ Return None → (length (posted (effects run)) ≤ length answers)%nat).
Proof.
  cbv zeta. assert (Hlog := record_posts_log).
  set (Φ := λ (o : exn + option ()) (t' : gmap string (option Z))
              (g : list (string * list (string * string) * json)),
              t' = t ∧
              ∃ ks, (length ks ≤ length commands)%nat ∧
                    g = registration_posts W D commands ks ∧
                    (length g ≤ S (length answers))%nat ∧
                    (o ≠ Return None → (length g ≤ length answers)%nat)).
  apply (wp_record_posts (register_commands W D answers) Φ).
  assert (Hcaught : ∀ (o : exn + option ()) t' g, o ≠ Return None → Φ o t' g →
                      Φ (Return (Some tt)) t' g).
  { intros o t' g Ho (-> & ks & Hlen & -> & Hsum & Hdone). split; [done|].
    exists ks. repeat split; [done..|]. intros _. by apply Hdone. }
  unfold register_commands. apply wp_try.
  eapply (wp_mono _ _ Φ).
  - destruct (_ || _).
    + apply wp_raise. split; [done|]. exists []. simpl.
      split; [lia|]. split; [done|]. split; [lia|]. intros _. lia.
    + eapply wp_mono; [apply register_each_posts|].
      intros o t' g' (-> & ks & Hlen & -> & Hsum & Hdone). split; [done|].
      exists ks. simpl. rewrite registration_posts_length by done. done.
  - intros [e|r] t' g' H; [|done]. simpl.
    destruct (isinstance e ValueError);
      [wp_log; apply wp_ret; by apply (Hcaught (Raise e))|].
    destruct (isinstance e RequestException);
      [wp_log; apply wp_ret; by apply (Hcaught (Raise e))|]. done.
Qed.

Lemma registration_posts_cons W D command rest k ks :
  registration_posts W D (command :: rest) (k :: ks) =
  (replicate (S k) (registration_post W D command) ++ registration_posts W D rest ks)%list.
Proof.
  unfold registration_posts. cbn [zip_with concat].
  by rewrite fmap_app, fmap_replicate.
Qed.

Lemma wp_register_busy W D {Φ} command rest bs more g t :
  forallb (busy D) bs = true →
  wp record_posts (register_each W D (command :: rest) more) Φ
    (g ++ replicate (length bs) (registration_post W D command))%list t →
  wp record_posts (register_each W D (command :: rest) ((Return <$> bs) ++ more)%list) Φ g t.
Proof.
  assert (Hlog := record_posts_log).
  revert g. induction bs as [|b bs IH]; intros g Hbusy H.
  - simpl in *. by rewrite app_nil_r in H.
  - simpl in Hbusy. apply andb_prop in Hbusy as [Hb Hbs].
    unfold busy in Hb. apply andb_prop in Hb as [H429 Hint].
    cbn [fmap list_fmap app register_each].
    apply wp_bind. eapply wp_emit; [reflexivity|].
    apply wp_bind, wp_lift. rewrite H429. apply wp_bind, wp_lift.
    destruct (retry_seconds D b) as [e|seconds]; [done|].
    apply wp_bind. wp_print. apply IH; [done|].
    simpl in H. by rewrite <- app_assoc.
Qed.

Lemma wp_register_round W D {Φ} command name rest round more g t :
  well_formed_round D round = true →
  py_getitem command "name" = Return name →
  wp record_posts (register_each W D rest more) Φ
    (g ++ replicate (S (length round.1)) (registration_post W D command))%list t →
  wp record_posts
    (register_each W D (command :: rest)
       ((Return <$> round.1) ++ Return round.2 :: more)%list) Φ g t.
Proof.
  assert (Hlog := record_posts_log).
  intros [Hbusy Hok]%andb_prop Hname H.
  apply wp_register_busy; [done|].
  unfold accepting in Hok. apply andb_prop in Hok as [H429 Herr].
  apply negb_true_iff in H429, Herr.
  cbn [register_each]. apply wp_bind. eapply wp_emit; [reflexivity|].
  apply wp_bind, wp_lift. rewrite H429.
  apply wp_bind. rewrite raise_for_status_ok by done. apply wp_ret.
  rewrite Hname. apply wp_bind, wp_lift. apply wp_bind. wp_print.
  replace (S (length round.1)) with (length round.1 + 1)%nat in H by lia.
  rewrite replicate_add, app_assoc in H. exact H.
Qed.

Lemma wp_register_rounds W D {Φ} rounds pending more g t :
  forallb (well_formed_round D) rounds = true →
  (length rounds ≤ length pending)%nat →
  Forall named pending →
  wp record_posts (register_each W D (drop (length rounds) pending) more) Φ
    (g ++ registration_posts W D pending ((λ round, length round.1) <$> rounds))%list t →
  wp record_posts (register_each W D pending (rounds_answers rounds ++ more)%list) Φ g t.
Proof.
  revert pending g. induction rounds as [|round rounds IH]; intros pending g Hwf Hlen Hnamed H.
  - simpl in *. by rewrite registration_posts_nil, app_nil_r in H.
  - destruct pending as [|command rest]; [simpl in Hlen; lia|].
    simpl in Hwf. apply andb_prop in Hwf as [Hround Hwf].
    apply Forall_cons in Hnamed as [[name Hname] Hnamed].
    unfold rounds_answers. cbn [fmap list_fmap concat].
    rewrite <- !app_assoc. cbn [app].
    eapply wp_register_round; [done..|].
    apply IH; [done|simpl in Hlen; lia|done|].
    cbn [fmap list_fmap] in H. rewrite registration_posts_cons, app_assoc in H. exact H.
Qed.

Lemma register_each_done W D answers : register_each W D [] answers = mret (Some tt).
Proof. by destruct answers. Qed.


Lemma commands_named : Forall named commands.
Proof. repeat constructor; by eexists. Qed.

(** X24: a platform that ends up taking each command gets each command,
    and the registration returns.  When the token and the application id
    are set and the platform, for each command in turn, is busy any number
    of times (status 429, each time with a [Retry-After] header that is
    absent or that [int] reads) and then takes the command (a status that
    is neither 429 nor an HTTP error), [register_commands] returns, having
    posted each command once more than the platform was busy for it, in
    the order of the commands. *)
Theorem registration_completes W D rounds more t :
  is_set (BOT_TOKEN W) = true →
  is_set (APPLICATION_ID D) = true →
  forallb (well_formed_round D) rounds = true →
  length rounds = length commands →
  let run := register_commands W D (rounds_answers rounds ++ more)%list t in
  value run = Return (Some tt) ∧
  posted (effects run) =
    registration_posts W D commands ((λ round, length round.1) <$> rounds).
Proof.
  intros Htok Hid Hwf Hlen. cbv zeta.
  apply (wp_record_posts (register_commands W D (rounds_answers rounds ++ more)%list)
           (λ o _ g, o = Return (Some tt) ∧ g = _)).
  unfold register_commands. apply wp_try. rewrite Htok, Hid. simpl negb. cbn [orb].
  apply wp_register_rounds; [done|lia|apply commands_named|].
  rewrite Hlen, drop_all, register_each_done. by apply wp_ret.
Qed.


(** X26: there is no limit to the retries.  When the token and the
    application id are set and the platform is busy (status 429, with a
    [Retry-After] header that is absent or that [int] reads) for each of
    the answers it gives, however many, [register_commands] has posted
    the first command once for each answer and once more, and has not
    returned: the last post is waiting for its answer. *)
Theorem busy_platform_is_asked_without_end W D bs t :
  is_set (BOT_TOKEN W) = true →
  is_set (APPLICATION_ID D) = true →
  forallb (busy D) bs = true →
  let run := register_commands W D (Return <$> bs) t in
  value run = Return None ∧
  posted (effects run) =
    replicate (S (length bs)) (registration_post W D (default JNull (head commands))).
Proof.
  intros Htok Hid Hbusy. cbv zeta.
  apply (wp_record_posts (register_commands W D (Return <$> bs))
           (λ o _ g, o = Return None ∧ g = _)).
  unfold register_commands. apply wp_try. rewrite Htok, Hid. simpl negb. cbn [orb].
  rewrite <- (app_nil_r (Return <$> bs)). unfold commands at 1.
  apply wp_register_busy; [done|].
  cbn [register_each]. apply wp_bind. eapply wp_emit; [reflexivity|]. apply wp_ret.
  split; [done|]. cbn [app]. symmetry. apply replicate_cons_app.
Qed.

(** X27: without its configuration the registration posts nothing.  When
    the bot token or the application id is missing or empty,
    [register_commands] returns without a single post, whatever the
    platform would answer. *)
Theorem registration_needs_configuration W D answers t :
  is_set (BOT_TOKEN W) = false ∨ is_set (APPLICATION_ID D) = false →
  let run := register_commands W D answers t in
  value run = Return (Some tt) ∧ posted (effects run) = [] ∧ final run = t.
Proof.
  intros Hmiss. cbv zeta. assert (Hlog := record_posts_log).
  apply (wp_record_posts (register_commands W D answers)
           (λ o t' g, o = Return (Some tt) ∧ g = [] ∧ t' = t)).
  unfold register_commands. apply wp_try.
  assert (negb (is_set (BOT_TOKEN W)) || negb (is_set (APPLICATION_ID D)) = true) as ->.
  { destruct Hmiss as [-> | ->]; [done|]. by destruct (is_set (BOT_TOKEN W)). }
  apply wp_raise. simpl. wp_log. by apply wp_ret.
Qed.

(** ** Registration against the handler *)

(** X28: two of the registered commands are not served.  [earn] and
    [spend] are among the commands that [register_commands] posts, yet
    [handle_command] answers every request that names one of them with
    status 400 and [Unknown command], without a call and without
    touching the table. *)
Theorem earn_and_spend_are_registered_but_not_served W b i k t data name :
  name = "earn" ∨ name = "spend" →
  py_get b "data" (JObj []) = Return data →
  py_get data "name" JNull = Return (JStr name) →
  let run := handle_command W b i k t in
  (∃ command, command ∈ commands ∧ py_getitem command "name" = Return (JStr name)) ∧
  value run = Return (error_response W 400 "Unknown command") ∧
  final run = t ∧
  observe loud (effects run) = [].
Proof.
  intros Hname Hdata Hn. cbv zeta. split.
  - unfold commands. destruct Hname as [-> | ->]; eexists; split.
    + apply list_elem_of_further, list_elem_of_here.
    + reflexivity.
    + do 2 apply list_elem_of_further. apply list_elem_of_here.
    + reflexivity.
  - eapply handle_command_unknown; [done..|].
    intros name' Hin [= ->]. destruct Hname as [-> | ->]; set_solver.
Qed.

Lemma buy_options :
  options_of "buy" =
  [JObj [("name", JStr "Item 1 (10 tokens)"); ("value", JStr "item1")];
   JObj [("name", JStr "Item 2 (20 tokens)"); ("value", JStr "item2")];
   JObj [("name", JStr "Item 3 (30 tokens)"); ("value", JStr "item3")]].
Proof. reflexivity. Qed.

(** X29: the registration and the shop agree on what can be bought.  A
    value is offered as a choice of the registered [buy] command exactly
    when [buy_command] finds it in the shop, and the label of each choice
    shows the price that [buy_command] charges for it. *)
Theorem buy_choices_are_the_shop_items :
  (∀ item, (∃ choice, choice ∈ options_of "buy" ∧ py_getitem choice "value" = Return item) ↔
           (∃ price, shop_lookup item = Return (Some price))) ∧
  (∀ choice, choice ∈ options_of "buy" →
     ∃ item price label,
       py_getitem choice "value" = Return (JStr item) ∧
       assoc item shop_items = Some price ∧
       py_getitem choice "name" = Return (JStr label) ∧
       contains ("(" +:+ pretty price +:+ " tokens)") label = true).
Proof.
  rewrite buy_options. split.
  - intros item. split.
    + intros (choice & Hin & Hv).
      repeat (apply elem_of_cons in Hin as [-> | Hin];
              [injection Hv as <-; by eexists|]).
      inversion Hin.
    + intros (price & (s & -> & Hp)%shop_lookup_listed).
      unfold shop_items in Hp. simpl in Hp.
      destruct (String.eqb_spec s "item1") as [Hs|_].
      { rewrite Hs. eexists. split; [apply list_elem_of_here|reflexivity]. }
      destruct (String.eqb_spec s "item2") as [Hs|_].
      { rewrite Hs. eexists. split; [apply list_elem_of_further, list_elem_of_here|reflexivity]. }
      destruct (String.eqb_spec s "item3") as [Hs|_]; [|done].
      rewrite Hs. eexists. split; [do 2 apply list_elem_of_further; apply list_elem_of_here|reflexivity].
  - intros choice Hin.
    repeat (apply elem_of_cons in Hin as [-> | Hin];
            [eexists _, _, _; repeat split; vm_compute; reflexivity|]).
    inversion Hin.
Qed.

(** ** Concrete runs *)

(** X3, witness: 7 tokens added to a balance of 15, then taken back. *)
Lemma adjust_round_trip_witness :
  let W := demo_world dm_opened "image/png" in
  let t : gmap string (option Z) := {[ "u1" := Some 15 ]} in
  let t1 := final (update_user_tokens W (JStr "u1") 7 t) in
  let t2 := final (update_user_tokens W (JStr "u1") (- 7) t1) in
  balance t1 "u1" = 22 ∧ balance t2 "u1" = 15.
Proof.
  cbv zeta.
  destruct (adjust_round_trip (demo_world dm_opened "image/png") "u1" 7 {[ "u1" := Some 15 ]})
    as (H1 & H2 & _); [reflexivity..|].
  split; [exact H1|exact H2].
Defined.

(** X4, witness: a user without an item is credited 5 tokens and then
    read. *)
Lemma read_after_write_witness :
  let W := demo_world dm_opened "image/png" in
  value (get_user_tokens W (JStr "u2")
           (final (update_user_tokens W (JStr "u2") 5 ∅))) = Return 5.
Proof.
  cbv zeta.
  exact (read_after_write (demo_world dm_opened "image/png") "u2" 5 ∅ eq_refl eq_refl).
Defined.

(** X10, witness: a balance of 15, reported with the status of the
    platform's answer. *)
Lemma balance_command_reports_balance_witness :
  let W := demo_world dm_opened "image/png" in
  let t : gmap string (option Z) := {[ "u1" := Some 15 ]} in
  let run := balance_command W buy_item1 (JStr "77") (JStr "tok") t in
  observe loud (effects run) =
    [GetItem (JStr "u1");
     HttpPost (callback_url W (JStr "77") (JStr "tok")) [("Content-Type", "application/json")]
       (message_reply "<@u1>, you have 15 tokens.")] ∧
  final run = t ∧
  value run = Return {| statusCode := 204; headers := std_headers; body := EmptyString |}.
Proof.
  cbv zeta.
  exact (balance_command_reports_balance (demo_world dm_opened "image/png") buy_item1
           (JStr "77") (JStr "tok") {[ "u1" := Some 15 ]} "u1" no_content
           eq_refl eq_refl eq_refl).
Defined.

(** X11, witness: a request without a [member]. *)
Lemma commands_reject_missing_user_witness :
  let W := demo_world dm_opened "image/png" in
  let t : gmap string (option Z) := {[ "u1" := Some 15 ]} in
  value (balance_command W (JObj []) (JStr "77") (JStr "tok") t) =
    Return (error_response W 400 "Invalid user information") ∧
  value (buy_command W (JObj []) (JStr "77") (JStr "tok") t) =
    Return (error_response W 400 "Invalid item").
Proof.
  cbv zeta.
  destruct (commands_reject_missing_user (demo_world dm_opened "image/png") (JObj [])
              (JStr "77") (JStr "tok") {[ "u1" := Some 15 ]} (mk_exn KeyError "'member'"))
    as ((_ & _ & H1) & (_ & _ & H2)); [reflexivity|].
  split; [exact H1|exact H2].
Defined.

(** X13, witness: [item1] bought from a balance of 15. *)
Lemma buy_charges_the_price_once_witness :
  let W := demo_world dm_opened "image/png" in
  let t : gmap string (option Z) := {[ "u1" := Some 15 ]} in
  let run := buy_command W buy_item1 (JStr "77") (JStr "tok") t in
  balance (final run) "u1" = 5 ∧
  observe [BalanceRead; BalanceWrite] (effects run) =
    [GetItem (JStr "u1"); UpdateItem (JStr "u1") (- 10)].
Proof.
  cbv zeta.
  destruct (buy_charges_the_price_once (demo_world dm_opened "image/png") buy_item1
              (JStr "77") (JStr "tok") {[ "u1" := Some 15 ]} "u1" "item1" 10)
    as (_ & H1 & H2 & _); [reflexivity..|vm_compute; discriminate|].
  split; [exact H1|exact H2].
Defined.

(** X14, witness: a purchase of [item9]. *)
Lemma buy_unknown_item_is_free_witness :
  let W := demo_world dm_opened "image/png" in
  let t : gmap string (option Z) := {[ "u1" := Some 15 ]} in
  let run := buy_command W (command_body "buy" "u1" (JStr "item9")) (JStr "77") (JStr "tok") t in
  final run = t ∧
  observe loud (effects run) =
    [HttpPost (callback_url W (JStr "77") (JStr "tok")) [("Content-Type", "application/json")]
       (message_reply "<@u1>, the item item9 does not exist in the shop.")].
Proof.
  cbv zeta.
  apply (buy_unknown_item_is_free (demo_world dm_opened "image/png")
           (command_body "buy" "u1" (JStr "item9")) (JStr "77") (JStr "tok")
           {[ "u1" := Some 15 ]} (JStr "u1") (JStr "item9"));
    reflexivity.
Defined.

(** X15, witness: a request for [dance]. *)
Lemma unknown_command_is_rejected_witness :
  let W := demo_world dm_opened "image/png" in
  let t : gmap string (option Z) := {[ "u1" := Some 15 ]} in
  let run := handle_command W (command_body "dance" "u1" JNull) (JStr "77") (JStr "tok") t in
  value run = Return (error_response W 400 "Unknown command") ∧
  final run = t ∧
  observe loud (effects run) = [].
Proof.
  cbv zeta.
  apply (unknown_command_is_rejected (demo_world dm_opened "image/png")
           (command_body "dance" "u1" JNull) (JStr "77") (JStr "tok")
           {[ "u1" := Some 15 ]}
           (JObj [("name", JStr "dance"); ("options", JArr [JObj [("value", JNull)]])])
           (JStr "dance")); [reflexivity..|].
  intros name Hin [= <-]. vm_compute in Hin. set_solver.
Defined.

(** X19, witness: a signed purchase. *)
Lemma verified_message_is_timestamp_and_body_witness :
  let W := demo_world dm_opened "image/png" in
  let event := request (JStr good_signature_hex) (dumps_ascii buy_item1) in
  let run := lambda_handler W event JNull {[ "u1" := Some 15 ]} in
  ∃ s, JsonLoads s ∈ effects run ∧
       signed W event s ("1700000000" +:+ dumps_ascii buy_item1).
Proof.
  cbv zeta.
  apply (verified_message_is_timestamp_and_body (demo_world dm_opened "image/png")
           (request (JStr good_signature_hex) (dumps_ascii buy_item1)) JNull
           {[ "u1" := Some 15 ]} ("1700000000" +:+ dumps_ascii buy_item1) good_signature).
  apply list_elem_of_In. vm_compute. right. left. reflexivity.
Defined.

(** X20, witness: a signed ping. *)
Lemma ping_is_acknowledged_witness :
  let event := request (JStr good_signature_hex) (dumps_ascii ping) in
  let run := lambda_handler ping_world event JNull ∅ in
  value run = Return (successful_response ping_world ping) ∧
  final run = ∅ ∧
  observe loud (effects run) =
    [JsonLoads (dumps_ascii ping);
     Verify ("1700000000" +:+ dumps_ascii ping) good_signature].
Proof.
  cbv zeta.
  apply (ping_is_acknowledged ping_world
           (request (JStr good_signature_hex) (dumps_ascii ping)) JNull ∅
           (dumps_ascii ping) ping ("1700000000" +:+ dumps_ascii ping) good_signature
           (JNum 1)); [|reflexivity..].
  exists (JStr good_signature_hex), (JStr "1700000000"), (repeat x11 32).
  repeat (split; [vm_compute; reflexivity|]). vm_compute; reflexivity.
Defined.

(** X21, witness: a signed purchase reaches [handle_command]. *)
Lemma authentic_command_is_dispatched_witness :
  let W := demo_world dm_opened "image/png" in
  let t : gmap string (option Z) := {[ "u1" := Some 15 ]} in
  let run := lambda_handler W (request (JStr good_signature_hex) (dumps_ascii buy_item1))
               JNull t in
  let inner := handle_command W buy_item1 (JStr "77") (JStr "tok") t in
  value run = value inner ∧
  final run = final inner ∧
  observe loud (effects run) =
    JsonLoads (dumps_ascii buy_item1) ::
    Verify ("1700000000" +:+ dumps_ascii buy_item1) good_signature ::
    observe loud (effects inner).
Proof.
  cbv zeta.
  apply (authentic_command_is_dispatched (demo_world dm_opened "image/png")
           (request (JStr good_signature_hex) (dumps_ascii buy_item1)) JNull
           {[ "u1" := Some 15 ]}
           (dumps_ascii buy_item1) buy_item1 ("1700000000" +:+ dumps_ascii buy_item1)
           good_signature (JNum 2) (JStr "77") (JStr "tok")); [|reflexivity..].
  exists (JStr good_signature_hex), (JStr "1700000000"), (repeat x11 32).
  repeat (split; [vm_compute; reflexivity|]). vm_compute; reflexivity.
Defined.

(** X22, witness: an event without headers. *)
Lemma missing_header_is_rejected_first_witness :
  let W := demo_world dm_opened "image/png" in
  let run := lambda_handler W (JObj []) JNull {[ "u1" := Some 15 ]} in
  value run = Return (error_response W 400 "Missing signature or timestamp") ∧
  final run = {[ "u1" := Some 15 ]} ∧
  observe loud (effects run) = [].
Proof.
  cbv zeta.
  apply (missing_header_is_rejected_first (demo_world dm_opened "image/png") (JObj []) JNull
           {[ "u1" := Some 15 ]} JNull JNull); [reflexivity|left; reflexivity].
Defined.

(** X24, witness: the platform is busy twice for the first command and
    takes the others at once: eight posts. *)
Lemma registration_completes_witness :
  let W := demo_world dm_opened "image/png" in
  let rounds := ([too_many_requests (Some "2"); too_many_requests None], created) ::
                replicate 5 ([], created) in
  let run := register_commands W deployment (rounds_answers rounds ++ [])%list ∅ in
  value run = Return (Some tt) ∧
  posted (effects run) = registration_posts W deployment commands [2; 0; 0; 0; 0; 0]%nat.
Proof.
  cbv zeta.
  apply (registration_completes (demo_world dm_opened "image/png") deployment
           (([too_many_requests (Some "2"); too_many_requests None], created) ::
            replicate 5 ([], created)) [] ∅); reflexivity.
Defined.


(** X26, witness: three busy answers, four posts of [balance]. *)
Lemma busy_platform_is_asked_without_end_witness :
  let W := demo_world dm_opened "image/png" in
  let run := register_commands W deployment
               (Return <$> replicate 3 (too_many_requests (Some "2"))) ∅ in
  value run = Return None ∧
  posted (effects run) =
    replicate 4 (registration_post W deployment (default JNull (head commands))).
Proof.
  cbv zeta.
  apply (busy_platform_is_asked_without_end (demo_world dm_opened "image/png") deployment
           (replicate 3 (too_many_requests (Some "2"))) ∅); reflexivity.
Defined.

(** X27, witness: no application id. *)
Lemma registration_needs_configuration_witness :
  let W := demo_world dm_opened "image/png" in
  let D := {| APPLICATION_ID := None; py_int := py_int deployment |} in
  let run := register_commands W D [Return created] ∅ in
  value run = Return (Some tt) ∧ posted (effects run) = [] ∧ final run = ∅.
Proof.
  cbv zeta.
  apply (registration_needs_configuration (demo_world dm_opened "image/png")
           {| APPLICATION_ID := None; py_int := py_int deployment |} [Return created] ∅).
  right. reflexivity.
Defined.

(** X28, witness: a request for [earn]. *)
Lemma earn_and_spend_are_registered_but_not_served_witness :
  let W := demo_world dm_opened "image/png" in
  let run := handle_command W (command_body "earn" "u1" (JNum 5)) (JStr "77") (JStr "tok") ∅ in
  value run = Return (error_response W 400 "Unknown command") ∧
  final run = ∅ ∧
  observe loud (effects run) = [].
Proof.
  cbv zeta.
  destruct (earn_and_spend_are_registered_but_not_served (demo_world dm_opened "image/png")
              (command_body "earn" "u1" (JNum 5)) (JStr "77") (JStr "tok") ∅
              (JObj [("name", JStr "earn"); ("options", JArr [JObj [("value", JNum 5)]])])
              "earn") as (_ & H); [left; reflexivity|reflexivity..|].
  exact H.
Defined.
